(** * The application state manager of the controller

    A shallow embedding of the state-comparison engine of the application
    controller (package [controller]: [GetRepoObjs],
    [DeduplicateTargetObjects], [normalizeClusterScopeTracking],
    [getComparisonSettings], [verifyGnuPGSignature], [CompareAppState],
    [useDiffCache], [specEqualsCompareTo], [isSelfReferencedObj]) and the
    properties its specification states about it, followed by the
    pull-request generator of the application sets (package [generators]:
    [GetRequeueAfter], [GenerateParams]).

    Conventions.
    - A Go pointer that may be [nil] is an [option]; a slice is a [list]
      (a nil slice and an empty slice are both [[]]); a Go [map] that the
      code only builds and ranges over is an association list in insertion
      order, the [sync.Map] keyed by application name is a [gmap].
    - A Go [(value, error)] pair is a [result]; a run of the comparison that
      indexes a slice out of range ends in [Panic].
    - Everything the engine consumes from other packages (settings, the
      repository server, the cluster cache, the diff engine, the API types'
      methods) is a field of a record of collaborators; the theorems hold for
      every implementation of them. *)

From Stdlib Require Import ZArith Lia Ascii.
From stdpp Require Import base strings list gmap pretty.

Open Scope string_scope.
Open Scope list_scope.
Open Scope stdpp_scope.

(** ** Errors and results *)

(** Go [error] values. [errors_New] is [errors.New(msg)]; [fmt_Errorf p e] is
    [fmt.Errorf("<p>: %w", e)], an error that wraps [e]. *)
Inductive error : Type :=
| errors_New (msg : string)
| fmt_Errorf (prefix : string) (cause : error).

Fixpoint Error (e : error) : string :=
  match e with
  | errors_New msg => msg
  | fmt_Errorf prefix cause => prefix +:+ ": " +:+ Error cause
  end.

#[global] Instance error_eq_dec : EqDecision error.
Proof. solve_decision. Defined.

(** [var ErrCompareStateRepo = errors.New("failed to get repo objects")] *)
Definition ErrCompareStateRepo : error := errors_New "failed to get repo objects".

(** A [(value, error)] return. *)
Inductive result (A : Type) : Type :=
| Ok (a : A)
| Err (e : error).
Arguments Ok {A} a.
Arguments Err {A} e.

(** The end of a call: a normal return, an error return, or a run-time panic. *)
Inductive outcome (A : Type) : Type :=
| Returned (a : A)
| Failed (e : error)
| Panic.
Arguments Returned {A} a.
Arguments Failed {A} e.
Arguments Panic {A}.

(** [strconv.Quote] as used by the [%q] verb, for strings without characters
    that need escaping. *)
Definition dquote : string := String (Ascii.ascii_of_nat 34) EmptyString.
Definition Quote (s : string) : string := dquote +:+ s +:+ dquote.

(** [time.Time] and [time.Duration], in nanoseconds. *)
Abbreviation Time := Z (only parsing).
Abbreviation Duration := Z (only parsing).

(** ** Kubernetes objects *)

Record GroupKind := mkGroupKind { gk_Group : string; gk_Kind : string }.

Record GroupVersionKind := mkGVK {
  gvk_Group : string; gvk_Version : string; gvk_Kind : string }.

Definition GVK_GroupKind (gvk : GroupVersionKind) : GroupKind :=
  mkGroupKind (gvk_Group gvk) (gvk_Kind gvk).

(** [kube.ResourceKey] *)
Record ResourceKey := mkResourceKey {
  rk_Group : string; rk_Kind : string; rk_Namespace : string; rk_Name : string }.

#[global] Instance GroupKind_eq_dec : EqDecision GroupKind.
Proof. solve_decision. Defined.
#[global] Instance GroupVersionKind_eq_dec : EqDecision GroupVersionKind.
Proof. solve_decision. Defined.
#[global] Instance ResourceKey_eq_dec : EqDecision ResourceKey.
Proof. solve_decision. Defined.

(** [unstructured.Unstructured]: the fields of a resource document that the
    engine reads or writes through the accessor methods. *)
Record Unstructured := mkUnstructured {
  u_gvk : GroupVersionKind;
  u_namespace : string;
  u_name : string;
  u_generateName : string;
  u_resourceVersion : string;
  u_labels : list (string * string);
  u_annotations : list (string * string) }.

#[global] Instance Unstructured_eq_dec : EqDecision Unstructured.
Proof. solve_decision. Defined.

Definition GroupVersionKind_of (u : Unstructured) : GroupVersionKind := u_gvk u.
Definition GetNamespace (u : Unstructured) : string := u_namespace u.
Definition GetName (u : Unstructured) : string := u_name u.
Definition GetKind (u : Unstructured) : string := gvk_Kind (u_gvk u).
Definition GetGenerateName (u : Unstructured) : string := u_generateName u.
Definition GetResourceVersion (u : Unstructured) : string := u_resourceVersion u.

Definition SetNamespace (u : Unstructured) (ns : string) : Unstructured :=
  {| u_gvk := u_gvk u; u_namespace := ns; u_name := u_name u;
     u_generateName := u_generateName u;
     u_resourceVersion := u_resourceVersion u;
     u_labels := u_labels u; u_annotations := u_annotations u |}.

(** [kube.NamespaceKind] *)
Definition NamespaceKind : string := "Namespace".

(** [kube.ResourceInfoProvider]: answers whether a group-kind is namespaced. *)
Definition ResourceInfoProvider := GroupKind -> result bool.

(** [resourceInfoProviderStub.IsNamespaced] returns [false, nil]. *)
Definition resourceInfoProviderStub : ResourceInfoProvider := fun _ => Ok false.

(** ** API types (package [v1alpha1]) *)

(** [SyncStatusCode] is a string type; the zero value is the empty string. *)
Definition SyncStatusCode := string.
Definition SyncStatusCodeUnknown : SyncStatusCode := "Unknown".
Definition SyncStatusCodeSynced : SyncStatusCode := "Synced".
Definition SyncStatusCodeOutOfSync : SyncStatusCode := "OutOfSync".

Definition HealthStatusCode := string.
Definition HealthStatusUnknown : HealthStatusCode := "Unknown".

Definition TrackingMethod := string.
Definition TrackingMethodLabel : TrackingMethod := "label".

Definition ApplicationConditionType := string.
Definition ApplicationConditionComparisonError : ApplicationConditionType := "ComparisonError".
Definition ApplicationConditionInvalidSpecError : ApplicationConditionType := "InvalidSpecError".
Definition ApplicationConditionUnknownError : ApplicationConditionType := "UnknownError".
Definition ApplicationConditionSharedResourceWarning : ApplicationConditionType :=
  "SharedResourceWarning".
Definition ApplicationConditionRepeatedResourceWarning : ApplicationConditionType :=
  "RepeatedResourceWarning".
Definition ApplicationConditionExcludedResourceWarning : ApplicationConditionType :=
  "ExcludedResourceWarning".

Record ApplicationCondition := mkCondition {
  cond_Type : ApplicationConditionType;
  cond_Message : string;
  cond_LastTransitionTime : option Time }.

#[global] Instance ApplicationCondition_eq_dec : EqDecision ApplicationCondition.
Proof. solve_decision. Defined.

Record ApplicationSource := mkSource {
  src_RepoURL : string;
  src_Path : string;
  src_TargetRevision : string;
  src_Chart : string;
  src_Ref : string }.

Definition zeroSource : ApplicationSource := mkSource "" "" "" "" "".

Record ApplicationDestination := mkDestination {
  dest_Server : string; dest_Namespace : string; dest_Name : string }.

(** [ResourceIgnoreDifferences] entries are only copied and compared. *)
Definition ResourceIgnoreDifferences := string.

Record ComparedTo := mkComparedTo {
  ct_Source : ApplicationSource;
  ct_Destination : ApplicationDestination;
  ct_Sources : list ApplicationSource;
  ct_IgnoreDifferences : list ResourceIgnoreDifferences }.

Record SyncStatus := mkSyncStatus {
  sync_Status : SyncStatusCode;
  sync_ComparedTo : ComparedTo;
  sync_Revision : string;
  sync_Revisions : list string }.

Record SyncPolicy := mkSyncPolicy {
  sp_ManagedNamespaceMetadata : option (list (string * string));
  sp_SyncOptions : list string }.

Record ApplicationSpec := mkSpec {
  spec_Source : option ApplicationSource;
  spec_Destination : ApplicationDestination;
  spec_Project : string;
  spec_SyncPolicy : option SyncPolicy;
  spec_IgnoreDifferences : list ResourceIgnoreDifferences;
  spec_Sources : list ApplicationSource }.

Record ApplicationStatus := mkStatus {
  status_Sync : SyncStatus;
  status_ReconciledAt : option Time;
  status_Conditions : list ApplicationCondition }.

Record Application := mkApplication {
  app_Name : string;
  app_Namespace : string;
  app_Annotations : list (string * string);
  app_Spec : ApplicationSpec;
  app_Status : ApplicationStatus }.

Record SignatureKey := mkSignatureKey { sk_KeyID : string }.

Record AppProject := mkProject {
  proj_Name : string;
  proj_SourceRepos : list string;
  proj_SignatureKeys : list SignatureKey }.

#[global] Instance ApplicationSource_eq_dec : EqDecision ApplicationSource.
Proof. solve_decision. Defined.
#[global] Instance ApplicationDestination_eq_dec : EqDecision ApplicationDestination.
Proof. solve_decision. Defined.
#[global] Instance ComparedTo_eq_dec : EqDecision ComparedTo.
Proof. solve_decision. Defined.
#[global] Instance SyncStatus_eq_dec : EqDecision SyncStatus.
Proof. solve_decision. Defined.
#[global] Instance SyncPolicy_eq_dec : EqDecision SyncPolicy.
Proof. solve_decision. Defined.
#[global] Instance ApplicationSpec_eq_dec : EqDecision ApplicationSpec.
Proof. solve_decision. Defined.

Record ResourceStatus := mkResourceStatus {
  rs_Group : string;
  rs_Version : string;
  rs_Kind : string;
  rs_Namespace : string;
  rs_Name : string;
  rs_Status : SyncStatusCode;
  rs_Hook : bool;
  rs_RequiresPruning : bool;
  rs_SyncWave : Z;
  rs_RequiresDeletionConfirmation : bool }.

(** The zero value of the struct, which [make([]ResourceStatus, n)] fills in. *)
Definition zeroResourceStatus : ResourceStatus :=
  mkResourceStatus "" "" "" "" "" "" false false 0 false.

(** [argo.AppInstanceValue], the parsed tracking id. *)
Record AppInstanceValue := mkAppInstanceValue {
  aiv_ApplicationName : string;
  aiv_Group : string;
  aiv_Kind : string;
  aiv_Namespace : string;
  aiv_Name : string }.

(** [AnnotationKeyManifestGeneratePaths] *)
Definition AnnotationKeyManifestGeneratePaths : string :=
  "argocd.argoproj.io/manifest-generate-paths".

(** [common.AnnotationCompareOptions] *)
Definition AnnotationCompareOptions : string := "argocd.argoproj.io/compare-options".

(** Lookup in a [map[string]string], with the [ok] flag as an [option]. *)
Fixpoint lookupString (k : string) (m : list (string * string)) : option string :=
  match m with
  | [] => None
  | (k', v) :: m' => if bool_decide (k' = k) then Some v else lookupString k m'
  end.

(** ** Messages of the repository server (package [apiclient]) *)

Record ManifestResponse := mkManifestResponse {
  mr_Manifests : list string;
  mr_Revision : string;
  mr_SourceType : string;
  mr_VerifyResult : string }.

Record UpdateRevisionForPathsResponse := mkUpdateRevisionResponse {
  ur_Changes : bool;
  ur_Revision : string }.

(** Values that the engine only passes on to a collaborator. *)
Record Repository := mkRepository { repo_Repo : string }.
Record RepoCreds := mkRepoCreds { creds_URL : string }.
Record Cluster := mkCluster { cluster_Server : string; cluster_Name : string }.
Record APIResourceInfo := mkAPIResourceInfo { api_GroupKind : GroupKind; api_Version : string }.
Record KustomizeSettings := mkKustomizeSettings { kustomize_BuildOptions : string }.
Record HelmOptions := mkHelmOptions { helm_ValuesFileSchemes : list string }.
Record ResourceOverride := mkResourceOverride { override_Actions : string }.
Record IgnoreNormalizerOpts := mkIgnoreNormalizerOpts { jq_ExecutionTimeout : Duration }.
Record DiffOptions := mkDiffOptions {
  opt_IgnoreAggregatedRoles : bool;
  opt_IgnoreResourceStatusField : string }.
Definition RefTargetRevisionMapping := list (string * (Repository * string)).

(** [settings.ResourcesFilter], through its method [IsExcludedResource]. *)
Definition ResourcesFilter := string -> string -> string -> bool.

Record UpdateRevisionForPathsRequest := mkUpdateRevisionRequest {
  urq_Repo : Repository;
  urq_Revision : string;
  urq_SyncedRevision : string;
  urq_NoRevisionCache : bool;
  urq_Paths : list string;
  urq_AppLabelKey : string;
  urq_AppName : string;
  urq_Namespace : string;
  urq_ApplicationSource : ApplicationSource;
  urq_KubeVersion : string;
  urq_ApiVersions : list string;
  urq_TrackingMethod : string;
  urq_RefSources : RefTargetRevisionMapping;
  urq_HasMultipleSources : bool;
  urq_InstallationID : string }.

Record ManifestRequest := mkManifestRequest {
  mq_Repo : Repository;
  mq_Repos : list Repository;
  mq_Revision : string;
  mq_NoCache : bool;
  mq_NoRevisionCache : bool;
  mq_AppLabelKey : string;
  mq_AppName : string;
  mq_Namespace : string;
  mq_ApplicationSource : ApplicationSource;
  mq_KustomizeOptions : KustomizeSettings;
  mq_KubeVersion : string;
  mq_ApiVersions : list string;
  mq_VerifySignature : bool;
  mq_HelmRepoCreds : list RepoCreds;
  mq_TrackingMethod : string;
  mq_EnabledSourceTypes : list (string * bool);
  mq_HelmOptions : HelmOptions;
  mq_HasMultipleSources : bool;
  mq_RefSources : RefTargetRevisionMapping;
  mq_ProjectName : string;
  mq_ProjectSourceRepos : list string;
  mq_AnnotationManifestGeneratePaths : string;
  mq_InstallationID : string }.

(** ** The diff engine's data (packages [diff] and [argodiff]) *)

Record DiffResult := mkDiffResult {
  diff_Modified : bool;
  diff_NormalizedLive : string;
  diff_PredictedLive : string }.

Record DiffResultList := mkDiffResultList {
  diffs_Diffs : list DiffResult;
  diffs_Modified : bool }.

(** What the diff-config builder has been given when [Build] is called; [None]
    in an optional field means that the builder's default stands. *)
Record DiffConfig := mkDiffConfig {
  dc_Ignores : list ResourceIgnoreDifferences;
  dc_Overrides : list (string * ResourceOverride);
  dc_IgnoreAggregatedRoles : bool;
  dc_IgnoreNormalizerOpts : IgnoreNormalizerOpts;
  dc_AppLabelKey : string;
  dc_TrackingMethod : string;
  dc_NoCache : bool;
  dc_AppName : string;
  dc_IgnoreMutationWebhook : option bool;
  dc_GVKParser : option string;
  dc_Manager : string;
  dc_ServerSideDiff : bool;
  dc_ServerSideDryRunner : option string;
  dc_StructuredMergeDiff : option bool }.

(** [common.ArgoCDSSAManager] *)
Definition ArgoCDSSAManager : string := "argocd-controller".

(** [sync.ReconciliationResult]: two index-aligned slices. *)
Record ReconciliationResult := mkReconciliation {
  rec_Live : list (option Unstructured);
  rec_Target : list (option Unstructured);
  rec_Hooks : list Unstructured }.

(** [gpg.PGPVerifyResult] *)
Record PGPVerifyResult := mkPGPVerifyResult {
  pgp_KeyID : string;
  pgp_Cipher : string;
  pgp_Result : string;
  pgp_Message : string }.

(** ** The engine's own types *)

Record managedResource := mkManagedResource {
  mres_Target : option Unstructured;
  mres_Live : option Unstructured;
  mres_Diff : DiffResult;
  mres_Group : string;
  mres_Version : string;
  mres_Kind : string;
  mres_Namespace : string;
  mres_Name : string;
  mres_Hook : bool;
  mres_ResourceVersion : string }.

Definition zeroDiffResult : DiffResult := mkDiffResult false "" "".

Definition zeroManagedResource : managedResource :=
  mkManagedResource None None zeroDiffResult "" "" "" "" "" false "".

(** [comparisonResult]; [timings] is the list of the checkpoints the pass went
    through (the durations themselves are not modelled), [None] when the
    field was never assigned. *)
Record comparisonResult := mkComparisonResult {
  syncStatus : SyncStatus;
  healthStatus : HealthStatusCode;
  resources : list ResourceStatus;
  managedResources : list managedResource;
  reconciliationResult : ReconciliationResult;
  diffConfig : option DiffConfig;
  appSourceType : string;
  appSourceTypes : list string;
  timings : option (list string);
  diffResultList : option DiffResultList;
  hasPostDeleteHooks : bool;
  revisionsMayHaveChanges : bool }.

Definition GetSyncStatus (res : comparisonResult) : SyncStatus := syncStatus res.
Definition GetHealthStatus (res : comparisonResult) : HealthStatusCode := healthStatus res.

(** ** Collaborators *)

(** [db.ArgoDB] *)
Record ArgoDB := mkArgoDB {
  ListHelmRepositories : result (list Repository);
  ListOCIRepositories : result (list Repository);
  GetAllHelmRepositoryCredentials : result (list RepoCreds);
  GetAllOCIRepositoryCredentials : result (list RepoCreds);
  GetRepository : string -> string -> result Repository;
  GetProjectClusters : string -> result (list Cluster) }.

(** [settings.SettingsManager] *)
Record SettingsManager := mkSettingsManager {
  GetResourceOverrides : result (list (string * ResourceOverride));
  GetAppInstanceLabelKey : result string;
  GetResourcesFilter : result ResourcesFilter;
  GetInstallationID : result string;
  GetTrackingMethod : result string;
  GetEnabledSourceTypes : result (list (string * bool));
  GetKustomizeSettings : result KustomizeSettings;
  GetHelmSettings : result HelmOptions;
  GetResourceCompareOptions : result DiffOptions }.

(** [apiclient.RepoServerServiceClient] *)
Record RepoServerServiceClient := mkRepoClient {
  UpdateRevisionForPaths : UpdateRevisionForPathsRequest -> result UpdateRevisionForPathsResponse;
  GenerateManifest : ManifestRequest -> result ManifestResponse }.

(** [statecache.LiveStateCache]. [GetManagedLiveObjs] gives the live objects
    in the order in which the engine ranges over the map. *)
Record LiveStateCache := mkLiveStateCache {
  GetVersionsInfo : Cluster -> result (string * list APIResourceInfo);
  GetClusterCache : Cluster -> result ResourceInfoProvider;
  GetManagedLiveObjs :
    Cluster -> Application -> list Unstructured ->
    result (list (ResourceKey * option Unstructured));
  IsNamespaced : Cluster -> GroupKind -> bool * option error }.

(** [argo.ResourceTracking]. [SetAppInstance] writes the tracking id into the
    object it is given and may fail. *)
Record ResourceTracking := mkResourceTracking {
  SetAppInstance :
    Unstructured -> string -> string -> string -> TrackingMethod -> string ->
    Unstructured * option error;
  GetAppName : Unstructured -> string -> TrackingMethod -> string -> string;
  GetAppInstance : Unstructured -> TrackingMethod -> string -> option AppInstanceValue }.

(** Functions and methods of other packages that the engine calls. *)
Record Packages := mkPackages {
  (* package argo *)
  GetPermittedRepos : AppProject -> list Repository -> result (list Repository);
  GetPermittedReposCredentials : AppProject -> list RepoCreds -> result (list RepoCreds);
  GetDestinationCluster : ApplicationDestination -> ArgoDB -> result Cluster;
  GetRefSources :
    list ApplicationSource -> string -> ArgoDB -> list string ->
    result RefTargetRevisionMapping;
  APIResourcesToStrings : list APIResourceInfo -> bool -> list string;
  UnstructuredToAppInstanceValue : Unstructured -> string -> string -> AppInstanceValue;
  (* package path *)
  GetAppRefreshPaths : Application -> list string;
  (* package kube *)
  IsNamespacedOrUnknown : ResourceInfoProvider -> GroupKind -> bool;
  GetResourceKey : Unstructured -> ResourceKey;
  ResourceKey_String : ResourceKey -> string;
  GVK_String : GroupVersionKind -> string;
  ToUnstructured : Unstructured -> result Unstructured;
  (* package gpg *)
  IsGPGEnabled : bool;
  ParseGitCommitVerification : string -> PGPVerifyResult;
  gpg_KeyID : string -> string;
  VerifyResultGood : string;
  VerifyResultInvalid : string;
  (* package v1alpha1 *)
  UnmarshalToUnstructured : string -> result (option Unstructured);
  IsHelm : ApplicationSource -> bool;
  IsOCI : ApplicationSource -> bool;
  HasMultipleSources : ApplicationSpec -> bool;
  InstanceName : Application -> string -> string;
  QualifiedName : Application -> string;
  GetAnnotation : Application -> string -> string;
  IsRefreshRequested : Application -> string * bool;
  Expired : ApplicationStatus -> Duration -> bool;
  GetRevisions : ApplicationStatus -> list string;
  BuildComparedToStatus :
    ApplicationSpec -> list ApplicationSource -> ApplicationSpec * ComparedTo;
  HasChangedManagedNamespaceMetadata : Application -> bool;
  IsLiveResourcePermitted :
    AppProject -> option Unstructured -> Cluster -> ArgoDB -> result bool;
  IsGroupKindPermitted : AppProject -> GroupKind -> bool -> bool;
  SyncOptions_HasOption : list string -> string -> bool;
  (* packages resource, hook, ignore, syncwaves of the sync engine *)
  HasAnnotationOption : Unstructured -> string -> string -> bool;
  AppHasAnnotationOption : Application -> string -> string -> bool;
  ignore_Ignore : Unstructured -> bool;
  hookutil_Skip : Unstructured -> bool;
  syncwaves_Wave : Unstructured -> Z;
  Reconcile :
    list Unstructured -> list (ResourceKey * option Unstructured) -> string ->
    ResourceInfoProvider -> ReconciliationResult;
  (* packages settings and argodiff *)
  GetDefaultDiffOptions : DiffOptions;
  DiffConfigBuilder_Build : DiffConfig -> option DiffConfig;
  StateDiffs :
    list (option Unstructured) -> list (option Unstructured) -> option DiffConfig ->
    result DiffResultList;
  NewK8sServerSideDryRunner : option string -> option string;
  (* other files of package controller *)
  isHook : Unstructured -> bool;
  isPostDeleteHook : Unstructured -> bool;
  syncNamespace :
    option SyncPolicy -> Unstructured -> Unstructured -> Unstructured * option error;
  getGVKParser : Cluster -> option string * option error;
  getServerSideDiffDryRunApplier : Cluster -> option string * option error;
  setApplicationHealth :
    list managedResource -> list ResourceStatus -> list (string * ResourceOverride) ->
    Application -> bool -> HealthStatusCode * option error }.

(** [synccommon.AnnotationSyncOptions], [synccommon.SyncOptionDeleteRequireConfirm] *)
Definition AnnotationSyncOptions : string := "argocd.argoproj.io/sync-options".
Definition SyncOptionDeleteRequireConfirm : string := "Delete=confirm".

(** [appStateManager]. The field [repoErrorCache] is mutable; it is threaded
    through [CompareAppState] as an explicit state. *)
Record appStateManager := mkAppStateManager {
  db : ArgoDB;
  settingsMgr : SettingsManager;
  repoClientset : result RepoServerServiceClient;
  liveStateCache : LiveStateCache;
  namespace : string;
  statusRefreshTimeout : Duration;
  resourceTracking : ResourceTracking;
  persistResourceHealth : bool;
  repoErrorGracePeriod : Duration;
  serverSideDiff : bool;
  ignoreNormalizerOpts : IgnoreNormalizerOpts }.

(** ** Error plumbing *)

(** [if err != nil { return ..., fmt.Errorf("<prefix>: %w", err) }] *)
Definition orFail {A B : Type} (r : result A) (prefix : string)
    (k : A -> outcome B) : outcome B :=
  match r with
  | Ok a => k a
  | Err e => Failed (fmt_Errorf prefix e)
  end.

Notation "'let?' x ':=' r 'or' p 'in' k" :=
  (orFail r p (fun x => k))
  (at level 10, x pattern, r at level 100, p at level 100, k at level 200).

Definition eqb_string (a b : string) : bool := bool_decide (a = b).
Infix "=?s" := eqb_string (at level 70).

(** The text of [fmt.Errorf]'s message for "source <i+1> of <n>". *)
Definition sourceOrdinal (i n : nat) : string :=
  "source " +:+ pretty (i + 1)%nat +:+ " of " +:+ pretty n.

(** ** Manifest acquisition *)

Section Controller.

Variable P : Packages.

(** [unmarshalManifests] *)
Fixpoint unmarshalManifests (manifests : list string)
    : result (list (option Unstructured)) :=
  match manifests with
  | [] => Ok []
  | manifest :: rest =>
      match UnmarshalToUnstructured P manifest with
      | Err e => Err e
      | Ok obj =>
          match unmarshalManifests rest with
          | Err e => Err e
          | Ok objs => Ok (obj :: objs)
          end
      end
  end.

(** The values [GetRepoObjs] has looked up before it ranges over the sources. *)
Record repoObjsOptions := mkRepoObjsOptions {
  permittedHelmRepos : list Repository;
  permittedOCIRepos : list Repository;
  permittedHelmCredentials : list RepoCreds;
  permittedOCICredentials : list RepoCreds;
  enabledSourceTypes : list (string * bool);
  kustomizeSettings : KustomizeSettings;
  helmOptions : HelmOptions;
  opt_trackingMethod : string;
  opt_installationID : string;
  serverVersion : string;
  apiResources : list APIResourceInfo;
  repoClient : RepoServerServiceClient;
  refSources : RefTargetRevisionMapping }.

(** The part of [GetRepoObjs] before the loop over the sources. *)
Definition GetRepoObjs_options (m : appStateManager) (app : Application)
    (sources : list ApplicationSource) (revisions : list string)
    (proj : AppProject) (sendRuntimeState : bool) : outcome repoObjsOptions :=
  let? helmRepos := ListHelmRepositories (db m)
    or "failed to list Helm repositories" in
  let? permittedHelmRepos := GetPermittedRepos P proj helmRepos
    or "failed to get permitted Helm repositories for project " +:+ Quote (proj_Name proj) in
  let? ociRepos := ListOCIRepositories (db m)
    or "failed to list OCI repositories" in
  let? permittedOCIRepos := GetPermittedRepos P proj ociRepos
    or "failed to get permitted OCI repositories for project " +:+ Quote (proj_Name proj) in
  let? helmRepositoryCredentials := GetAllHelmRepositoryCredentials (db m)
    or "failed to get Helm credentials" in
  let? permittedHelmCredentials := GetPermittedReposCredentials P proj helmRepositoryCredentials
    or "failed to get permitted Helm credentials for project " +:+ Quote (proj_Name proj) in
  let? ociRepositoryCredentials := GetAllOCIRepositoryCredentials (db m)
    or "failed to get OCI credentials" in
  let? permittedOCICredentials := GetPermittedReposCredentials P proj ociRepositoryCredentials
    or "failed to get permitted OCI credentials for project " +:+ Quote (proj_Name proj) in
  let? enabledSourceTypes := GetEnabledSourceTypes (settingsMgr m)
    or "failed to get enabled source types" in
  let? kustomizeSettings := GetKustomizeSettings (settingsMgr m)
    or "failed to get Kustomize settings" in
  let? helmOptions := GetHelmSettings (settingsMgr m)
    or "failed to get Helm settings" in
  let? trackingMethod := GetTrackingMethod (settingsMgr m)
    or "failed to get trackingMethod" in
  let? installationID := GetInstallationID (settingsMgr m)
    or "failed to get installation ID" in
  let? destCluster := GetDestinationCluster P (spec_Destination (app_Spec app)) (db m)
    or "failed to get destination cluster" in
  let? versions :=
      (if sendRuntimeState then GetVersionsInfo (liveStateCache m) destCluster
       else Ok ("", []))
    or "failed to get cluster version for cluster " +:+ Quote (cluster_Server destCluster) in
  let? repoClient := repoClientset m
    or "failed to connect to repo server" in
  let? refSources := GetRefSources P sources (spec_Project (app_Spec app)) (db m) revisions
    or "failed to get ref sources" in
  Returned (mkRepoObjsOptions permittedHelmRepos permittedOCIRepos
              permittedHelmCredentials permittedOCICredentials
              enabledSourceTypes kustomizeSettings helmOptions
              trackingMethod installationID versions.1 versions.2
              repoClient refSources).

(** The revision the application was last synced to, for source [i]. *)
Definition syncedRevisionOf (app : Application) (i : nat) : string :=
  if HasMultipleSources P (app_Spec app) then
    if bool_decide (i < length (sync_Revisions (status_Sync (app_Status app))))%nat
    then default "" (sync_Revisions (status_Sync (app_Status app)) !! i)
    else ""
  else sync_Revision (status_Sync (app_Status app)).

(** The guard of the preliminary path-change check: the check is made for a
    source exactly when this holds. *)
Definition checksPathChanges (app : Application) (source : ApplicationSource)
    (syncedRevision : string) : bool :=
  negb (IsHelm P source) && negb (IsOCI P source)
  && negb (syncedRevision =?s "")
  && match lookupString AnnotationKeyManifestGeneratePaths (app_Annotations app) with
     | Some val => negb (val =?s "")
     | None => false
     end.

(** The variables the loop of [GetRepoObjs] updates. *)
Record repoObjsLoop := mkRepoObjsLoop {
  loop_revisions : list string;
  loop_targetObjs : list (option Unstructured);
  loop_manifestInfos : list ManifestResponse;
  loop_revisionsMayHaveChanges : bool }.

(** One iteration of [for i, source := range sources]. The first component
    is the [revisions] slice as the iteration leaves it. *)
Definition GetRepoObjs_source (m : appStateManager) (app : Application)
    (nsources : nat) (appLabelKey : string)
    (noCache noRevisionCache verifySignature : bool) (proj : AppProject)
    (sendRuntimeState : bool) (o : repoObjsOptions)
    (i : nat) (source : ApplicationSource) (st : repoObjsLoop)
    : list string * outcome repoObjsLoop :=
  let revisions := loop_revisions st in
  let overwrite :=
    bool_decide (length revisions < nsources)%nat
    || bool_decide (revisions !! i = Some "") in
  if overwrite && negb (bool_decide (i < length revisions)%nat) then (revisions, Panic)
  else
  let revisions :=
    if overwrite then <[i := src_TargetRevision source]> revisions else revisions in
  match revisions !! i with
  | None => (revisions, Panic)
  | Some revision0 =>
  (revisions,
  let? repo := GetRepository (db m) (src_RepoURL source) (proj_Name proj)
    or "failed to get repo " +:+ Quote (src_RepoURL source) in
  let syncedRevision := syncedRevisionOf app i in
  let appNamespace :=
    if sendRuntimeState then dest_Namespace (spec_Destination (app_Spec app)) else "" in
  let apiVersions := APIResourcesToStrings P (apiResources o) true in
  let? checked :=
    (if checksPathChanges app source syncedRevision then
       match UpdateRevisionForPaths (repoClient o)
               {| urq_Repo := repo;
                  urq_Revision := revision0;
                  urq_SyncedRevision := syncedRevision;
                  urq_NoRevisionCache := noRevisionCache;
                  urq_Paths := GetAppRefreshPaths P app;
                  urq_AppLabelKey := appLabelKey;
                  urq_AppName := InstanceName P app (namespace m);
                  urq_Namespace := appNamespace;
                  urq_ApplicationSource := source;
                  urq_KubeVersion := serverVersion o;
                  urq_ApiVersions := apiVersions;
                  urq_TrackingMethod := opt_trackingMethod o;
                  urq_RefSources := refSources o;
                  urq_HasMultipleSources := HasMultipleSources P (app_Spec app);
                  urq_InstallationID := opt_installationID o |} with
       | Err e => Err e
       | Ok updateRevisionResult =>
           Ok (if ur_Changes updateRevisionResult then true
               else loop_revisionsMayHaveChanges st,
               if negb (ur_Revision updateRevisionResult =?s "")
               then ur_Revision updateRevisionResult else revision0)
       end
     else Ok (true, revision0))
    or "failed to compare revisions for " +:+ sourceOrdinal i nsources in
  let revisionsMayHaveChanges := checked.1 in
  let revision := checked.2 in
  let repos :=
    if IsOCI P source then permittedHelmRepos o ++ permittedOCIRepos o
    else permittedHelmRepos o in
  let helmRepoCreds :=
    if IsOCI P source then permittedHelmCredentials o ++ permittedOCICredentials o
    else permittedHelmCredentials o in
  let? manifestInfo :=
    GenerateManifest (repoClient o)
      {| mq_Repo := repo;
         mq_Repos := repos;
         mq_Revision := revision;
         mq_NoCache := noCache;
         mq_NoRevisionCache := noRevisionCache;
         mq_AppLabelKey := appLabelKey;
         mq_AppName := InstanceName P app (namespace m);
         mq_Namespace := appNamespace;
         mq_ApplicationSource := source;
         mq_KustomizeOptions := kustomizeSettings o;
         mq_KubeVersion := serverVersion o;
         mq_ApiVersions := apiVersions;
         mq_VerifySignature := verifySignature;
         mq_HelmRepoCreds := helmRepoCreds;
         mq_TrackingMethod := opt_trackingMethod o;
         mq_EnabledSourceTypes := enabledSourceTypes o;
         mq_HelmOptions := helmOptions o;
         mq_HasMultipleSources := HasMultipleSources P (app_Spec app);
         mq_RefSources := refSources o;
         mq_ProjectName := proj_Name proj;
         mq_ProjectSourceRepos := proj_SourceRepos proj;
         mq_AnnotationManifestGeneratePaths :=
           GetAnnotation P app AnnotationKeyManifestGeneratePaths;
         mq_InstallationID := opt_installationID o |}
    or "failed to generate manifest for " +:+ sourceOrdinal i nsources in
  let? targetObj := unmarshalManifests (mr_Manifests manifestInfo)
    or "failed to unmarshal manifests for " +:+ sourceOrdinal i nsources in
  Returned {| loop_revisions := revisions;
              loop_targetObjs := loop_targetObjs st ++ targetObj;
              loop_manifestInfos := loop_manifestInfos st ++ [manifestInfo];
              loop_revisionsMayHaveChanges := revisionsMayHaveChanges |})
  end.

(** [for i, source := range sources], from index [i] on. *)
Fixpoint GetRepoObjs_loop (m : appStateManager) (app : Application)
    (nsources : nat) (appLabelKey : string)
    (noCache noRevisionCache verifySignature : bool) (proj : AppProject)
    (sendRuntimeState : bool) (o : repoObjsOptions)
    (i : nat) (sources : list ApplicationSource) (st : repoObjsLoop)
    : list string * outcome repoObjsLoop :=
  match sources with
  | [] => (loop_revisions st, Returned st)
  | source :: rest =>
      match GetRepoObjs_source m app nsources appLabelKey noCache noRevisionCache
              verifySignature proj sendRuntimeState o i source st with
      | (_, Returned st') =>
          GetRepoObjs_loop m app nsources appLabelKey noCache noRevisionCache
            verifySignature proj sendRuntimeState o (S i) rest st'
      | (revisions, Failed e) => (revisions, Failed e)
      | (revisions, Panic) => (revisions, Panic)
      end
  end.

(** [GetRepoObjs]. The first component is the caller's [revisions] slice
    after the call (the function writes into it); an error return
    [(nil, nil, false, err)] is [Failed err]. A response that the repository
    server returns without an error is not [nil]. *)
Definition GetRepoObjs (m : appStateManager) (app : Application)
    (sources : list ApplicationSource) (appLabelKey : string)
    (revisions : list string) (noCache noRevisionCache verifySignature : bool)
    (proj : AppProject) (sendRuntimeState : bool)
    : list string *
      outcome (list (option Unstructured) * list ManifestResponse * bool) :=
  match GetRepoObjs_options m app sources revisions proj sendRuntimeState with
  | Failed e => (revisions, Failed e)
  | Panic => (revisions, Panic)
  | Returned o =>
      match GetRepoObjs_loop m app (length sources) appLabelKey noCache
              noRevisionCache verifySignature proj sendRuntimeState o 0 sources
              (mkRepoObjsLoop revisions [] [] false) with
      | (revisions', Returned st) =>
          (revisions',
           Returned (loop_targetObjs st, loop_manifestInfos st,
                     loop_revisionsMayHaveChanges st))
      | (revisions', Failed e) => (revisions', Failed e)
      | (revisions', Panic) => (revisions', Panic)
      end
  end.

(** ** Normalisation of the target objects *)

(** The namespace [DeduplicateTargetObjects] gives an object before it
    computes its key: none for a cluster-scoped kind, the destination's for a
    namespaced object without one. *)
Definition withTargetNamespace (namespace : string)
    (infoProvider : ResourceInfoProvider) (obj : Unstructured) : Unstructured :=
  let isNamespaced :=
    IsNamespacedOrUnknown P infoProvider (GVK_GroupKind (GroupVersionKind_of obj)) in
  if negb isNamespaced then SetNamespace obj ""
  else if GetNamespace obj =?s "" then SetNamespace obj namespace
  else obj.

(** The key under which the object at index [i] is grouped. *)
Definition targetKey (i : nat) (obj : Unstructured) : ResourceKey :=
  let key := GetResourceKey P obj in
  if (rk_Name key =?s "") && negb (GetGenerateName obj =?s "") then
    {| rk_Group := rk_Group key; rk_Kind := rk_Kind key;
       rk_Namespace := rk_Namespace key;
       rk_Name := GetGenerateName obj +:+ pretty i |}
  else key.

(** [targetByKey[key] = append(targetByKey[key], obj)] *)
Fixpoint appendTarget (key : ResourceKey) (obj : Unstructured)
    (targetByKey : list (ResourceKey * list Unstructured))
    : list (ResourceKey * list Unstructured) :=
  match targetByKey with
  | [] => [(key, [obj])]
  | (k, targets) :: rest =>
      if bool_decide (k = key) then (k, targets ++ [obj]) :: rest
      else (k, targets) :: appendTarget key obj rest
  end.

(** The first loop of [DeduplicateTargetObjects], from index [i] on. *)
Fixpoint groupTargets (namespace : string) (infoProvider : ResourceInfoProvider)
    (i : nat) (objs : list (option Unstructured))
    (targetByKey : list (ResourceKey * list Unstructured))
    : list (ResourceKey * list Unstructured) :=
  match objs with
  | [] => targetByKey
  | None :: rest => groupTargets namespace infoProvider (S i) rest targetByKey
  | Some obj :: rest =>
      let obj := withTargetNamespace namespace infoProvider obj in
      groupTargets namespace infoProvider (S i) rest
        (appendTarget (targetKey i obj) obj targetByKey)
  end.

Definition repeatedResourceWarning (now : Time) (key : ResourceKey) (n : nat)
    : ApplicationCondition :=
  {| cond_Type := ApplicationConditionRepeatedResourceWarning;
     cond_Message :=
       "Resource " +:+ ResourceKey_String P key +:+ " appeared " +:+ pretty n
       +:+ " times among application resources.";
     cond_LastTransitionTime := Some now |}.

(** The conditions of the second loop: one for every key with more than one
    target. *)
Definition repeatedConditions (now : Time)
    (targetByKey : list (ResourceKey * list Unstructured))
    : list ApplicationCondition :=
  omap (fun kv : ResourceKey * list Unstructured =>
          if bool_decide (1 < length kv.2)%nat
          then Some (repeatedResourceWarning now kv.1 (length kv.2))
          else None) targetByKey.

(** The objects of the second loop: [targets[len(targets)-1]] of every key.
    Every group holds at least one object, so the index is in range. *)
Definition lastTargets (targetByKey : list (ResourceKey * list Unstructured))
    : list Unstructured :=
  omap (fun kv : ResourceKey * list Unstructured => last kv.2) targetByKey.

(** [DeduplicateTargetObjects]. Go ranges over [targetByKey] in an
    unspecified order; the model ranges in the order in which the keys were
    first met. The returned error is always [nil] and is left out. *)
Definition DeduplicateTargetObjects (now : Time) (namespace : string)
    (objs : list (option Unstructured)) (infoProvider : ResourceInfoProvider)
    : list Unstructured * list ApplicationCondition :=
  let targetByKey := groupTargets namespace infoProvider 0 objs [] in
  (lastTargets targetByKey, repeatedConditions now targetByKey).

(** [normalizeClusterScopeTracking]: walks the objects from the last to the
    first and stops at the first failure of [setAppInstance]. *)
Fixpoint normalizeClusterScopeTracking (targetObjs : list (option Unstructured))
    (infoProvider : ResourceInfoProvider)
    (setAppInstance : Unstructured -> Unstructured * option error)
    : list (option Unstructured) * option error :=
  match targetObjs with
  | [] => ([], None)
  | first :: rest =>
      match normalizeClusterScopeTracking rest infoProvider setAppInstance with
      | (rest', Some e) => (first :: rest', Some e)
      | (rest', None) =>
          match first with
          | None => (None :: rest', None)
          | Some targetObj =>
              let gvk := GroupVersionKind_of targetObj in
              if negb (IsNamespacedOrUnknown P infoProvider (GVK_GroupKind gvk))
                 && negb (GetNamespace targetObj =?s "")
              then
                match setAppInstance (SetNamespace targetObj "") with
                | (targetObj', Some e) =>
                    (Some targetObj' :: rest',
                     Some (fmt_Errorf
                             ("failed to set app instance label on cluster-scoped resource "
                              +:+ GVK_String P gvk +:+ "/" +:+ GetName targetObj) e))
                | (targetObj', None) => (Some targetObj' :: rest', None)
                end
              else (Some targetObj :: rest', None)
          end
      end
  end.

(** ** Settings and signatures *)

Record comparisonSettings := mkComparisonSettings {
  cs_appLabelKey : string;
  cs_resourceOverrides : list (string * ResourceOverride);
  cs_resFilter : ResourcesFilter;
  cs_installationID : string;
  cs_trackingMethod : string }.

(** [getComparisonSettings] *)
Definition getComparisonSettings (m : appStateManager) : result comparisonSettings :=
  match GetResourceOverrides (settingsMgr m) with
  | Err e => Err e
  | Ok resourceOverrides =>
  match GetAppInstanceLabelKey (settingsMgr m) with
  | Err e => Err e
  | Ok appLabelKey =>
  match GetResourcesFilter (settingsMgr m) with
  | Err e => Err e
  | Ok resFilter =>
  match GetInstallationID (settingsMgr m) with
  | Err e => Err e
  | Ok installationID =>
  match GetTrackingMethod (settingsMgr m) with
  | Err e => Err e
  | Ok trackingMethod =>
      Ok (mkComparisonSettings appLabelKey resourceOverrides resFilter
            installationID trackingMethod)
  end end end end end.

Definition comparisonError (now : Time) (msg : string) : ApplicationCondition :=
  {| cond_Type := ApplicationConditionComparisonError;
     cond_Message := msg;
     cond_LastTransitionTime := Some now |}.

(** [verifyGnuPGSignature] *)
Definition verifyGnuPGSignature (now : Time) (revision : string)
    (project : AppProject) (manifestInfo : ManifestResponse)
    : list ApplicationCondition :=
  if negb (mr_VerifyResult manifestInfo =?s "") then
    let verifyResult := ParseGitCommitVerification P (mr_VerifyResult manifestInfo) in
    if pgp_Result verifyResult =?s VerifyResultGood P then
      let validKey :=
        existsb (fun k =>
                   (gpg_KeyID P (sk_KeyID k) =?s gpg_KeyID P (pgp_KeyID verifyResult))
                   && negb (gpg_KeyID P (sk_KeyID k) =?s ""))
                (proj_SignatureKeys project) in
      if negb validKey then
        [comparisonError now
           ("Found good signature made with " +:+ pgp_Cipher verifyResult
            +:+ " key " +:+ pgp_KeyID verifyResult
            +:+ ", but this key is not allowed in AppProject")]
      else []
    else if pgp_Result verifyResult =?s VerifyResultInvalid P then
      [comparisonError now
         ("Found signature made with " +:+ pgp_Cipher verifyResult
          +:+ " key " +:+ pgp_KeyID verifyResult
          +:+ ", but verification result was invalid: '"
          +:+ pgp_Message verifyResult +:+ "'")]
    else
      [comparisonError now
         ("Could not verify commit signature on revision '" +:+ revision
          +:+ "', check logs for more information.")]
  else
    [comparisonError now
       ("Target revision " +:+ revision
        +:+ " in Git is not signed, but a signature is required")].

(** [isManagedNamespace] *)
Definition isManagedNamespace (ns : option Unstructured) (app : Application) : bool :=
  match ns with
  | None => false
  | Some ns =>
      (GetKind ns =?s NamespaceKind)
      && (GetName ns =?s dest_Namespace (spec_Destination (app_Spec app)))
      && match spec_SyncPolicy (app_Spec app) with
         | None => false
         | Some syncPolicy =>
             match sp_ManagedNamespaceMetadata syncPolicy with
             | None => false
             | Some _ => true
             end
         end
  end.

(** ** The cache-use decision *)

(** [specEqualsCompareTo]: [reflect.DeepEqual], which is equality of the
    modelled values, on the compared-to value built from a copy of the spec.
    [DeepCopy] gives a copy with the same content. *)
Definition specEqualsCompareTo (spec : ApplicationSpec)
    (sources : list ApplicationSource) (comparedTo : ComparedTo) : bool :=
  let specCopy := spec in
  let compareToSpec := (BuildComparedToStatus P specCopy sources).2 in
  bool_decide (comparedTo = compareToSpec).

(** [useDiffCache]; [manifestInfos] only counts, so its length is passed. *)
Definition useDiffCache (noCache : bool) (manifestInfos : list ManifestResponse)
    (sources : list ApplicationSource) (app : Application)
    (manifestRevisions : list string) (statusRefreshTimeout : Duration)
    (serverSideDiff : bool) : bool :=
  if noCache then false
  else if (IsRefreshRequested P app).2 then false
  else if Expired P (app_Status app) statusRefreshTimeout && negb serverSideDiff
  then false
  else if negb (bool_decide (length manifestInfos = length sources)) then false
  else
    let revisionChanged :=
      negb (bool_decide (GetRevisions P (app_Status app) = manifestRevisions)) in
    if revisionChanged then false
    else if negb (specEqualsCompareTo (app_Spec app) sources
                    (sync_ComparedTo (status_Sync (app_Status app))))
    then false
    else true.

(** ** Ownership *)

(** The function [isSelfReferencedObj]: does the tracking id match the object? *)
Definition isSelfReferencedObj (obj : Unstructured) (aiv : AppInstanceValue) : bool :=
  ((GetNamespace obj =?s aiv_Namespace aiv) || (GetNamespace obj =?s ""))
  && (GetName obj =?s aiv_Name aiv)
  && (gvk_Group (GroupVersionKind_of obj) =?s aiv_Group aiv)
  && (gvk_Kind (GroupVersionKind_of obj) =?s aiv_Kind aiv).

(** The method [appStateManager.isSelfReferencedObj]. *)
Definition appStateManager_isSelfReferencedObj (m : appStateManager)
    (live config : option Unstructured) (appName : string)
    (trackingMethod : TrackingMethod) (installationID : string) : bool :=
  match live with
  | None => true
  | Some live =>
      if trackingMethod =?s TrackingMethodLabel then true
      else
        match config with
        | Some config =>
            let aiv := UnstructuredToAppInstanceValue P config appName "" in
            isSelfReferencedObj live aiv
        | None =>
            match GetAppInstance (resourceTracking m) live trackingMethod installationID with
            | Some appInstance => isSelfReferencedObj live appInstance
            | None => true
            end
        end
  end.

(** ** The comparison pass *)

(** [strings.ReplaceAll] for one-character patterns. *)
Fixpoint ReplaceAll (s : string) (old new : Ascii.ascii) : string :=
  match s with
  | EmptyString => EmptyString
  | String c rest =>
      String (if Ascii.eqb c old then new else c) (ReplaceAll rest old new)
  end.

(** The sync status [CompareAppState] builds first. *)
Definition initialSyncStatus (app : Application) (revisions : list string)
    (sources : list ApplicationSource) (hasMultipleSources : bool) : SyncStatus :=
  let comparedTo :=
    {| ct_Source := if hasMultipleSources then zeroSource
                    else default zeroSource (head sources);
       ct_Destination := spec_Destination (app_Spec app);
       ct_Sources := if hasMultipleSources then sources else [];
       ct_IgnoreDifferences := spec_IgnoreDifferences (app_Spec app) |} in
  {| sync_Status := SyncStatusCodeUnknown;
     sync_ComparedTo := comparedTo;
     sync_Revision := if hasMultipleSources then "" else default "" (head revisions);
     sync_Revisions := if hasMultipleSources then revisions else [] |}.

(** The revisions [CompareAppState] asks [GetRepoObjs] for: the given ones
    when there is one per source, else each source's target revision. *)
Definition revisionsFor (revisions : list string)
    (sources : list ApplicationSource) : list string :=
  if negb (bool_decide (length revisions = length sources))
  then map src_TargetRevision sources else revisions.

(** What the acquisition of the target state leaves behind: either the pass
    returns at once with [ErrCompareStateRepo] (or panics), or it goes on with
    the objects, the render responses, the flag of [GetRepoObjs], the
    conditions recorded and [failedToLoadObjs]. *)
Record targetState := mkTargetState {
  tgt_targetObjs : list (option Unstructured);
  tgt_manifestInfos : list ManifestResponse;
  tgt_revisionsMayHaveChanges : bool;
  tgt_conditions : list ApplicationCondition;
  tgt_failedToLoadObjs : bool }.

(** The branch [len(localManifests) == 0] of [CompareAppState], with the
    grace period of repository errors. [now] is the reading of the clock. *)
Definition loadRepoState (m : appStateManager) (repoErrorCache : gmap string Time)
    (now : Time) (app : Application) (project : AppProject)
    (revisions : list string) (sources : list ApplicationSource)
    (appLabelKey : string) (noCache noRevisionCache verifySignature : bool)
    : gmap string Time * outcome targetState :=
  let revisions := revisionsFor revisions sources in
  match (GetRepoObjs m app sources appLabelKey revisions noCache noRevisionCache
           verifySignature project true).2 with
  | Panic => (repoErrorCache, Panic)
  | Failed err =>
      let msg := "Failed to load target state: " +:+ Error err in
      let failedState :=
        mkTargetState [] [] false [comparisonError now msg] true in
      match repoErrorCache !! app_Name app with
      | Some firstSeen =>
          if bool_decide (now - firstSeen <= repoErrorGracePeriod m)%Z
             && negb noRevisionCache
          then (repoErrorCache, Failed ErrCompareStateRepo)
          else (repoErrorCache, Returned failedState)
      | None =>
          if negb noRevisionCache
          then (<[app_Name app := now]> repoErrorCache, Failed ErrCompareStateRepo)
          else (repoErrorCache, Returned failedState)
      end
  | Returned (targetObjs, manifestInfos, revisionsMayHaveChanges) =>
      (delete (app_Name app) repoErrorCache,
       Returned (mkTargetState targetObjs manifestInfos revisionsMayHaveChanges
                   [] false))
  end.

(** The branch for local manifests. *)
Definition loadLocalState (now : Time) (localManifests : list string)
    (verifySignature : bool) : targetState :=
  if IsGPGEnabled P && verifySignature then
    mkTargetState [] [] false
      [comparisonError now
         "Cannot use local manifests when signature verification is required"]
      true
  else
    match unmarshalManifests localManifests with
    | Err err =>
        mkTargetState [] [] false
          [comparisonError now ("Failed to load local manifests: " +:+ Error err)]
          true
    | Ok targetObjs => mkTargetState targetObjs [] false [] false
    end.

(** The acquisition of the target state: from the repository server, or from
    the local manifests when some are given. *)
Definition loadTargetState (m : appStateManager) (repoErrorCache : gmap string Time)
    (now : Time) (app : Application) (project : AppProject)
    (revisions : list string) (sources : list ApplicationSource)
    (appLabelKey : string) (noCache noRevisionCache : bool)
    (localManifests : list string) (verifySignature : bool)
    : gmap string Time * outcome targetState :=
  if bool_decide (length localManifests = 0%nat) then
    loadRepoState m repoErrorCache now app project revisions sources appLabelKey
      noCache noRevisionCache verifySignature
  else
    (repoErrorCache, Returned (loadLocalState now localManifests verifySignature)).

(** The loop that drops the target objects excluded by the settings, from the
    last object to the first; the flag is [targetNsExists]. *)
Fixpoint excludeTargets (resFilter : ResourcesFilter) (destCluster : Cluster)
    (now : Time) (app : Application) (targetObjs : list Unstructured)
    : list Unstructured * list ApplicationCondition * bool :=
  match targetObjs with
  | [] => ([], [], false)
  | targetObj :: rest =>
      let '(rest', conditions, targetNsExists) :=
        excludeTargets resFilter destCluster now app rest in
      let gvk := GroupVersionKind_of targetObj in
      let excluded :=
        resFilter (gvk_Group gvk) (gvk_Kind gvk) (cluster_Server destCluster) in
      (if excluded then rest' else targetObj :: rest',
       if excluded then
         conditions ++
         [{| cond_Type := ApplicationConditionExcludedResourceWarning;
             cond_Message :=
               "Resource " +:+ gvk_Group gvk +:+ "/" +:+ gvk_Kind gvk +:+ " "
               +:+ GetName targetObj +:+ " is excluded in the settings";
             cond_LastTransitionTime := Some now |}]
       else conditions,
       targetNsExists || isManagedNamespace (Some targetObj) app)
  end.

(** The loop that drops the live objects the project does not permit. *)
Fixpoint permittedLiveObjs (m : appStateManager) (now : Time) (app : Application)
    (project : AppProject) (destCluster : Cluster)
    (liveObjByKey : list (ResourceKey * option Unstructured))
    : list (ResourceKey * option Unstructured) * list ApplicationCondition * bool :=
  match liveObjByKey with
  | [] => ([], [], false)
  | (k, v) :: rest =>
      let '(rest', conditions, failedToLoadObjs) :=
        permittedLiveObjs m now app project destCluster rest in
      match IsLiveResourcePermitted P project v destCluster (db m) with
      | Err err =>
          ((k, v) :: rest',
           comparisonError now
             ("Failed to check if live resource " +:+ Quote (ResourceKey_String P k)
              +:+ " is permitted in project " +:+ Quote (spec_Project (app_Spec app))
              +:+ ": " +:+ Error err) :: conditions,
           true)
      | Ok permitted =>
          (if permitted then (k, v) :: rest' else rest', conditions, failedToLoadObjs)
      end
  end.

(** The loop over the live objects that reports shared resources and builds
    the target of a managed namespace. It gives the target objects to append,
    the conditions and whether [failedToLoadObjs] was set. *)
Fixpoint trackLiveObjs (m : appStateManager) (now : Time) (app : Application)
    (settings : comparisonSettings) (targetNsExists : bool)
    (liveObjByKey : list (ResourceKey * option Unstructured))
    : list Unstructured * list ApplicationCondition * bool :=
  match liveObjByKey with
  | [] => ([], [], false)
  | (_, None) :: rest => trackLiveObjs m now app settings targetNsExists rest
  | (_, Some liveObj) :: rest =>
      let '(targets, conditions, failedToLoadObjs) :=
        trackLiveObjs m now app settings targetNsExists rest in
      let appInstanceName :=
        GetAppName (resourceTracking m) liveObj (cs_appLabelKey settings)
          (cs_trackingMethod settings) (cs_installationID settings) in
      let shared :=
        if negb (appInstanceName =?s "")
           && negb (appInstanceName =?s InstanceName P app (namespace m))
        then
          [{| cond_Type := ApplicationConditionSharedResourceWarning;
              cond_Message :=
                GetKind liveObj +:+ "/" +:+ GetName liveObj
                +:+ " is part of applications " +:+ QualifiedName P app +:+ " and "
                +:+ ReplaceAll appInstanceName "_"%char "/"%char;
              cond_LastTransitionTime := Some now |}]
        else [] in
      if isManagedNamespace (Some liveObj) app && negb targetNsExists then
        let nsSpec :=
          mkUnstructured (mkGVK "" "v1" NamespaceKind) "" (GetName liveObj) "" "" [] [] in
        match ToUnstructured P nsSpec with
        | Err err =>
            (targets,
             shared ++ [comparisonError now (Error err)] ++ conditions, true)
        | Ok managedNs =>
            match syncNamespace P (spec_SyncPolicy (app_Spec app)) managedNs liveObj with
            | (_, Some err) =>
                (targets,
                 shared ++ [comparisonError now (Error err)] ++ conditions, true)
            | (managedNs, None) =>
                (managedNs :: targets, shared ++ conditions, failedToLoadObjs)
            end
        end
      else (targets, shared ++ conditions, failedToLoadObjs)
  end.

(** The [switch] of the classification loop: the status it stores in
    [resState.Status] (the empty string when it stores none) and the
    aggregate [syncCode] it leaves. *)
Definition classifySync (app : Application) (hook : bool) (obj : Unstructured)
    (targetObj liveObj : option Unstructured) (isSelfReferencedObj : bool)
    (diffResult : DiffResult) (syncCode : SyncStatusCode)
    : SyncStatusCode * SyncStatusCode :=
  let isManagedNs := isManagedNamespace targetObj app && bool_decide (liveObj = None) in
  if hook || ignore_Ignore P obj
     || match targetObj with
        | Some targetObj => hookutil_Skip P targetObj
        | None => false
        end
     || negb isSelfReferencedObj
  then ("", syncCode)
  else if negb isManagedNs
          && (diff_Modified diffResult || bool_decide (targetObj = None)
              || bool_decide (liveObj = None))
  then
    let needsPruning :=
      bool_decide (targetObj = None) && negb (bool_decide (liveObj = None)) in
    (SyncStatusCodeOutOfSync,
     if negb needsPruning
        || negb (HasAnnotationOption P obj AnnotationCompareOptions "IgnoreExtraneous")
     then SyncStatusCodeOutOfSync else syncCode)
  else (SyncStatusCodeSynced, syncCode).

(** The diff result of the pair at index [i]: the one the diff engine gave
    for it, or an unmodified one when the engine gave fewer. *)
Definition diffResultAt (diffResults : DiffResultList) (i : nat) : DiffResult :=
  match diffs_Diffs diffResults !! i with
  | Some d => d
  | None => mkDiffResult false "{}" "{}"
  end.

(** [obj := liveObj; if obj == nil { obj = targetObj }] *)
Definition pairObject (targetObj liveObj : option Unstructured)
    : option Unstructured :=
  match liveObj with
  | Some _ => liveObj
  | None => targetObj
  end.

(** The variables the classification loop updates. The two slices are made
    with the length of [reconciliation.Target]; the loop fills them index by
    index, so they are built here by appending. *)
Record classification := mkClassification {
  cl_syncCode : SyncStatusCode;
  cl_conditions : list ApplicationCondition;
  cl_managedResources : list managedResource;
  cl_resourceSummaries : list ResourceStatus }.

(** One iteration of [for i, targetObj := range reconciliation.Target]. *)
Definition classifyResource (m : appStateManager) (now : Time) (app : Application)
    (project : AppProject) (destCluster : Cluster) (settings : comparisonSettings)
    (diffResults : DiffResultList) (failedToLoadObjs : bool)
    (liveObjs : list (option Unstructured))
    (i : nat) (targetObj : option Unstructured) (st : classification)
    : outcome classification :=
  match liveObjs !! i with
  | None => Panic
  | Some liveObj =>
      match pairObject targetObj liveObj with
      | None =>
          Returned
            {| cl_syncCode := cl_syncCode st;
               cl_conditions := cl_conditions st;
               cl_managedResources := cl_managedResources st ++ [zeroManagedResource];
               cl_resourceSummaries := cl_resourceSummaries st ++ [zeroResourceStatus] |}
      | Some obj =>
          let gvk := GroupVersionKind_of obj in
          let isSelfReferencedObj :=
            appStateManager_isSelfReferencedObj m liveObj targetObj (app_Name app)
              (cs_trackingMethod settings) (cs_installationID settings) in
          let hook := isHook P obj in
          let requiresPruning :=
            bool_decide (targetObj = None) && negb (bool_decide (liveObj = None))
            && isSelfReferencedObj in
          let requiresDeletionConfirmation :=
            match targetObj with
            | Some targetObj =>
                HasAnnotationOption P targetObj AnnotationSyncOptions
                  SyncOptionDeleteRequireConfirm
            | None => false
            end
            || match liveObj with
               | Some liveObj =>
                   HasAnnotationOption P liveObj AnnotationSyncOptions
                     SyncOptionDeleteRequireConfirm
               | None => false
               end in
          let syncWave :=
            match targetObj with
            | Some targetObj => syncwaves_Wave P targetObj
            | None => 0%Z
            end in
          let diffResult := diffResultAt diffResults i in
          let '(status, syncCode) :=
            classifySync app hook obj targetObj liveObj isSelfReferencedObj
              diffResult (cl_syncCode st) in
          let '(isNamespaced, err) :=
            IsNamespaced (liveStateCache m) destCluster (GVK_GroupKind gvk) in
          let status :=
            if negb (IsGroupKindPermitted P project (GVK_GroupKind gvk)
                       (isNamespaced && bool_decide (err = None)))
            then SyncStatusCodeUnknown else status in
          let conditions :=
            if isNamespaced && (GetNamespace obj =?s "") then
              cl_conditions st ++
              [{| cond_Type := ApplicationConditionInvalidSpecError;
                  cond_Message :=
                    "Namespace for " +:+ GetName obj +:+ " " +:+ GVK_String P gvk
                    +:+ " is missing.";
                  cond_LastTransitionTime := Some now |}]
            else cl_conditions st in
          let status := if failedToLoadObjs then SyncStatusCodeUnknown else status in
          let resourceVersion :=
            match liveObj with
            | Some liveObj => GetResourceVersion liveObj
            | None => ""
            end in
          let resState :=
            {| rs_Group := gvk_Group gvk;
               rs_Version := gvk_Version gvk;
               rs_Kind := gvk_Kind gvk;
               rs_Namespace := GetNamespace obj;
               rs_Name := GetName obj;
               rs_Status := status;
               rs_Hook := hook;
               rs_RequiresPruning := requiresPruning;
               rs_SyncWave := syncWave;
               rs_RequiresDeletionConfirmation := requiresDeletionConfirmation |} in
          Returned
            {| cl_syncCode := syncCode;
               cl_conditions := conditions;
               cl_managedResources :=
                 cl_managedResources st ++
                 [{| mres_Target := targetObj;
                     mres_Live := liveObj;
                     mres_Diff := diffResult;
                     mres_Group := rs_Group resState;
                     mres_Version := rs_Version resState;
                     mres_Kind := rs_Kind resState;
                     mres_Namespace := rs_Namespace resState;
                     mres_Name := rs_Name resState;
                     mres_Hook := rs_Hook resState;
                     mres_ResourceVersion := resourceVersion |}];
               cl_resourceSummaries := cl_resourceSummaries st ++ [resState] |}
      end
  end.

(** [for i, targetObj := range reconciliation.Target], from index [i] on. *)
Fixpoint classifyResources (m : appStateManager) (now : Time) (app : Application)
    (project : AppProject) (destCluster : Cluster) (settings : comparisonSettings)
    (diffResults : DiffResultList) (failedToLoadObjs : bool)
    (liveObjs : list (option Unstructured))
    (i : nat) (targetObjs : list (option Unstructured)) (st : classification)
    : outcome classification :=
  match targetObjs with
  | [] => Returned st
  | targetObj :: rest =>
      match classifyResource m now app project destCluster settings diffResults
              failedToLoadObjs liveObjs i targetObj st with
      | Returned st' =>
          classifyResources m now app project destCluster settings diffResults
            failedToLoadObjs liveObjs (S i) rest st'
      | Failed e => Failed e
      | Panic => Panic
      end
  end.

(** What a pass leaves outside its return values: the map of first-seen
    repository errors, the checkpoints its timing statistics went through,
    the conditions it handed to [app.Status.SetConditions] ([None] when the
    pass returned before that call), and the last value of its local variable
    [failedToLoadObjs] ([false] when the pass returned before declaring it). *)
Record passEffects := mkPassEffects {
  eff_repoErrorCache : gmap string Time;
  eff_checkpoints : list string;
  eff_conditions : option (list ApplicationCondition);
  eff_failedToLoadObjs : bool }.

Definition zeroComparisonResult (syncStatus : SyncStatus)
    (healthStatus : HealthStatusCode) : comparisonResult :=
  {| syncStatus := syncStatus;
     healthStatus := healthStatus;
     resources := [];
     managedResources := [];
     reconciliationResult := mkReconciliation [] [] [];
     diffConfig := None;
     appSourceType := "";
     appSourceTypes := [];
     timings := None;
     diffResultList := None;
     hasPostDeleteHooks := false;
     revisionsMayHaveChanges := false |}.

(** [CompareAppState] from the checkpoint [git_ms] on: everything after the
    target state has been acquired. *)
Definition compareLoadedState (m : appStateManager) (now : Time)
    (app : Application) (project : AppProject)
    (sources : list ApplicationSource) (noCache : bool)
    (hasMultipleSources : bool) (syncStatus : SyncStatus)
    (settings : comparisonSettings) (verifySignature : bool)
    (destCluster : Cluster) (tgt : targetState)
    : list string * option (list ApplicationCondition) * bool
      * outcome comparisonResult :=
  let appLabelKey := cs_appLabelKey settings in
  let trackingMethod := cs_trackingMethod settings in
  let installationID := cs_installationID settings in
  let conditions := tgt_conditions tgt in
  let failedToLoadObjs := tgt_failedToLoadObjs tgt in
  let manifestInfos := tgt_manifestInfos tgt in
  let infoProvider :=
    match GetClusterCache (liveStateCache m) destCluster with
    | Ok infoProvider => infoProvider
    | Err _ => resourceInfoProviderStub
    end in
  let '(targetObjs, err) :=
    normalizeClusterScopeTracking (tgt_targetObjs tgt) infoProvider
      (fun u =>
         SetAppInstance (resourceTracking m) u appLabelKey
           (InstanceName P app (namespace m))
           (dest_Namespace (spec_Destination (app_Spec app)))
           trackingMethod installationID) in
  let conditions :=
    match err with
    | Some err =>
        conditions ++
        [comparisonError now
           ("Failed to normalize cluster-scoped resource tracking: " +:+ Error err)]
    | None => conditions
    end in
  let '(targetObjs, dedupConditions) :=
    DeduplicateTargetObjects now (dest_Namespace (spec_Destination (app_Spec app)))
      targetObjs infoProvider in
  let conditions := conditions ++ dedupConditions in
  let '(targetObjs, excludedConditions, targetNsExists) :=
    excludeTargets (cs_resFilter settings) destCluster now app targetObjs in
  let conditions := conditions ++ excludedConditions in
  (* ts.AddCheckpoint("dedup_ms") *)
  let '(liveObjByKey, conditions, failedToLoadObjs) :=
    match GetManagedLiveObjs (liveStateCache m) destCluster app targetObjs with
    | Ok liveObjByKey => (liveObjByKey, conditions, failedToLoadObjs)
    | Err err =>
        ([],
         conditions ++
         [comparisonError now ("Failed to load live state: " +:+ Error err)],
         true)
    end in
  let '(liveObjByKey, permittedConditions, permittedFailed) :=
    permittedLiveObjs m now app project destCluster liveObjByKey in
  let conditions := conditions ++ permittedConditions in
  let failedToLoadObjs := failedToLoadObjs || permittedFailed in
  let '(managedNamespaces, trackConditions, trackFailed) :=
    trackLiveObjs m now app settings targetNsExists liveObjByKey in
  let targetObjs := targetObjs ++ managedNamespaces in
  let conditions := conditions ++ trackConditions in
  let failedToLoadObjs := failedToLoadObjs || trackFailed in
  let hasPostDeleteHooks := existsb (isPostDeleteHook P) targetObjs in
  let reconciliation :=
    Reconcile P targetObjs liveObjByKey
      (dest_Namespace (spec_Destination (app_Spec app))) infoProvider in
  (* ts.AddCheckpoint("live_ms") *)
  let compareOptions :=
    match GetResourceCompareOptions (settingsMgr m) with
    | Ok compareOptions => compareOptions
    | Err _ => GetDefaultDiffOptions P
    end in
  let manifestRevisions := map mr_Revision manifestInfos in
  let serverSideDiff :=
    serverSideDiff m
    || AppHasAnnotationOption P app AnnotationCompareOptions "ServerSideDiff=true" in
  let serverSideDiff :=
    if AppHasAnnotationOption P app AnnotationCompareOptions "ServerSideDiff=false"
    then false else serverSideDiff in
  let useDiffCache :=
    useDiffCache noCache manifestInfos sources app manifestRevisions
      (statusRefreshTimeout m) serverSideDiff in
  let '(gvkParser, err) := getGVKParser P destCluster in
  let conditions :=
    match err with
    | Some err =>
        conditions ++
        [{| cond_Type := ApplicationConditionUnknownError;
            cond_Message := Error err;
            cond_LastTransitionTime := Some now |}]
    | None => conditions
    end in
  let '(dryRunner, conditions) :=
    if serverSideDiff then
      let '(applier, err) := getServerSideDiffDryRunApplier P destCluster in
      (NewK8sServerSideDryRunner P applier,
       match err with
       | Some err =>
           conditions ++
           [{| cond_Type := ApplicationConditionUnknownError;
               cond_Message := Error err;
               cond_LastTransitionTime := Some now |}]
       | None => conditions
       end)
    else (None, conditions) in
  let diffConfig :=
    DiffConfigBuilder_Build P
      {| dc_Ignores := spec_IgnoreDifferences (app_Spec app);
         dc_Overrides := cs_resourceOverrides settings;
         dc_IgnoreAggregatedRoles := opt_IgnoreAggregatedRoles compareOptions;
         dc_IgnoreNormalizerOpts := ignoreNormalizerOpts m;
         dc_AppLabelKey := appLabelKey;
         dc_TrackingMethod := trackingMethod;
         dc_NoCache := negb useDiffCache;
         dc_AppName := if useDiffCache then InstanceName P app (namespace m) else "";
         dc_IgnoreMutationWebhook :=
           if AppHasAnnotationOption P app AnnotationCompareOptions
                "IncludeMutationWebhook=true"
           then Some false else None;
         dc_GVKParser := gvkParser;
         dc_Manager := ArgoCDSSAManager;
         dc_ServerSideDiff := serverSideDiff;
         dc_ServerSideDryRunner := dryRunner;
         dc_StructuredMergeDiff :=
           match spec_SyncPolicy (app_Spec app) with
           | Some syncPolicy =>
               if SyncOptions_HasOption P (sp_SyncOptions syncPolicy)
                    "ServerSideApply=true"
               then Some true else None
           | None => None
           end |} in
  let '(diffResults, conditions, failedToLoadObjs) :=
    match StateDiffs P (rec_Live reconciliation) (rec_Target reconciliation)
            diffConfig with
    | Ok diffResults => (diffResults, conditions, failedToLoadObjs)
    | Err err =>
        (mkDiffResultList [] false,
         conditions ++
         [comparisonError now
            ("Failed to compare desired state to live state: " +:+ Error err)],
         true)
    end in
  (* ts.AddCheckpoint("diff_ms") *)
  match classifyResources m now app project destCluster settings diffResults
          failedToLoadObjs (rec_Live reconciliation) 0 (rec_Target reconciliation)
          (mkClassification SyncStatusCodeSynced conditions [] []) with
  | Panic => (["dedup_ms"; "live_ms"; "diff_ms"], None, failedToLoadObjs, Panic)
  | Failed e => (["dedup_ms"; "live_ms"; "diff_ms"], None, failedToLoadObjs, Failed e)
  | Returned cl =>
      let syncCode :=
        if failedToLoadObjs then SyncStatusCodeUnknown
        else if HasChangedManagedNamespaceMetadata P app then SyncStatusCodeOutOfSync
        else cl_syncCode cl in
      let syncStatus :=
        {| sync_Status := syncCode;
           sync_ComparedTo := sync_ComparedTo syncStatus;
           sync_Revision :=
             if hasMultipleSources then sync_Revision syncStatus
             else default (sync_Revision syncStatus) (head manifestRevisions);
           sync_Revisions :=
             if hasMultipleSources then manifestRevisions
             else sync_Revisions syncStatus |} in
      (* ts.AddCheckpoint("sync_ms") *)
      let '(healthStatus, err) :=
        setApplicationHealth P (cl_managedResources cl) (cl_resourceSummaries cl)
          (cs_resourceOverrides settings) app (persistResourceHealth m) in
      let conditions :=
        match err with
        | Some err =>
            cl_conditions cl ++
            [comparisonError now ("error setting app health: " +:+ Error err)]
        | None => cl_conditions cl
        end in
      let conditions :=
        conditions ++
        concat (map (fun manifestInfo =>
                       if IsGPGEnabled P && verifySignature
                       then verifyGnuPGSignature now (mr_Revision manifestInfo)
                              project manifestInfo
                       else [])
                    manifestInfos) in
      let checkpoints := ["dedup_ms"; "live_ms"; "diff_ms"; "sync_ms"; "health_ms"] in
      (checkpoints, Some conditions, failedToLoadObjs,
       Returned
         {| syncStatus := syncStatus;
            healthStatus := healthStatus;
            resources := cl_resourceSummaries cl;
            managedResources := cl_managedResources cl;
            reconciliationResult := reconciliation;
            diffConfig := diffConfig;
            appSourceType :=
              if hasMultipleSources then ""
              else default "" (head (map mr_SourceType manifestInfos));
            appSourceTypes :=
              if hasMultipleSources then map mr_SourceType manifestInfos else [];
            timings := Some (["settings_ms"; "git_ms"] ++ checkpoints);
            diffResultList := Some diffResults;
            hasPostDeleteHooks := hasPostDeleteHooks;
            revisionsMayHaveChanges := tgt_revisionsMayHaveChanges tgt |})
  end.

(** [CompareAppState]. [repoErrorCache] is the content of
    [m.repoErrorCache] when the pass starts and [now] the reading of the
    clock during the pass. *)
Definition CompareAppState (m : appStateManager)
    (repoErrorCache : gmap string Time) (now : Time)
    (app : Application) (project : AppProject) (revisions : list string)
    (sources : list ApplicationSource) (noCache noRevisionCache : bool)
    (localManifests : list string) (hasMultipleSources : bool)
    : passEffects * outcome comparisonResult :=
  let syncStatus := initialSyncStatus app revisions sources hasMultipleSources in
  match getComparisonSettings m with
  | Err _ =>
      (mkPassEffects repoErrorCache ["settings_ms"] None false,
       Returned (zeroComparisonResult syncStatus HealthStatusUnknown))
  | Ok settings =>
      let verifySignature :=
        bool_decide (0 < length (proj_SignatureKeys project))%nat && IsGPGEnabled P in
      match GetDestinationCluster P (spec_Destination (app_Spec app)) (db m) with
      | Err err =>
          (mkPassEffects repoErrorCache ["settings_ms"] None false, Failed err)
      | Ok destCluster =>
          let '(repoErrorCache, loaded) :=
            loadTargetState m repoErrorCache now app project revisions sources
              (cs_appLabelKey settings) noCache noRevisionCache localManifests
              verifySignature in
          match loaded with
          | Panic => (mkPassEffects repoErrorCache ["settings_ms"] None false, Panic)
          | Failed err =>
              (mkPassEffects repoErrorCache ["settings_ms"] None false, Failed err)
          | Returned tgt =>
              let '(checkpoints, conditions, failedToLoadObjs, res) :=
                compareLoadedState m now app project sources noCache
                  hasMultipleSources syncStatus settings verifySignature
                  destCluster tgt in
              (mkPassEffects repoErrorCache
                 (["settings_ms"; "git_ms"] ++ checkpoints) conditions
                 failedToLoadObjs,
               res)
          end
      end
  end.

(** ** The cache-use decision over a store

    [specEqualsCompareTo] receives the spec by value, which in Go still
    shares the slices and pointers inside it with the caller. To state that
    the call leaves the caller's data alone, the same code is read here over
    a store: the arguments are the places where the caller's spec and
    compared-to value live, [DeepCopy] allocates a fresh place, and
    [BuildComparedToStatus], a method with a pointer receiver, may write to
    the place of its receiver. *)

Inductive cell : Type :=
| SpecCell (spec : ApplicationSpec)
| ComparedToCell (comparedTo : ComparedTo).

(** [spec.DeepCopy()] *)
Definition DeepCopy_mem (spec : positive) (h : gmap positive cell)
    : option (positive * gmap positive cell) :=
  match h !! spec with
  | Some (SpecCell content) =>
      let specCopy := fresh (dom h) in
      Some (specCopy, <[specCopy := SpecCell content]> h)
  | _ => None
  end.

(** [specCopy.BuildComparedToStatus(sources)] *)
Definition BuildComparedToStatus_mem (receiver : positive)
    (sources : list ApplicationSource) (h : gmap positive cell)
    : option (ComparedTo * gmap positive cell) :=
  match h !! receiver with
  | Some (SpecCell content) =>
      let '(content', compareToSpec) := BuildComparedToStatus P content sources in
      Some (compareToSpec, <[receiver := SpecCell content']> h)
  | _ => None
  end.

(** [specEqualsCompareTo] over the store; [None] when an argument does not
    point to a value of its type. *)
Definition specEqualsCompareTo_mem (spec : positive)
    (sources : list ApplicationSource) (comparedTo : positive)
    (h : gmap positive cell) : option (bool * gmap positive cell) :=
  match DeepCopy_mem spec h with
  | None => None
  | Some (specCopy, h) =>
      match BuildComparedToStatus_mem specCopy sources h with
      | None => None
      | Some (compareToSpec, h) =>
          match h !! comparedTo with
          | Some (ComparedToCell content) =>
              Some (bool_decide (content = compareToSpec), h)
          | _ => None
          end
      end
  end.

(** [useDiffCache] over the store: [app] gives what the function reads
    through the methods of the application and its status, [spec] and
    [comparedTo] are the places of [app.Spec] and
    [app.Status.Sync.ComparedTo]. *)
Definition useDiffCache_mem (noCache : bool) (manifestInfos : list ManifestResponse)
    (sources : list ApplicationSource) (app : Application)
    (spec comparedTo : positive)
    (manifestRevisions : list string) (statusRefreshTimeout : Duration)
    (serverSideDiff : bool) (h : gmap positive cell)
    : option (bool * gmap positive cell) :=
  if noCache then Some (false, h)
  else if (IsRefreshRequested P app).2 then Some (false, h)
  else if Expired P (app_Status app) statusRefreshTimeout && negb serverSideDiff
  then Some (false, h)
  else if negb (bool_decide (length manifestInfos = length sources))
  then Some (false, h)
  else if negb (bool_decide (GetRevisions P (app_Status app) = manifestRevisions))
  then Some (false, h)
  else
    match specEqualsCompareTo_mem spec sources comparedTo h with
    | None => None
    | Some (equal, h) => Some (if negb equal then false else true, h)
    end.

(** ** Vocabulary of the specification *)

(** The object's own (namespace-or-empty, name, group, kind) matches the
    identity tuple. *)
Definition matchesIdentity (live : Unstructured) (aiv : AppInstanceValue) : Prop :=
  GetName live = aiv_Name aiv
  /\ gvk_Group (GroupVersionKind_of live) = aiv_Group aiv
  /\ gvk_Kind (GroupVersionKind_of live) = aiv_Kind aiv
  /\ (GetNamespace live = aiv_Namespace aiv \/ GetNamespace live = "").

(** The preliminary path-change check is skipped for source [i]. *)
Definition pathCheckSkipped (app : Application) (i : nat)
    (source : ApplicationSource) : Prop :=
  IsHelm P source = true
  \/ IsOCI P source = true
  \/ syncedRevisionOf app i = ""
  \/ lookupString AnnotationKeyManifestGeneratePaths (app_Annotations app) = None
  \/ lookupString AnnotationKeyManifestGeneratePaths (app_Annotations app) = Some "".

(** The target objects of the input that are grouped under [key], in input
    order, as [DeduplicateTargetObjects] sees them from index [i] on. *)
Fixpoint targetsWithKey (namespace : string) (infoProvider : ResourceInfoProvider)
    (key : ResourceKey) (i : nat) (objs : list (option Unstructured))
    : list Unstructured :=
  match objs with
  | [] => []
  | None :: rest => targetsWithKey namespace infoProvider key (S i) rest
  | Some obj :: rest =>
      let obj := withTargetNamespace namespace infoProvider obj in
      if bool_decide (targetKey i obj = key)
      then obj :: targetsWithKey namespace infoProvider key (S i) rest
      else targetsWithKey namespace infoProvider key (S i) rest
  end.

(** [targetByKey[key]], empty when the key is absent. *)
Fixpoint targetsOf (key : ResourceKey)
    (targetByKey : list (ResourceKey * list Unstructured)) : list Unstructured :=
  match targetByKey with
  | [] => []
  | (k, targets) :: rest =>
      if bool_decide (k = key) then targets else targetsOf key rest
  end.



(** An error made by [fmt.Errorf] around another one. *)
Definition wrapped (e : error) : Prop :=
  exists prefix cause, e = fmt_Errorf prefix cause.

(** The pair at an index of a reconciliation has a target or a live object
    (the invariant of a managed resource), and the two slices are aligned. *)
Definition alignedPairs (r : ReconciliationResult) : Prop :=
  length (rec_Live r) = length (rec_Target r)
  /\ Forall (fun pair : option Unstructured * option Unstructured =>
               pair.1 <> None \/ pair.2 <> None)
       (zip (rec_Target r) (rec_Live r)).

(** ** Further vocabulary *)

(** The object is of a cluster-scoped kind and carries a namespace: the
    objects [normalizeClusterScopeTracking] corrects. *)
Definition misplacedNamespace (infoProvider : ResourceInfoProvider)
    (obj : Unstructured) : bool :=
  negb (IsNamespacedOrUnknown P infoProvider (GVK_GroupKind (GroupVersionKind_of obj)))
  && negb (GetNamespace obj =?s "").

(** The keys [DeduplicateTargetObjects] computes for the objects of its
    input, in input order, from index [i] on. *)
Fixpoint targetKeys (namespace : string) (infoProvider : ResourceInfoProvider)
    (i : nat) (objs : list (option Unstructured)) : list ResourceKey :=
  match objs with
  | [] => []
  | None :: rest => targetKeys namespace infoProvider (S i) rest
  | Some obj :: rest =>
      targetKey i (withTargetNamespace namespace infoProvider obj)
      :: targetKeys namespace infoProvider (S i) rest
  end.

(** The objects of the input with their namespaces normalised, without the
    [nil] entries. *)
Definition normalisedTargets (namespace : string)
    (infoProvider : ResourceInfoProvider) (objs : list (option Unstructured))
    : list Unstructured :=
  omap (fun obj => withTargetNamespace namespace infoProvider <$> obj) objs.

(** The settings exclude the target object on the destination cluster. *)
Definition excludedTarget (resFilter : ResourcesFilter) (destCluster : Cluster)
    (targetObj : Unstructured) : bool :=
  resFilter (gvk_Group (GroupVersionKind_of targetObj))
    (gvk_Kind (GroupVersionKind_of targetObj)) (cluster_Server destCluster).

(** What one iteration stores at its index: the pair itself, and the
    identity of the object of the pair, the live one when there is one. *)
Definition mirrorsPair (targetObj liveObj : option Unstructured)
    (rs : ResourceStatus) (mr : managedResource) : Prop :=
  mres_Target mr = targetObj /\ mres_Live mr = liveObj
  /\ mres_Group mr = rs_Group rs /\ mres_Version mr = rs_Version rs
  /\ mres_Kind mr = rs_Kind rs /\ mres_Namespace mr = rs_Namespace rs
  /\ mres_Name mr = rs_Name rs /\ mres_Hook mr = rs_Hook rs
  /\ mres_ResourceVersion mr = from_option GetResourceVersion "" liveObj
  /\ match pairObject targetObj liveObj with
     | Some obj =>
         rs_Group rs = gvk_Group (GroupVersionKind_of obj)
         /\ rs_Version rs = gvk_Version (GroupVersionKind_of obj)
         /\ rs_Kind rs = gvk_Kind (GroupVersionKind_of obj)
         /\ rs_Namespace rs = GetNamespace obj
         /\ rs_Name rs = GetName obj
     | None => rs = zeroResourceStatus /\ mr = zeroManagedResource
     end
  /\ (rs_RequiresPruning rs = true -> targetObj = None /\ liveObj <> None).

(** The manager with another client set for the repository server. *)
Definition withRepoClientset (m : appStateManager)
    (clientset : result RepoServerServiceClient) : appStateManager :=
  {| db := db m;
     settingsMgr := settingsMgr m;
     repoClientset := clientset;
     liveStateCache := liveStateCache m;
     namespace := namespace m;
     statusRefreshTimeout := statusRefreshTimeout m;
     resourceTracking := resourceTracking m;
     persistResourceHealth := persistResourceHealth m;
     repoErrorGracePeriod := repoErrorGracePeriod m;
     serverSideDiff := serverSideDiff m;
     ignoreNormalizerOpts := ignoreNormalizerOpts m |}.

End Controller.

(** * The pull-request generator of the application sets

    Package [generators], file [pull_request.go]. The generator lists the
    pull requests of a repository through a service it selects and gives one
    parameter map per pull request. What it takes from other packages (the
    listing, the slugs, the templated values, the package's error value) is a
    record of collaborators. *)

Module Generators.

(** [pullrequest.PullRequest] *)
Record PullRequest := mkPullRequest {
  pr_Number : Z;
  pr_Title : string;
  pr_Branch : string;
  pr_TargetBranch : string;
  pr_HeadSHA : string;
  pr_Labels : list string;
  pr_Author : string }.

(** The values of a parameter map, [any] in Go: strings, the labels of a
    pull request, and the map of templated values. *)
Inductive any : Type :=
| any_string (s : string)
| any_strings (l : list string)
| any_map (m : list (string * string)).

Definition paramMap := gmap string any.

(** [argoprojiov1alpha1.PullRequestGenerator], the fields the generator
    reads. *)
Record PullRequestGeneratorSpec := mkPullRequestGeneratorSpec {
  prg_Filters : list string;
  prg_RequeueAfterSeconds : option Z;
  prg_Values : list (string * string);
  prg_ContinueOnRepoNotFoundError : bool;
  prg_Template : string }.

Record ApplicationSetGenerator := mkApplicationSetGenerator {
  asg_PullRequest : option PullRequestGeneratorSpec }.

(** [argoprojiov1alpha1.ApplicationSet], with the fields of its spec. *)
Record ApplicationSet := mkApplicationSet {
  as_Namespace : string;
  as_Name : string;
  as_GoTemplate : bool;
  as_GoTemplateOptions : list string }.

(** What the generator takes from other packages. [slug_Make] takes the
    settings [slug.MaxLength] and [slug.CustomSub] under which it runs. *)
Record Services (PullRequestService : Type) := mkServices {
  ErrEmptyAppSetGenerator : error;
  ListPullRequests : PullRequestService -> list string -> result (list PullRequest);
  IsRepositoryNotFoundError : error -> bool;
  slug_Make : Z -> list (string * string) -> string -> string;
  Itoa : Z -> string;
  appendTemplatedValues :
    list (string * string) -> paramMap -> bool -> list string -> result paramMap }.
Arguments ErrEmptyAppSetGenerator {PullRequestService} _.
Arguments ListPullRequests {PullRequestService} _ _ _.
Arguments IsRepositoryNotFoundError {PullRequestService} _ _.
Arguments slug_Make {PullRequestService} _ _ _ _.
Arguments Itoa {PullRequestService} _ _.
Arguments appendTemplatedValues {PullRequestService} _ _ _ _ _.

(** The struct [PullRequestGenerator] of the package: the function that
    selects the service. *)
Record PullRequestGenerator (PullRequestService : Type) := mkPullRequestGenerator {
  selectServiceProviderFunc :
    PullRequestGeneratorSpec -> option ApplicationSet -> result PullRequestService }.
Arguments selectServiceProviderFunc {PullRequestService} _ _ _.

(** A signed 64-bit integer kept in range by wrap-around. *)
Definition wrap64 (z : Z) : Z := ((z + 2 ^ 63) mod 2 ^ 64 - 2 ^ 63)%Z.

(** [time.Second] and [DefaultPullRequestRequeueAfter], in nanoseconds. *)
Definition Second : Duration := 1000000000%Z.
Definition DefaultPullRequestRequeueAfter : Duration := wrap64 (30 * (60 * Second)).

(** [s[:k]], which panics when [k] is beyond the length of [s]. *)
Definition sliceTo (s : string) (k : nat) : option string :=
  if bool_decide (k <= String.length s)%nat then Some (String.substring 0 k s) else None.

(** [n], or the length of the SHA when it is shorter. *)
Definition shortSHALength (n : nat) (sha : string) : nat :=
  if bool_decide (String.length sha < n)%nat then String.length sha else n.

Section Generator.

Context {PullRequestService : Type}.
Variable services : Services PullRequestService.

(** [GetRequeueAfter] *)
Definition GetRequeueAfter (appSetGenerator : option ApplicationSetGenerator)
    : outcome Duration :=
  match appSetGenerator with
  | None => Panic
  | Some appSetGenerator =>
      match asg_PullRequest appSetGenerator with
      | None => Panic
      | Some pullRequest =>
          match prg_RequeueAfterSeconds pullRequest with
          | Some seconds => Returned (wrap64 (seconds * Second))
          | None => Returned DefaultPullRequestRequeueAfter
          end
      end
  end.

(** The parameter map built for a pull request, before the templated values
    are appended; [None] when a slice of the SHA is out of range. *)
Definition pullParams (pull : PullRequest) : option paramMap :=
  let shortSHALength8 := shortSHALength 8 (pr_HeadSHA pull) in
  let shortSHALength7 := shortSHALength 7 (pr_HeadSHA pull) in
  match sliceTo (pr_HeadSHA pull) shortSHALength8,
        sliceTo (pr_HeadSHA pull) shortSHALength7 with
  | Some head_short_sha, Some head_short_sha_7 =>
      Some (list_to_map
              [("number", any_string (Itoa services (pr_Number pull)));
               ("title", any_string (pr_Title pull));
               ("branch", any_string (pr_Branch pull));
               ("branch_slug",
                any_string (slug_Make services 50 [("_", "-")] (pr_Branch pull)));
               ("target_branch", any_string (pr_TargetBranch pull));
               ("target_branch_slug",
                any_string (slug_Make services 50 [("_", "-")] (pr_TargetBranch pull)));
               ("head_sha", any_string (pr_HeadSHA pull));
               ("head_short_sha", any_string head_short_sha);
               ("head_short_sha_7", any_string head_short_sha_7);
               ("author", any_string (pr_Author pull))])
  | _, _ => None
  end.

(** [for _, pull := range pulls] of [GenerateParams]; [params] holds the maps
    of the pull requests already seen. *)
Fixpoint GenerateParams_loop (pullRequest : PullRequestGeneratorSpec)
    (applicationSetInfo : option ApplicationSet) (pulls : list PullRequest)
    (params : list paramMap) : outcome (list paramMap) :=
  match pulls with
  | [] => Returned params
  | pull :: rest =>
      match pullParams pull with
      | None => Panic
      | Some paramMap =>
          match applicationSetInfo with
          | None => Panic
          | Some info =>
              match appendTemplatedValues services (prg_Values pullRequest) paramMap
                      (as_GoTemplate info) (as_GoTemplateOptions info) with
              | Err err =>
                  Failed (fmt_Errorf "failed to append templated values" err)
              | Ok paramMap =>
                  let paramMap :=
                    if as_GoTemplate info
                    then <["labels" := any_strings (pr_Labels pull)]> paramMap
                    else paramMap in
                  GenerateParams_loop pullRequest applicationSetInfo rest
                    (params ++ [paramMap])
              end
          end
      end
  end.

(** [GenerateParams] *)
Definition GenerateParams (g : PullRequestGenerator PullRequestService)
    (appSetGenerator : option ApplicationSetGenerator)
    (applicationSetInfo : option ApplicationSet) : outcome (list paramMap) :=
  match appSetGenerator with
  | None => Failed (ErrEmptyAppSetGenerator services)
  | Some appSetGenerator =>
      match asg_PullRequest appSetGenerator with
      | None => Failed (ErrEmptyAppSetGenerator services)
      | Some pullRequest =>
          match selectServiceProviderFunc g pullRequest applicationSetInfo with
          | Err err =>
              Failed (fmt_Errorf "failed to select pull request service provider" err)
          | Ok svc =>
              match ListPullRequests services svc (prg_Filters pullRequest) with
              | Err err =>
                  if IsRepositoryNotFoundError services err
                     && prg_ContinueOnRepoNotFoundError pullRequest
                  then Returned []
                  else Failed (fmt_Errorf "error listing repos" err)
              | Ok pulls =>
                  GenerateParams_loop pullRequest applicationSetInfo pulls []
              end
          end
      end
  end.

(** The map [GenerateParams] gives for a pull request out of the map the
    templated values were appended to. *)
Definition withLabels (info : ApplicationSet) (pull : PullRequest)
    (templated : paramMap) : paramMap :=
  if as_GoTemplate info
  then <["labels" := any_strings (pr_Labels pull)]> templated
  else templated.

End Generator.

End Generators.

(** ** Sample collaborators

    A small installation on which the statements below are exercised: a
    repository server that renders two manifests per source, a cluster with
    no live objects, permissive projects. The switches make single
    collaborators fail. *)

Module Sample.

Definition key (u : Unstructured) : ResourceKey :=
  mkResourceKey (gvk_Group (u_gvk u)) (gvk_Kind (u_gvk u)) (u_namespace u) (u_name u).

Definition liveOf (lives : list (ResourceKey * option Unstructured))
    (target : Unstructured) : option Unstructured :=
  match list_find (fun kv => kv.1 = key target) lives with
  | Some (_, (_, live)) => live
  | None => None
  end.

(** Pairs every target with its live object and appends the live objects
    that have no target. *)
Definition reconcile (targets : list Unstructured)
    (lives : list (ResourceKey * option Unstructured)) (ns : string)
    (infoProvider : ResourceInfoProvider) : ReconciliationResult :=
  let orphans :=
    filter (fun kv => kv.1 ∉ map key targets) lives in
  {| rec_Live := map (liveOf lives) targets ++ map snd orphans;
     rec_Target := map Some targets ++ map (fun _ => None) orphans;
     rec_Hooks := [] |}.

Definition hasAnnotation (annotations : list (string * string))
    (k v : string) : bool :=
  bool_decide (lookupString k annotations = Some v).

Definition packages : Packages :=
  {| GetPermittedRepos := fun _ repos => Ok repos;
     GetPermittedReposCredentials := fun _ creds => Ok creds;
     GetDestinationCluster := fun dest _ =>
       Ok (mkCluster (dest_Server dest) (dest_Name dest));
     GetRefSources := fun _ _ _ _ => Ok [];
     APIResourcesToStrings := fun _ _ => [];
     UnstructuredToAppInstanceValue := fun un appName ns =>
       mkAppInstanceValue appName (gvk_Group (u_gvk un)) (gvk_Kind (u_gvk un))
         (if u_namespace un =?s "" then ns else u_namespace un) (u_name un);
     GetAppRefreshPaths := fun _ => [];
     IsNamespacedOrUnknown := fun provider gk =>
       match provider gk with Ok b => b | Err _ => true end;
     GetResourceKey := key;
     ResourceKey_String := fun k =>
       rk_Group k +:+ "/" +:+ rk_Kind k +:+ "/" +:+ rk_Namespace k +:+ "/" +:+ rk_Name k;
     GVK_String := fun gvk =>
       gvk_Group gvk +:+ "/" +:+ gvk_Version gvk +:+ ", Kind=" +:+ gvk_Kind gvk;
     ToUnstructured := fun u => Ok u;
     IsGPGEnabled := true;
     ParseGitCommitVerification := fun raw => mkPGPVerifyResult "" "" "Unknown" raw;
     gpg_KeyID := fun k => k;
     VerifyResultGood := "Good";
     VerifyResultInvalid := "Invalid";
     UnmarshalToUnstructured := fun manifest =>
       if manifest =?s "" then Err (errors_New "unexpected end of JSON input")
       else Ok (Some (mkUnstructured (mkGVK "apps" "v1" manifest) "" "guestbook"
                        "" "" [] []));
     IsHelm := fun source => negb (src_Chart source =?s "");
     IsOCI := fun source => String.prefix "oci://" (src_RepoURL source);
     HasMultipleSources := fun spec => bool_decide (0 < length (spec_Sources spec))%nat;
     InstanceName := fun app _ => app_Name app;
     QualifiedName := fun app => app_Namespace app +:+ "/" +:+ app_Name app;
     GetAnnotation := fun app k => default "" (lookupString k (app_Annotations app));
     IsRefreshRequested := fun app =>
       match lookupString "argocd.argoproj.io/refresh" (app_Annotations app) with
       | Some kind => (kind, true)
       | None => ("normal", false)
       end;
     Expired := fun status _ => bool_decide (status_ReconciledAt status = None);
     GetRevisions := fun status =>
       if bool_decide (0 < length (sync_Revisions (status_Sync status)))%nat
       then sync_Revisions (status_Sync status)
       else if sync_Revision (status_Sync status) =?s "" then []
       else [sync_Revision (status_Sync status)];
     BuildComparedToStatus := fun spec sources =>
       (spec,
        {| ct_Source := if bool_decide (0 < length (spec_Sources spec))%nat
                        then zeroSource else default zeroSource (spec_Source spec);
           ct_Destination := spec_Destination spec;
           ct_Sources := if bool_decide (0 < length (spec_Sources spec))%nat
                         then sources else [];
           ct_IgnoreDifferences := spec_IgnoreDifferences spec |});
     HasChangedManagedNamespaceMetadata := fun _ => false;
     IsLiveResourcePermitted := fun _ _ _ _ => Ok true;
     IsGroupKindPermitted := fun _ _ _ => true;
     SyncOptions_HasOption := fun options o => bool_decide (o ∈ options);
     HasAnnotationOption := fun u k v => hasAnnotation (u_annotations u) k v;
     AppHasAnnotationOption := fun app k v => hasAnnotation (app_Annotations app) k v;
     ignore_Ignore := fun _ => false;
     hookutil_Skip := fun _ => false;
     syncwaves_Wave := fun _ => 0%Z;
     Reconcile := reconcile;
     GetDefaultDiffOptions := mkDiffOptions false "";
     DiffConfigBuilder_Build := fun config => Some config;
     StateDiffs := fun lives targets _ =>
       Ok (mkDiffResultList (map (fun _ => mkDiffResult false "{}" "{}") targets) false);
     NewK8sServerSideDryRunner := fun applier => applier;
     isHook := fun _ => false;
     isPostDeleteHook := fun _ => false;
     syncNamespace := fun _ managedNs _ => (managedNs, None);
     getGVKParser := fun _ => (Some "parser", None);
     getServerSideDiffDryRunApplier := fun _ => (Some "applier", None);
     setApplicationHealth := fun _ _ _ _ _ => ("Healthy", None) |}.

Definition argoDB : ArgoDB :=
  {| ListHelmRepositories := Ok [];
     ListOCIRepositories := Ok [];
     GetAllHelmRepositoryCredentials := Ok [];
     GetAllOCIRepositoryCredentials := Ok [];
     GetRepository := fun url _ => Ok (mkRepository url);
     GetProjectClusters := fun _ => Ok [] |}.

Definition settingsManager (healthy : bool) : SettingsManager :=
  {| GetResourceOverrides := Ok [];
     GetAppInstanceLabelKey := Ok "app.kubernetes.io/instance";
     GetResourcesFilter :=
       if healthy then Ok (fun _ _ _ => false)
       else Err (errors_New "configmap argocd-cm not found");
     GetInstallationID := Ok "";
     GetTrackingMethod := Ok "annotation";
     GetEnabledSourceTypes := Ok [];
     GetKustomizeSettings := Ok (mkKustomizeSettings "");
     GetHelmSettings := Ok (mkHelmOptions []);
     GetResourceCompareOptions := Ok (mkDiffOptions false "") |}.

(** Renders a Deployment and a Service at the requested revision, unsigned. *)
Definition repoServer (healthy : bool) : RepoServerServiceClient :=
  {| UpdateRevisionForPaths := fun req =>
       Ok (mkUpdateRevisionResponse false (urq_Revision req));
     GenerateManifest := fun req =>
       if healthy then
         Ok (mkManifestResponse ["Deployment"; "Service"] (mq_Revision req) "Helm" "")
       else Err (errors_New "rpc error: code = Unavailable") |}.

Definition clusterCache (healthy : bool) : LiveStateCache :=
  {| GetVersionsInfo := fun _ => Ok ("v1.31.0", []);
     GetClusterCache := fun _ => Ok (fun _ => Ok true);
     GetManagedLiveObjs := fun _ _ _ =>
       if healthy then Ok [] else Err (errors_New "cluster cache is not synced");
     IsNamespaced := fun _ _ => (true, None) |}.

Definition tracking : ResourceTracking :=
  {| SetAppInstance := fun u _ _ _ _ _ => (u, None);
     GetAppName := fun u _ _ _ =>
       default "" (lookupString "argocd.argoproj.io/tracking-id" (u_annotations u));
     GetAppInstance := fun u _ _ =>
       match lookupString "argocd.argoproj.io/tracking-id" (u_annotations u) with
       | Some id =>
           Some (mkAppInstanceValue id (gvk_Group (u_gvk u)) (gvk_Kind (u_gvk u))
                   "default" id)
       | None => None
       end |}.

(** The manager, with switches for the health of the settings, of the
    repository server and of the cluster cache. *)
Definition manager (settingsUp repoUp clusterUp : bool) : appStateManager :=
  {| db := argoDB;
     settingsMgr := settingsManager settingsUp;
     repoClientset := Ok (repoServer repoUp);
     liveStateCache := clusterCache clusterUp;
     namespace := "argocd";
     statusRefreshTimeout := 180000000000%Z;
     resourceTracking := tracking;
     persistResourceHealth := true;
     repoErrorGracePeriod := 180000000000%Z;
     serverSideDiff := false;
     ignoreNormalizerOpts := mkIgnoreNormalizerOpts 1000000000%Z |}.

Definition chart : ApplicationSource :=
  mkSource "https://charts.example.com" "" "1.2.3" "guestbook" "".

Definition destination : ApplicationDestination :=
  mkDestination "https://kubernetes.default.svc" "default" "".

Definition spec : ApplicationSpec :=
  mkSpec (Some chart) destination "default" None [] [].

Definition comparedTo : ComparedTo := mkComparedTo chart destination [] [].

Definition app : Application :=
  mkApplication "guestbook" "argocd" []
    spec
    (mkStatus (mkSyncStatus "" (mkComparedTo zeroSource (mkDestination "" "" "") [] []) "" [])
       None []).

(** The same application after a comparison at revision 1.2.3. *)
Definition comparedApp : Application :=
  mkApplication "guestbook" "argocd" []
    spec
    (mkStatus (mkSyncStatus "Synced" comparedTo "1.2.3" []) (Some 0%Z) []).

Definition project : AppProject :=
  mkProject "default" ["*"] [mkSignatureKey "4AEE18F83AFDEB23"].

Definition deployment (ns name : string) : Unstructured :=
  mkUnstructured (mkGVK "apps" "v1" "Deployment") ns name "" "" [] [].

(** The settings and the cluster the sample manager resolves. *)
Definition settings : comparisonSettings :=
  mkComparisonSettings "app.kubernetes.io/instance" [] (fun _ _ _ => false) ""
    "annotation".

Definition cluster : Cluster := mkCluster "https://kubernetes.default.svc" "".

(** The response of the sample repository server at revision 1.2.3. *)
Definition rendered : ManifestResponse :=
  mkManifestResponse ["Deployment"; "Service"] "1.2.3" "Helm" "".

(** Target objects with a repeated Deployment and a missing document. *)
Definition repeated : list (option Unstructured) :=
  [Some (deployment "" "web"); None;
   Some (deployment "default" "api");
   Some (deployment "default" "web")].

(** A store with the spec of the application and its compared-to value. *)
Definition store : gmap positive cell :=
  <[1%positive := SpecCell spec]>
    (<[2%positive := ComparedToCell comparedTo]> ∅).

End Sample.

(** ** Further sample data

    An application from a Git repository that declares its manifest paths,
    rendered objects with a misplaced namespace, a cluster on which the
    targets are live, and a pull-request generator with one open pull
    request. *)

Module Scenario.

Definition gitSource : ApplicationSource :=
  mkSource "https://git.example.com/guestbook.git" "deploy" "main" "" "".

(** Synced at commit [abc123], with the annotation that names its paths. *)
Definition gitApp : Application :=
  mkApplication "guestbook" "argocd" [(AnnotationKeyManifestGeneratePaths, ".")]
    (mkSpec (Some gitSource) Sample.destination "default" None [] [])
    (mkStatus
       (mkSyncStatus "Synced" (mkComparedTo gitSource Sample.destination [] [])
          "abc123" [])
       (Some 0%Z) []).

(** Every kind is namespaced but the cluster roles. *)
Definition scopes : ResourceInfoProvider :=
  fun gk => Ok (negb (gk_Kind gk =?s "ClusterRole")).

Definition clusterRole (ns name : string) : Unstructured :=
  mkUnstructured (mkGVK "rbac.authorization.k8s.io" "v1" "ClusterRole") ns name
    "" "" [] [].

(** A Deployment, a missing document and a cluster role the repository
    server has put into a namespace. *)
Definition rendered : list (option Unstructured) :=
  [Some (Sample.deployment "" "web"); None; Some (clusterRole "default" "reader")].

Definition retrack (u : Unstructured) : Unstructured * option error :=
  (mkUnstructured (u_gvk u) (u_namespace u) (u_name u) (u_generateName u)
     (u_resourceVersion u) (u_labels u)
     [("argocd.argoproj.io/tracking-id", "guestbook")],
   None).

Definition brokenTracking (u : Unstructured) : Unstructured * option error :=
  (u, Some (errors_New "annotation is too long")).

(** A live ConfigMap without target that asks to be ignored. *)
Definition scratch : Unstructured :=
  mkUnstructured (mkGVK "" "v1" "ConfigMap") "default" "scratch" "" "41" []
    [(AnnotationCompareOptions, "IgnoreExtraneous")].

(** A live Secret that carries the tracking id of another application. *)
Definition borrowed : Unstructured :=
  mkUnstructured (mkGVK "" "v1" "Secret") "default" "registry" "" "7" []
    [("argocd.argoproj.io/tracking-id", "billing")].

(** A cluster on which every target is live as it is declared, next to the
    ConfigMap. *)
Definition liveCluster : LiveStateCache :=
  {| GetVersionsInfo := fun _ => Ok ("v1.31.0", []);
     GetClusterCache := fun _ => Ok (fun _ => Ok true);
     GetManagedLiveObjs := fun _ _ targets =>
       Ok (map (fun target => (Sample.key target, Some target)) targets
           ++ [(Sample.key scratch, Some scratch)]);
     IsNamespaced := fun _ _ => (true, None) |}.

Definition manager : appStateManager :=
  {| db := Sample.argoDB;
     settingsMgr := Sample.settingsManager true;
     repoClientset := Ok (Sample.repoServer true);
     liveStateCache := liveCluster;
     namespace := "argocd";
     statusRefreshTimeout := 180000000000%Z;
     resourceTracking := Sample.tracking;
     persistResourceHealth := true;
     repoErrorGracePeriod := 180000000000%Z;
     serverSideDiff := false;
     ignoreNormalizerOpts := mkIgnoreNormalizerOpts 1000000000%Z |}.

(** The pull-request generator: one service, named by a string. *)
Definition pull : Generators.PullRequest :=
  Generators.mkPullRequest 42 "Add a cache" "feature_cache" "main"
    "0123456789abcdef" ["preview"] "octocat".

Definition services : Generators.Services string :=
  Generators.mkServices string
    (errors_New "ApplicationSet is empty")
    (fun svc _ =>
       if svc =?s "github" then Ok [pull]
       else Err (errors_New "repository not found"))
    (fun err => bool_decide (err = errors_New "repository not found"))
    (fun _ _ s => s)
    (fun z => pretty z)
    (fun values built _ _ =>
       Ok (foldr (fun kv acc => <["values." +:+ kv.1 := Generators.any_string kv.2]> acc)
             built values)).

Definition generator : Generators.PullRequestGenerator string :=
  Generators.mkPullRequestGenerator string (fun _ _ => Ok "github").

Definition pullRequests : Generators.PullRequestGeneratorSpec :=
  Generators.mkPullRequestGeneratorSpec [] (Some 600%Z) [("env", "preview")] true
    "preview-{{number}}".

Definition appSetGenerator : Generators.ApplicationSetGenerator :=
  Generators.mkApplicationSetGenerator (Some pullRequests).

Definition appSet : Generators.ApplicationSet :=
  Generators.mkApplicationSet "argocd" "previews" true [].

End Scenario.

(** * Properties *)

Section Properties.

Variable P : Packages.

(** ** Ownership *)

Lemma eqb_string_true (a b : string) : (a =?s b) = true <-> a = b.
Proof. unfold eqb_string. apply bool_decide_eq_true. Qed.

Lemma eqb_string_false (a b : string) : (a =?s b) = false <-> a <> b.
Proof. unfold eqb_string. apply bool_decide_eq_false. Qed.

Lemma isSelfReferencedObj_matches (obj : Unstructured) (aiv : AppInstanceValue) :
  isSelfReferencedObj obj aiv = true <-> matchesIdentity obj aiv.
Proof.
  unfold isSelfReferencedObj, matchesIdentity.
  rewrite !andb_true_iff, orb_true_iff, !eqb_string_true. tauto.
Qed.

(** Without a desired object and without a tracking id on the live object
    there is no identity tuple to compare with; the object counts as owned. *)
Lemma isSelfReferencedObj_untracked (m : appStateManager) (live : Unstructured)
    (appName installationID : string) (trackingMethod : TrackingMethod) :
  GetAppInstance (resourceTracking m) live trackingMethod installationID = None ->
  appStateManager_isSelfReferencedObj P m (Some live) None appName trackingMethod
    installationID = true.
Proof.
  intros Hnone. unfold appStateManager_isSelfReferencedObj.
  rewrite Hnone. by destruct (trackingMethod =?s TrackingMethodLabel).
Qed.

(** C4. [isSelfReferencedObj] answers [true] when there is no live object
    and when tracking is label-based; otherwise, with the identity tuple taken
    from the desired object when there is one and else from the tracking id of
    the live object, it answers [true] exactly when name, group and kind of
    the live object equal the tuple's and its namespace equals the tuple's or
    is empty. *)
Theorem isSelfReferencedObj_decides (m : appStateManager)
    (appName installationID : string) (trackingMethod : TrackingMethod) :
  (forall config,
     appStateManager_isSelfReferencedObj P m None config appName trackingMethod
       installationID = true)
  /\ (forall live config,
        appStateManager_isSelfReferencedObj P m live config appName
          TrackingMethodLabel installationID = true)
  /\ (trackingMethod <> TrackingMethodLabel ->
      forall live,
        (forall config,
           appStateManager_isSelfReferencedObj P m (Some live) (Some config) appName
             trackingMethod installationID = true
           <-> matchesIdentity live (UnstructuredToAppInstanceValue P config appName ""))
        /\ (forall appInstance,
              GetAppInstance (resourceTracking m) live trackingMethod installationID
                = Some appInstance ->
              appStateManager_isSelfReferencedObj P m (Some live) None appName
                trackingMethod installationID = true
              <-> matchesIdentity live appInstance)).
Proof.
  split; [done|]. split.
  - intros [live|] config; [|done]. done.
  - intros Hmethod live.
    apply eqb_string_false in Hmethod.
    unfold appStateManager_isSelfReferencedObj. rewrite Hmethod. split.
    + intros config. apply isSelfReferencedObj_matches.
    + intros appInstance ->. apply isSelfReferencedObj_matches.
Qed.

(** ** The cache-use decision *)

Lemma useDiffCache_true_iff (noCache : bool) (manifestInfos : list ManifestResponse)
    (sources : list ApplicationSource) (app : Application)
    (manifestRevisions : list string) (statusRefreshTimeout : Duration)
    (serverSideDiff : bool) :
  useDiffCache P noCache manifestInfos sources app manifestRevisions
    statusRefreshTimeout serverSideDiff = true
  <-> noCache = false
      /\ (IsRefreshRequested P app).2 = false
      /\ (Expired P (app_Status app) statusRefreshTimeout = false
          \/ serverSideDiff = true)
      /\ length manifestInfos = length sources
      /\ GetRevisions P (app_Status app) = manifestRevisions
      /\ sync_ComparedTo (status_Sync (app_Status app))
         = (BuildComparedToStatus P (app_Spec app) sources).2.
Proof.
  unfold useDiffCache, specEqualsCompareTo.
  destruct noCache; [intuition congruence|].
  destruct (IsRefreshRequested P app).2; [intuition congruence|].
  destruct (Expired P (app_Status app) statusRefreshTimeout), serverSideDiff;
    simpl; repeat case_bool_decide; simpl; intuition congruence.
Qed.

(** C2. [useDiffCache] answers [false] whenever caching is disabled, a
    refresh was requested, the resolved revisions differ from the recorded
    ones, or the declared spec differs from the last compared-to snapshot;
    it answers [true] only when none of those hold, there are as many render
    responses as sources, and the status is not expired or server-side diff is
    on. *)
Theorem useDiffCache_decision (noCache : bool) (manifestInfos : list ManifestResponse)
    (sources : list ApplicationSource) (app : Application)
    (manifestRevisions : list string) (statusRefreshTimeout : Duration)
    (serverSideDiff : bool) :
  (noCache = true
   \/ (IsRefreshRequested P app).2 = true
   \/ GetRevisions P (app_Status app) <> manifestRevisions
   \/ sync_ComparedTo (status_Sync (app_Status app))
      <> (BuildComparedToStatus P (app_Spec app) sources).2 ->
   useDiffCache P noCache manifestInfos sources app manifestRevisions
     statusRefreshTimeout serverSideDiff = false)
  /\ (useDiffCache P noCache manifestInfos sources app manifestRevisions
        statusRefreshTimeout serverSideDiff = true ->
      noCache = false
      /\ (IsRefreshRequested P app).2 = false
      /\ GetRevisions P (app_Status app) = manifestRevisions
      /\ sync_ComparedTo (status_Sync (app_Status app))
         = (BuildComparedToStatus P (app_Spec app) sources).2
      /\ length manifestInfos = length sources
      /\ (Expired P (app_Status app) statusRefreshTimeout = false
          \/ serverSideDiff = true)).
Proof.
  split.
  - intros Hcause. apply not_true_is_false. intros Htrue.
    apply useDiffCache_true_iff in Htrue as (? & ? & ? & ? & ? & ?).
    destruct Hcause as [?|[?|[?|?]]]; congruence.
  - intros Htrue.
    apply useDiffCache_true_iff in Htrue as (? & ? & ? & ? & ? & ?). tauto.
Qed.

(** [specEqualsCompareTo] answers whether the compared-to value built from
    the spec is the recorded one. *)
Lemma specEqualsCompareTo_true (spec : ApplicationSpec)
    (sources : list ApplicationSource) (comparedTo : ComparedTo) :
  specEqualsCompareTo P spec sources comparedTo = true
  <-> comparedTo = (BuildComparedToStatus P spec sources).2.
Proof. unfold specEqualsCompareTo. apply bool_decide_eq_true. Qed.

(** [specEqualsCompareTo] over the store returns, answers as the function on
    values does, and leaves every place the store had as it was. *)
Lemma specEqualsCompareTo_mem_frame (spec comparedTo : positive)
    (sources : list ApplicationSource) (h : gmap positive cell)
    (content : ApplicationSpec) (snapshot : ComparedTo) :
  h !! spec = Some (SpecCell content) ->
  h !! comparedTo = Some (ComparedToCell snapshot) ->
  exists h',
    specEqualsCompareTo_mem P spec sources comparedTo h
      = Some (specEqualsCompareTo P content sources snapshot, h')
    /\ forall l, is_Some (h !! l) -> h' !! l = h !! l.
Proof.
  intros Hspec Hct.
  unfold specEqualsCompareTo_mem, DeepCopy_mem, BuildComparedToStatus_mem.
  rewrite Hspec. set (specCopy := fresh (dom h)).
  assert (Hfresh : h !! specCopy = None) by apply not_elem_of_dom, is_fresh.
  rewrite lookup_insert_eq.
  unfold specEqualsCompareTo.
  destruct (BuildComparedToStatus P content sources) as [content' compareToSpec].
  assert (Hne : specCopy <> comparedTo) by (intros ->; congruence).
  rewrite !lookup_insert_ne by done. rewrite Hct.
  eexists. split; [done|].
  intros l [c Hl].
  assert (specCopy <> l) by (intros ->; congruence).
  by rewrite !lookup_insert_ne.
Qed.

(** C10. For every spec, source list and compared-to snapshot,
    [specEqualsCompareTo], and with it the cache-use decision that calls it,
    leaves its inputs as they were: after the call the places of the
    application spec and of the compared-to value hold what they held
    before. *)
Theorem specEqualsCompareTo_preserves_inputs (spec comparedTo : positive)
    (sources : list ApplicationSource) (h : gmap positive cell)
    (content : ApplicationSpec) (snapshot : ComparedTo)
    (noCache : bool) (manifestInfos : list ManifestResponse) (app : Application)
    (manifestRevisions : list string) (statusRefreshTimeout : Duration)
    (serverSideDiff : bool) :
  h !! spec = Some (SpecCell content) ->
  h !! comparedTo = Some (ComparedToCell snapshot) ->
  (exists equal h',
     specEqualsCompareTo_mem P spec sources comparedTo h = Some (equal, h')
     /\ equal = specEqualsCompareTo P content sources snapshot
     /\ h' !! spec = Some (SpecCell content)
     /\ h' !! comparedTo = Some (ComparedToCell snapshot))
  /\ (exists use h',
        useDiffCache_mem P noCache manifestInfos sources app spec comparedTo
          manifestRevisions statusRefreshTimeout serverSideDiff h = Some (use, h')
        /\ h' !! spec = Some (SpecCell content)
        /\ h' !! comparedTo = Some (ComparedToCell snapshot)).
Proof.
  intros Hspec Hct.
  destruct (specEqualsCompareTo_mem_frame spec comparedTo sources h content snapshot
              Hspec Hct) as (h' & Hrun & Hframe).
  assert (Hspec' : h' !! spec = Some (SpecCell content))
    by (rewrite Hframe; [done|by eexists]).
  assert (Hct' : h' !! comparedTo = Some (ComparedToCell snapshot))
    by (rewrite Hframe; [done|by eexists]).
  split; [by eexists _, _|].
  unfold useDiffCache_mem. rewrite Hrun.
  repeat match goal with
         | |- context [if ?b then _ else _] => destruct b
         end; by eexists _, _.
Qed.

(** ** Settings *)

(** The settings load fails exactly when one of its five lookups fails. *)
Lemma getComparisonSettings_fails (m : appStateManager) :
  (exists e, getComparisonSettings m = Err e)
  <-> (exists e, GetResourceOverrides (settingsMgr m) = Err e)
      \/ (exists e, GetAppInstanceLabelKey (settingsMgr m) = Err e)
      \/ (exists e, GetResourcesFilter (settingsMgr m) = Err e)
      \/ (exists e, GetInstallationID (settingsMgr m) = Err e)
      \/ (exists e, GetTrackingMethod (settingsMgr m) = Err e).
Proof.
  unfold getComparisonSettings.
  destruct (GetResourceOverrides (settingsMgr m));
    destruct (GetAppInstanceLabelKey (settingsMgr m));
    destruct (GetResourcesFilter (settingsMgr m));
    destruct (GetInstallationID (settingsMgr m));
    destruct (GetTrackingMethod (settingsMgr m));
    split; intros H;
    repeat match goal with
           | H : _ \/ _ |- _ => destruct H
           | H : exists _, _ |- _ => destruct H
           end;
    try discriminate; eauto 10.
Qed.

(** C9. If loading the comparison settings fails, [CompareAppState] returns
    at once a result whose sync status and health status are both Unknown:
    the pass went through the settings checkpoint only, handed no conditions
    to the application, left the map of repository errors alone, and the
    result is the initial sync status with nothing computed by a later
    phase. *)
Theorem settings_failure_aborts (m : appStateManager)
    (repoErrorCache : gmap string Time) (now : Time)
    (app : Application) (project : AppProject) (revisions : list string)
    (sources : list ApplicationSource) (noCache noRevisionCache : bool)
    (localManifests : list string) (hasMultipleSources : bool) (e : error) :
  getComparisonSettings m = Err e ->
  exists res,
    CompareAppState P m repoErrorCache now app project revisions sources noCache
      noRevisionCache localManifests hasMultipleSources
    = (mkPassEffects repoErrorCache ["settings_ms"] None false, Returned res)
    /\ res = zeroComparisonResult
               (initialSyncStatus app revisions sources hasMultipleSources)
               HealthStatusUnknown
    /\ sync_Status (GetSyncStatus res) = SyncStatusCodeUnknown
    /\ GetHealthStatus res = HealthStatusUnknown
    /\ resources res = [] /\ managedResources res = [] /\ timings res = None.
Proof.
  intros Hsettings. unfold CompareAppState. rewrite Hsettings.
  eexists. split; [reflexivity|]. by repeat split.
Qed.

(** ** Signatures *)


(** ** The comparison pass *)

Ltac destruct_lets :=
  repeat match goal with
         | |- context [let '(_, _) := ?x in _] =>
             let E := fresh "E" in destruct x eqn:E
         end.


(** The classification loop never returns an error. *)
Lemma classifyResources_not_failed (m : appStateManager) (now : Time)
    (app : Application) (project : AppProject) (destCluster : Cluster)
    (settings : comparisonSettings) (diffResults : DiffResultList)
    (failedToLoadObjs : bool) (liveObjs : list (option Unstructured))
    (targetObjs : list (option Unstructured)) :
  forall (i : nat) (st : classification) (e : error),
    classifyResources P m now app project destCluster settings diffResults
      failedToLoadObjs liveObjs i targetObjs st <> Failed e.
Proof.
  induction targetObjs as [|targetObj rest IH]; intros i st e; simpl; [done|].
  unfold classifyResource.
  destruct (liveObjs !! i) as [liveObj|]; [|done].
  destruct (pairObject targetObj liveObj) as [obj|]; [|apply IH].
  destruct_lets. apply IH.
Qed.

(** What one iteration appends: one entry, of status Unknown when
    [failedToLoadObjs] is set and the pair has an object. *)
Lemma classifyResource_entry (m : appStateManager) (now : Time)
    (app : Application) (project : AppProject) (destCluster : Cluster)
    (settings : comparisonSettings) (diffResults : DiffResultList)
    (failedToLoadObjs : bool) (liveObjs : list (option Unstructured))
    (i : nat) (targetObj : option Unstructured) (st st' : classification) :
  classifyResource P m now app project destCluster settings diffResults
    failedToLoadObjs liveObjs i targetObj st = Returned st' ->
  exists liveObj entry,
    liveObjs !! i = Some liveObj
    /\ cl_resourceSummaries st' = cl_resourceSummaries st ++ [entry]
    /\ (pairObject targetObj liveObj = None -> entry = zeroResourceStatus)
    /\ (failedToLoadObjs = true -> pairObject targetObj liveObj <> None ->
        rs_Status entry = SyncStatusCodeUnknown).
Proof.
  unfold classifyResource.
  destruct (liveObjs !! i) as [liveObj|]; [|done].
  destruct (pairObject targetObj liveObj) as [obj|] eqn:Hobj.
  - destruct_lets. intros [= <-]. eexists _, _.
    split; [done|]. split; [done|]. split; [congruence|].
    intros -> _. done.
  - intros [= <-]. eexists _, _. split; [done|]. split; [done|].
    split; [done|]. intros _ Hne. done.
Qed.

(** With [failedToLoadObjs] set, the loop only appends entries of status
    Unknown, one per pair, as long as every pair has an object. *)
Lemma classifyResources_failed_unknown (m : appStateManager) (now : Time)
    (app : Application) (project : AppProject) (destCluster : Cluster)
    (settings : comparisonSettings) (diffResults : DiffResultList)
    (liveObjs : list (option Unstructured))
    (targetObjs : list (option Unstructured)) :
  forall (i : nat) (st st' : classification),
    classifyResources P m now app project destCluster settings diffResults
      true liveObjs i targetObjs st = Returned st' ->
    (forall j target live,
       targetObjs !! j = Some target -> liveObjs !! (i + j)%nat = Some live ->
       target <> None \/ live <> None) ->
    Forall (fun rs => rs_Status rs = SyncStatusCodeUnknown) (cl_resourceSummaries st) ->
    Forall (fun rs => rs_Status rs = SyncStatusCodeUnknown) (cl_resourceSummaries st')
    /\ length (cl_resourceSummaries st')
       = (length (cl_resourceSummaries st) + length targetObjs)%nat.
Proof.
  induction targetObjs as [|targetObj rest IH]; intros i st st' Hrun Hpairs Hst;
    simpl in Hrun.
  - injection Hrun as <-. split; [done|]. simpl. lia.
  - destruct (classifyResource P m now app project destCluster settings diffResults
                true liveObjs i targetObj st) as [st1| |] eqn:Hstep; try done.
    apply classifyResource_entry in Hstep
      as (liveObj & entry & Hlive & Hentries & _ & Hunknown).
    apply IH in Hrun as [Hall Hlen].
    + split; [done|]. rewrite Hlen, Hentries, length_app. simpl. lia.
    + intros j target live Htarget Hlive'.
      apply (Hpairs (S j) target live); [done|].
      by replace (i + S j)%nat with (S i + j)%nat by lia.
    + rewrite Hentries. apply Forall_app. split; [done|].
      apply Forall_singleton. apply Hunknown; [done|].
      specialize (Hpairs 0%nat targetObj liveObj eq_refl).
      rewrite Nat.add_0_r in Hpairs. specialize (Hpairs Hlive).
      unfold pairObject. destruct liveObj, targetObj; try done.
      by destruct Hpairs.
Qed.

(** [CompareAppState] after the acquisition of the target state, read from
    its end: the reconciliation, the diff and the conditions at which the
    classification loop starts decide how the pass ends. *)
Lemma compareLoadedState_inv (m : appStateManager) (now : Time)
    (app : Application) (project : AppProject)
    (sources : list ApplicationSource) (noCache : bool)
    (hasMultipleSources : bool) (syncStatus0 : SyncStatus)
    (settings : comparisonSettings) (verifySignature : bool)
    (destCluster : Cluster) (tgt : targetState) :
  exists reconciliation diffResults conditions0 failed,
    (exists targets lives ns infoProvider,
       reconciliation = Reconcile P targets lives ns infoProvider)
    /\ (tgt_failedToLoadObjs tgt = true
     \/ (forall targetObjs, exists e,
           GetManagedLiveObjs (liveStateCache m) destCluster app targetObjs = Err e)
     \/ (forall lives targets config, exists e,
           StateDiffs P lives targets config = Err e) ->
     failed = true)
    /\ match classifyResources P m now app project destCluster settings diffResults
               failed (rec_Live reconciliation) 0 (rec_Target reconciliation)
               (mkClassification SyncStatusCodeSynced conditions0 [] []) with
       | Returned cl =>
           exists res pre,
             compareLoadedState P m now app project sources noCache
               hasMultipleSources syncStatus0 settings verifySignature destCluster tgt
             = (["dedup_ms"; "live_ms"; "diff_ms"; "sync_ms"; "health_ms"],
                Some (pre ++
                      concat (map (fun manifestInfo =>
                                     if IsGPGEnabled P && verifySignature
                                     then verifyGnuPGSignature P now
                                            (mr_Revision manifestInfo) project manifestInfo
                                     else [])
                                  (tgt_manifestInfos tgt))),
                failed, Returned res)
             /\ reconciliationResult res = reconciliation
             /\ resources res = cl_resourceSummaries cl
             /\ managedResources res = cl_managedResources cl
             /\ sync_Status (syncStatus res)
                = (if failed then SyncStatusCodeUnknown
                   else if HasChangedManagedNamespaceMetadata P app
                        then SyncStatusCodeOutOfSync else cl_syncCode cl)
             /\ revisionsMayHaveChanges res = tgt_revisionsMayHaveChanges tgt
       | Failed e =>
           compareLoadedState P m now app project sources noCache
             hasMultipleSources syncStatus0 settings verifySignature destCluster tgt
           = (["dedup_ms"; "live_ms"; "diff_ms"], None, failed, Failed e)
       | Panic =>
           compareLoadedState P m now app project sources noCache
             hasMultipleSources syncStatus0 settings verifySignature destCluster tgt
           = (["dedup_ms"; "live_ms"; "diff_ms"], None, failed, Panic)
       end.
Proof.
  unfold compareLoadedState.
  destruct_lets.
  match goal with
  | |- context [classifyResources P m now app project destCluster settings ?d ?f
                  (rec_Live ?r) 0 (rec_Target ?r) (mkClassification _ ?c [] [])] =>
      exists r, d, c, f
  end.
  split; [by eexists _, _, _, _|].
  split.
  { intros Hcause.
    repeat match goal with
           | H : context [GetManagedLiveObjs] |- _ => revert H
           | H : context [StateDiffs] |- _ => revert H
           end.
    repeat match goal with
           | |- context [match ?x with Ok _ => _ | Err _ => _ end] =>
               let E := fresh "E" in destruct x eqn:E
           end; intros; simplify_eq; simpl; try done.
    destruct Hcause as [->|[Hlive|Hdiff]]; [done| |].
    - match goal with
      | H : GetManagedLiveObjs _ _ _ ?t = Ok _ |- _ =>
          destruct (Hlive t) as [e He]; congruence
      end.
    - match goal with
      | H : StateDiffs _ ?l ?t ?c = Ok _ |- _ =>
          destruct (Hdiff l t c) as [e He]; congruence
      end. }
  match goal with
  | |- match ?c with _ => _ end => destruct c as [cl|e|]
  end; [|reflexivity..].
  destruct (setApplicationHealth P (cl_managedResources cl) (cl_resourceSummaries cl)
              (cs_resourceOverrides settings) app (persistResourceHealth m))
    as [healthStatus err'].
  eexists _, _. split; [reflexivity|]. by repeat split.
Qed.

(** C1. Whenever [failedToLoadObjs] is set during a comparison pass, the
    aggregate sync verdict of the result and the sync status of every
    per-resource entry are Unknown, whatever was computed for the single
    resources. The entries are those of the pairs of the reconciliation, each
    of which has a target or a live object. *)
Theorem failedToLoadObjs_forces_unknown (m : appStateManager)
    (repoErrorCache : gmap string Time) (now : Time)
    (app : Application) (project : AppProject) (revisions : list string)
    (sources : list ApplicationSource) (noCache noRevisionCache : bool)
    (localManifests : list string) (hasMultipleSources : bool)
    (eff : passEffects) (res : comparisonResult) :
  CompareAppState P m repoErrorCache now app project revisions sources noCache
    noRevisionCache localManifests hasMultipleSources = (eff, Returned res) ->
  eff_failedToLoadObjs eff = true ->
  alignedPairs (reconciliationResult res) ->
  sync_Status (GetSyncStatus res) = SyncStatusCodeUnknown
  /\ Forall (fun rs => rs_Status rs = SyncStatusCodeUnknown) (resources res)
  /\ length (resources res) = length (rec_Target (reconciliationResult res)).
Proof.
  unfold CompareAppState.
  destruct (getComparisonSettings m) as [settings|]; [|by intros [= <- _]].
  destruct (GetDestinationCluster P (spec_Destination (app_Spec app)) (db m))
    as [destCluster|]; [|done].
  match goal with
  | |- context [let '(_, _) := ?acq in _] => destruct acq as [cache' [tgt| |]]
  end; try done.
  set (syncStatus0 := initialSyncStatus app revisions sources hasMultipleSources).
  set (verifySignature :=
         bool_decide (0 < length (proj_SignatureKeys project))%nat && IsGPGEnabled P).
  destruct (compareLoadedState_inv m now app project sources noCache
              hasMultipleSources syncStatus0 settings verifySignature destCluster tgt)
    as (reconciliation & diffResults & conditions0 & failed & _ & _ & Hend).
  destruct (classifyResources P m now app project destCluster settings diffResults
              failed (rec_Live reconciliation) 0 (rec_Target reconciliation)
              (mkClassification SyncStatusCodeSynced conditions0 [] []))
    as [cl| |] eqn:Hloop.
  - destruct Hend as (res' & pre & -> & Hrec & Hres & _ & Hsync & _).
    intros [= <- <-]. simpl. intros -> [Hlen Hpairs].
    unfold GetSyncStatus. rewrite Hsync, Hres. split; [done|].
    rewrite Hrec in Hlen, Hpairs.
    apply classifyResources_failed_unknown in Hloop as [Hall Hcount].
    + split; [done|]. by rewrite Hcount, Hrec.
    + intros j target live Htarget Hlive.
      rewrite Forall_lookup in Hpairs.
      apply (Hpairs j (target, live)).
      apply lookup_zip_with_Some. by eexists _, _.
    + done.
  - rewrite Hend. by intros [= <- _].
  - rewrite Hend. by intros [= <- _].
Qed.

(** The entry of a pair without target and without live object stays the
    zero value, whatever [failedToLoadObjs] is. *)
Lemma classifyResource_empty_pair (m : appStateManager) (now : Time)
    (app : Application) (project : AppProject) (destCluster : Cluster)
    (settings : comparisonSettings) (diffResults : DiffResultList)
    (failedToLoadObjs : bool) (liveObjs : list (option Unstructured))
    (i : nat) (st : classification) :
  liveObjs !! i = Some None ->
  classifyResource P m now app project destCluster settings diffResults
    failedToLoadObjs liveObjs i None st
  = Returned {| cl_syncCode := cl_syncCode st;
                cl_conditions := cl_conditions st;
                cl_managedResources := cl_managedResources st ++ [zeroManagedResource];
                cl_resourceSummaries := cl_resourceSummaries st ++ [zeroResourceStatus] |}.
Proof. intros Hlive. unfold classifyResource. by rewrite Hlive. Qed.

(** ** Acquisition of the target state *)

Lemma orFail_failed {A B : Type} (r : result A) (prefix : string)
    (k : A -> outcome B) (e : error) :
  orFail r prefix k = Failed e ->
  wrapped e \/ exists a, r = Ok a /\ k a = Failed e.
Proof.
  destruct r as [a|cause]; simpl.
  - intros Hk. right. by exists a.
  - intros [= <-]. left. by eexists _, _.
Qed.

Lemma orFail_returned {A B : Type} (r : result A) (prefix : string)
    (k : A -> outcome B) (b : B) :
  orFail r prefix k = Returned b -> exists a, r = Ok a /\ k a = Returned b.
Proof. destruct r as [a|cause]; simpl; [|done]. intros Hk. by exists a. Qed.

Ltac wrapped_chain H :=
  repeat (apply orFail_failed in H as [H|(? & _ & H)]; [exact H|]);
  try discriminate H.

(** Every error [GetRepoObjs] returns is made by [fmt.Errorf]. *)
Lemma GetRepoObjs_options_failed (m : appStateManager) (app : Application)
    (sources : list ApplicationSource) (revisions : list string)
    (proj : AppProject) (sendRuntimeState : bool) (e : error) :
  GetRepoObjs_options P m app sources revisions proj sendRuntimeState = Failed e ->
  wrapped e.
Proof. unfold GetRepoObjs_options. intros H. wrapped_chain H. Qed.

Lemma GetRepoObjs_source_failed (m : appStateManager) (app : Application)
    (nsources : nat) (appLabelKey : string)
    (noCache noRevisionCache verifySignature : bool) (proj : AppProject)
    (sendRuntimeState : bool) (o : repoObjsOptions)
    (i : nat) (source : ApplicationSource) (st : repoObjsLoop)
    (revisions : list string) (e : error) :
  GetRepoObjs_source P m app nsources appLabelKey noCache noRevisionCache
    verifySignature proj sendRuntimeState o i source st = (revisions, Failed e) ->
  wrapped e.
Proof.
  unfold GetRepoObjs_source.
  destruct (_ && _); [done|].
  destruct (_ !! i); [|done].
  intros [= _ H]. wrapped_chain H.
Qed.

Lemma GetRepoObjs_loop_failed (m : appStateManager) (app : Application)
    (nsources : nat) (appLabelKey : string)
    (noCache noRevisionCache verifySignature : bool) (proj : AppProject)
    (sendRuntimeState : bool) (o : repoObjsOptions)
    (sources : list ApplicationSource) :
  forall (i : nat) (st : repoObjsLoop) (revisions : list string) (e : error),
    GetRepoObjs_loop P m app nsources appLabelKey noCache noRevisionCache
      verifySignature proj sendRuntimeState o i sources st = (revisions, Failed e) ->
    wrapped e.
Proof.
  induction sources as [|source rest IH]; intros i st revisions e; simpl; [done|].
  destruct (GetRepoObjs_source P m app nsources appLabelKey noCache noRevisionCache
              verifySignature proj sendRuntimeState o i source st)
    as [revisions' [st'|e'|]] eqn:Hstep.
  - apply IH.
  - intros [= <- <-]. by eapply GetRepoObjs_source_failed.
  - done.
Qed.

Lemma GetRepoObjs_failed (m : appStateManager) (app : Application)
    (sources : list ApplicationSource) (appLabelKey : string)
    (revisions : list string) (noCache noRevisionCache verifySignature : bool)
    (proj : AppProject) (sendRuntimeState : bool) (e : error) :
  (GetRepoObjs P m app sources appLabelKey revisions noCache noRevisionCache
     verifySignature proj sendRuntimeState).2 = Failed e ->
  wrapped e.
Proof.
  unfold GetRepoObjs.
  destruct (GetRepoObjs_options P m app sources revisions proj sendRuntimeState)
    as [o|e'|] eqn:Hoptions; simpl.
  - destruct (GetRepoObjs_loop P m app (length sources) appLabelKey noCache
                noRevisionCache verifySignature proj sendRuntimeState o 0 sources
                (mkRepoObjsLoop revisions [] [] false))
      as [revisions' [st|e'|]] eqn:Hloop; simpl; try done.
    intros [= <-]. by eapply GetRepoObjs_loop_failed.
  - intros [= <-]. by eapply GetRepoObjs_options_failed.
  - done.
Qed.

(** The sentinel is not an error made by [fmt.Errorf]. *)
Lemma ErrCompareStateRepo_not_wrapped : ~ wrapped ErrCompareStateRepo.
Proof. by intros (prefix & cause & ?). Qed.

(** C5. On the first failure to acquire the target state of an application,
    with the use of the revision cache requested, [CompareAppState] records
    the time under the application's name and returns the sentinel
    [ErrCompareStateRepo], not the error of the acquisition; on a further
    failure within the grace period, again with the revision cache requested,
    it returns the sentinel and leaves the recorded time as it is; when the
    acquisition succeeds it deletes the recorded time. *)
Theorem repo_error_grace_period (m : appStateManager)
    (repoErrorCache : gmap string Time) (now : Time)
    (app : Application) (project : AppProject) (revisions : list string)
    (sources : list ApplicationSource) (noCache noRevisionCache : bool)
    (hasMultipleSources : bool) (settings : comparisonSettings)
    (destCluster : Cluster) :
  getComparisonSettings m = Ok settings ->
  GetDestinationCluster P (spec_Destination (app_Spec app)) (db m) = Ok destCluster ->
  let acquired :=
    (GetRepoObjs P m app sources (cs_appLabelKey settings)
       (revisionsFor revisions sources) noCache noRevisionCache
       (bool_decide (0 < length (proj_SignatureKeys project))%nat && IsGPGEnabled P)
       project true).2 in
  let pass :=
    CompareAppState P m repoErrorCache now app project revisions sources noCache
      noRevisionCache [] hasMultipleSources in
  (forall err,
     acquired = Failed err -> noRevisionCache = false ->
     (repoErrorCache !! app_Name app = None ->
      pass = (mkPassEffects (<[app_Name app := now]> repoErrorCache)
                ["settings_ms"] None false,
              Failed ErrCompareStateRepo)
      /\ ErrCompareStateRepo <> err)
     /\ (forall firstSeen,
           repoErrorCache !! app_Name app = Some firstSeen ->
           (now - firstSeen <= repoErrorGracePeriod m)%Z ->
           pass = (mkPassEffects repoErrorCache ["settings_ms"] None false,
                   Failed ErrCompareStateRepo)
           /\ ErrCompareStateRepo <> err))
  /\ (forall acquisition,
        acquired = Returned acquisition ->
        eff_repoErrorCache pass.1 = delete (app_Name app) repoErrorCache).
Proof.
  intros Hsettings Hcluster acquired pass.
  subst pass. unfold CompareAppState. rewrite Hsettings, Hcluster.
  unfold loadTargetState.
  rewrite (bool_decide_eq_true_2 (length [] = 0%nat)) by done.
  unfold loadRepoState. fold acquired.
  split.
  - intros err Hfailed ->.
    assert (Hraw : ErrCompareStateRepo <> err).
    { intros <-. apply ErrCompareStateRepo_not_wrapped.
      by eapply GetRepoObjs_failed. }
    rewrite Hfailed. split.
    + intros ->. done.
    + intros firstSeen -> Hgrace.
      by rewrite bool_decide_eq_true_2.
  - intros [[targetObjs manifestInfos] changes] ->.
    by destruct (compareLoadedState _ _ _ _ _ _ _ _ _ _ _ _ _) as [[[? ?] ?] ?].
Qed.

(** A failure outside the grace period, or with the revision cache bypassed,
    is not suppressed: the pass goes on with [failedToLoadObjs] set and
    leaves the map as it is. *)
Lemma repo_error_not_suppressed (m : appStateManager)
    (repoErrorCache : gmap string Time) (now : Time)
    (app : Application) (project : AppProject) (revisions : list string)
    (sources : list ApplicationSource) (appLabelKey : string)
    (noCache noRevisionCache verifySignature : bool) (err : error) :
  (GetRepoObjs P m app sources appLabelKey (revisionsFor revisions sources)
     noCache noRevisionCache verifySignature project true).2 = Failed err ->
  noRevisionCache = true
  \/ (exists firstSeen,
        repoErrorCache !! app_Name app = Some firstSeen
        /\ (repoErrorGracePeriod m < now - firstSeen)%Z) ->
  exists tgt,
    loadRepoState P m repoErrorCache now app project revisions sources appLabelKey
      noCache noRevisionCache verifySignature = (repoErrorCache, Returned tgt)
    /\ tgt_failedToLoadObjs tgt = true
    /\ tgt_targetObjs tgt = [] /\ tgt_manifestInfos tgt = [].
Proof.
  intros Hfailed Hcause. unfold loadRepoState. rewrite Hfailed.
  destruct Hcause as [->|(firstSeen & -> & Hlate)].
  - destruct (repoErrorCache !! app_Name app); rewrite ?andb_false_r;
      eexists; by repeat split.
  - rewrite bool_decide_eq_false_2 by lia. eexists; by repeat split.
Qed.

(** ** Classification *)



(** The aggregate verdict the loop leaves is Synced or OutOfSync. *)
Lemma classifyResources_syncCode (m : appStateManager) (now : Time)
    (app : Application) (project : AppProject) (destCluster : Cluster)
    (settings : comparisonSettings) (diffResults : DiffResultList)
    (failedToLoadObjs : bool) (liveObjs : list (option Unstructured))
    (targetObjs : list (option Unstructured)) :
  forall (i : nat) (st st' : classification),
    classifyResources P m now app project destCluster settings diffResults
      failedToLoadObjs liveObjs i targetObjs st = Returned st' ->
    cl_syncCode st = SyncStatusCodeSynced \/ cl_syncCode st = SyncStatusCodeOutOfSync ->
    cl_syncCode st' = SyncStatusCodeSynced \/ cl_syncCode st' = SyncStatusCodeOutOfSync.
Proof.
  induction targetObjs as [|targetObj rest IH]; intros i st st'; simpl.
  - by intros [= <-].
  - destruct (classifyResource P m now app project destCluster settings diffResults
                failedToLoadObjs liveObjs i targetObj st) as [st1| |] eqn:Hstep;
      try done.
    intros Hrun Hst. apply (IH _ _ _ Hrun). clear Hrun IH.
    revert Hstep. unfold classifyResource.
    destruct (liveObjs !! i) as [liveObj|]; [|done].
    destruct (pairObject targetObj liveObj) as [obj|]; [|by intros [= <-]].
    unfold classifySync.
    repeat match goal with
           | |- context [if ?b then _ else _] => destruct b
           | |- context [let '(_, _) := ?x in _] => destruct x
           end; intros [= <-]; simpl; auto.
Qed.


(** ** The flag of [GetRepoObjs] *)

(** The preliminary check is skipped exactly when its guard is false. *)
Lemma pathCheckSkipped_guard (app : Application) (i : nat)
    (source : ApplicationSource) :
  pathCheckSkipped P app i source
  <-> checksPathChanges P app source (syncedRevisionOf P app i) = false.
Proof.
  unfold pathCheckSkipped, checksPathChanges.
  rewrite !andb_false_iff, !negb_false_iff, eqb_string_true.
  destruct (lookupString AnnotationKeyManifestGeneratePaths (app_Annotations app))
    as [val|].
  - rewrite negb_false_iff, eqb_string_true.
    split; [intros [?|[?|[?|[?|?]]]]|intros [[[?|?]|?]|?]];
      try discriminate; simplify_eq; tauto.
  - tauto.
Qed.

(** One iteration keeps the flag once it is set, and sets it when the check
    is skipped for its source. *)
Lemma GetRepoObjs_source_flag (m : appStateManager) (app : Application)
    (nsources : nat) (appLabelKey : string)
    (noCache noRevisionCache verifySignature : bool) (proj : AppProject)
    (sendRuntimeState : bool) (o : repoObjsOptions)
    (i : nat) (source : ApplicationSource) (st st' : repoObjsLoop)
    (revisions : list string) :
  GetRepoObjs_source P m app nsources appLabelKey noCache noRevisionCache
    verifySignature proj sendRuntimeState o i source st = (revisions, Returned st') ->
  (loop_revisionsMayHaveChanges st = true -> loop_revisionsMayHaveChanges st' = true)
  /\ (checksPathChanges P app source (syncedRevisionOf P app i) = false ->
      loop_revisionsMayHaveChanges st' = true).
Proof.
  unfold GetRepoObjs_source.
  destruct (_ && _); [done|].
  destruct (_ !! i) as [revision0|]; [|done].
  intros [= _ H].
  apply orFail_returned in H as (repo & _ & H).
  apply orFail_returned in H as ([flag revision] & Hchecked & H).
  apply orFail_returned in H as (manifestInfo & _ & H).
  apply orFail_returned in H as (targetObj & _ & H).
  injection H as <-. simpl.
  destruct (checksPathChanges P app source (syncedRevisionOf P app i)).
  - destruct (UpdateRevisionForPaths _ _) as [updateRevisionResult|]; [|done].
    injection Hchecked as <- _.
    split; [|done]. intros ->. by destruct (ur_Changes updateRevisionResult).
  - by injection Hchecked as <- _.
Qed.

Lemma GetRepoObjs_loop_flag (m : appStateManager) (app : Application)
    (nsources : nat) (appLabelKey : string)
    (noCache noRevisionCache verifySignature : bool) (proj : AppProject)
    (sendRuntimeState : bool) (o : repoObjsOptions)
    (sources : list ApplicationSource) :
  forall (i : nat) (st st' : repoObjsLoop) (revisions : list string),
    GetRepoObjs_loop P m app nsources appLabelKey noCache noRevisionCache
      verifySignature proj sendRuntimeState o i sources st = (revisions, Returned st') ->
    (loop_revisionsMayHaveChanges st = true -> loop_revisionsMayHaveChanges st' = true)
    /\ (forall j source,
          sources !! j = Some source ->
          checksPathChanges P app source (syncedRevisionOf P app (i + j)) = false ->
          loop_revisionsMayHaveChanges st' = true).
Proof.
  induction sources as [|source rest IH]; intros i st st' revisions; simpl.
  - intros [= _ <-]. split; [done|]. intros j source' Hj. done.
  - destruct (GetRepoObjs_source P m app nsources appLabelKey noCache noRevisionCache
                verifySignature proj sendRuntimeState o i source st)
      as [revisions1 [st1|e|]] eqn:Hstep; try done.
    intros Hrest.
    apply GetRepoObjs_source_flag in Hstep as [Hkeep Hset].
    apply IH in Hrest as [Hkeep' Hset'].
    split; [auto|].
    intros [|j] source' Hj Hskipped; simpl in Hj.
    + injection Hj as <-. rewrite Nat.add_0_r in Hskipped. auto.
    + apply (Hset' j source' Hj).
      by replace (S i + j)%nat with (i + S j)%nat by lia.
Qed.

(** C8. When [GetRepoObjs] returns its objects, and the preliminary
    path-change check was skipped for one of the sources (the source is a
    Helm chart or an OCI reference, or the synced revision is empty, or the
    manifest-generate-paths annotation is absent or empty), the flag
    [revisionsMayHaveChanges] it returns is [true]. *)
Theorem skipped_check_sets_revisionsMayHaveChanges (m : appStateManager)
    (app : Application) (sources : list ApplicationSource) (appLabelKey : string)
    (revisions : list string) (noCache noRevisionCache verifySignature : bool)
    (proj : AppProject) (sendRuntimeState : bool)
    (targetObjs : list (option Unstructured)) (manifestInfos : list ManifestResponse)
    (revisionsMayHaveChanges : bool) (i : nat) (source : ApplicationSource) :
  (GetRepoObjs P m app sources appLabelKey revisions noCache noRevisionCache
     verifySignature proj sendRuntimeState).2
  = Returned (targetObjs, manifestInfos, revisionsMayHaveChanges) ->
  sources !! i = Some source ->
  pathCheckSkipped P app i source ->
  revisionsMayHaveChanges = true.
Proof.
  unfold GetRepoObjs.
  destruct (GetRepoObjs_options P m app sources revisions proj sendRuntimeState)
    as [o|e|]; [|done..].
  destruct (GetRepoObjs_loop P m app (length sources) appLabelKey noCache
              noRevisionCache verifySignature proj sendRuntimeState o 0 sources
              (mkRepoObjsLoop revisions [] [] false))
    as [revisions' [st|e|]] eqn:Hloop; [|done..].
  simpl. intros [= _ _ <-] Hsource Hskipped.
  apply GetRepoObjs_loop_flag in Hloop as [_ Hset].
  apply (Hset i source Hsource). by apply pathCheckSkipped_guard.
Qed.

(** ** Deduplication *)

Lemma targetsOf_appendTarget (key' key : ResourceKey) (obj : Unstructured)
    (targetByKey : list (ResourceKey * list Unstructured)) :
  targetsOf key' (appendTarget key obj targetByKey)
  = if bool_decide (key = key') then targetsOf key' targetByKey ++ [obj]
    else targetsOf key' targetByKey.
Proof.
  induction targetByKey as [|[k targets] rest IH]; simpl.
  - by repeat case_bool_decide.
  - repeat (case_bool_decide; simpl; simplify_eq); try done.
    all: rewrite IH; by repeat (case_bool_decide; simplify_eq).
Qed.

Lemma appendTarget_keys (key : ResourceKey) (obj : Unstructured)
    (targetByKey : list (ResourceKey * list Unstructured)) :
  (appendTarget key obj targetByKey).*1
  = if bool_decide (key ∈ targetByKey.*1) then targetByKey.*1
    else targetByKey.*1 ++ [key].
Proof.
  induction targetByKey as [|[k targets] rest IH]; [done|].
  change (appendTarget key obj ((k, targets) :: rest))
    with (if bool_decide (k = key) then (k, targets ++ [obj]) :: rest
          else (k, targets) :: appendTarget key obj rest).
  rewrite fmap_cons. cbn [fst].
  destruct (decide (k = key)) as [->|Hk].
  - rewrite bool_decide_eq_true_2 by done.
    rewrite bool_decide_eq_true_2 by apply list_elem_of_here. done.
  - rewrite (bool_decide_eq_false_2 (k = key)) by done.
    rewrite fmap_cons. cbn [fst]. rewrite IH.
    destruct (decide (key ∈ rest.*1)) as [Hin|Hin].
    + rewrite bool_decide_eq_true_2 by done.
      rewrite bool_decide_eq_true_2 by (by apply list_elem_of_further). done.
    + rewrite bool_decide_eq_false_2 by done.
      rewrite bool_decide_eq_false_2; [done|].
      rewrite elem_of_cons. intros [->|?]; done.
Qed.

Lemma appendTarget_NoDup (key : ResourceKey) (obj : Unstructured)
    (targetByKey : list (ResourceKey * list Unstructured)) :
  NoDup targetByKey.*1 -> NoDup (appendTarget key obj targetByKey).*1.
Proof.
  intros Hnodup. rewrite appendTarget_keys. case_bool_decide as Hin; [done|].
  apply NoDup_app. split; [done|]. split.
  - intros k Hk. rewrite list_elem_of_singleton. by intros ->.
  - apply NoDup_singleton.
Qed.

Lemma appendTarget_nonempty (key : ResourceKey) (obj : Unstructured)
    (targetByKey : list (ResourceKey * list Unstructured)) :
  Forall (fun kv => kv.2 <> []) targetByKey ->
  Forall (fun kv => kv.2 <> []) (appendTarget key obj targetByKey).
Proof.
  induction 1 as [|[k targets] rest Hhead Hrest IH]; simpl.
  - by apply Forall_singleton.
  - case_bool_decide; constructor; simpl; try done.
    by destruct targets.
Qed.

(** The first loop groups under every key the objects that carry it, in
    input order, with one group per key and no empty group. *)
Lemma groupTargets_groups (namespace : string) (infoProvider : ResourceInfoProvider)
    (objs : list (option Unstructured)) :
  forall (i : nat) (targetByKey : list (ResourceKey * list Unstructured)),
    NoDup targetByKey.*1 ->
    Forall (fun kv => kv.2 <> []) targetByKey ->
    NoDup (groupTargets P namespace infoProvider i objs targetByKey).*1
    /\ Forall (fun kv => kv.2 <> [])
         (groupTargets P namespace infoProvider i objs targetByKey)
    /\ forall key,
         targetsOf key (groupTargets P namespace infoProvider i objs targetByKey)
         = targetsOf key targetByKey
           ++ targetsWithKey P namespace infoProvider key i objs.
Proof.
  induction objs as [|[obj|] rest IH]; intros i targetByKey Hnodup Hnonempty; simpl.
  - split; [done|]. split; [done|]. intros key. by rewrite app_nil_r.
  - set (obj' := withTargetNamespace P namespace infoProvider obj).
    destruct (IH (S i) _ (appendTarget_NoDup (targetKey P i obj') obj' _ Hnodup)
                (appendTarget_nonempty (targetKey P i obj') obj' _ Hnonempty))
      as (Hn & Hne & Hgroups).
    split; [done|]. split; [done|]. intros key.
    rewrite Hgroups, targetsOf_appendTarget.
    case_bool_decide; [|done]. by rewrite <- app_assoc.
  - by apply IH.
Qed.

(** A key with a group sits at one place of the map. *)
Lemma targetsOf_split (key : ResourceKey)
    (targetByKey : list (ResourceKey * list Unstructured)) :
  NoDup targetByKey.*1 ->
  targetsOf key targetByKey <> [] ->
  exists before after,
    targetByKey = before ++ (key, targetsOf key targetByKey) :: after
    /\ (key ∉ before.*1) /\ (key ∉ after.*1).
Proof.
  induction targetByKey as [|[k targets] rest IH]; simpl; [done|].
  intros Hnodup Hgroup. apply NoDup_cons in Hnodup as [Hk Hrest].
  case_bool_decide as Heq.
  - subst k. exists [], rest. split; [done|]. split; [apply not_elem_of_nil|done].
  - destruct (IH Hrest Hgroup) as (before & after & Hsplit & Hbefore & Hafter).
    exists ((k, targets) :: before), after. split; [|split; [|done]].
    + simpl. by rewrite <- Hsplit.
    + simpl. rewrite elem_of_cons. intros [->|?]; done.
Qed.

Lemma lastTargets_app (before after : list (ResourceKey * list Unstructured)) :
  lastTargets (before ++ after) = lastTargets before ++ lastTargets after.
Proof. apply omap_app. Qed.

Lemma repeatedConditions_app (now : Time)
    (before after : list (ResourceKey * list Unstructured)) :
  repeatedConditions P now (before ++ after)
  = repeatedConditions P now before ++ repeatedConditions P now after.
Proof. apply omap_app. Qed.

(** Every key of the map gives one object of the result. *)
Lemma lastTargets_length (targetByKey : list (ResourceKey * list Unstructured)) :
  Forall (fun kv => kv.2 <> []) targetByKey ->
  length (lastTargets targetByKey) = length targetByKey.
Proof.
  induction 1 as [|[k targets] rest Hhead Hrest IH]; simpl; [done|].
  unfold lastTargets in *. simpl.
  destruct (last targets) as [kept|] eqn:Hlast; simpl.
  - by rewrite IH.
  - apply last_None in Hlast. done.
Qed.

(** C3. When N > 1 target objects of the input share a resource key (computed
    after the namespace is normalised, with the generate-name and the index
    standing in for an empty name), [DeduplicateTargetObjects] keeps one object
    for that key, the last of them in input order, and emits one
    repeated-resource warning for that key, whose message names the key and the
    count N. The other objects and conditions of the result belong to groups of
    other keys. *)
Theorem deduplicate_keeps_last (now : Time) (namespace : string)
    (objs : list (option Unstructured)) (infoProvider : ResourceInfoProvider)
    (key : ResourceKey) :
  let targets := targetsWithKey P namespace infoProvider key 0 objs in
  (1 < length targets)%nat ->
  exists before after kept,
    groupTargets P namespace infoProvider 0 objs [] = before ++ (key, targets) :: after
    /\ (key ∉ before.*1) /\ (key ∉ after.*1)
    /\ last targets = Some kept
    /\ DeduplicateTargetObjects P now namespace objs infoProvider
       = (lastTargets before ++ kept :: lastTargets after,
          repeatedConditions P now before
          ++ {| cond_Type := ApplicationConditionRepeatedResourceWarning;
                cond_Message :=
                  "Resource " +:+ ResourceKey_String P key +:+ " appeared "
                  +:+ pretty (length targets)
                  +:+ " times among application resources.";
                cond_LastTransitionTime := Some now |}
             :: repeatedConditions P now after)
    /\ length (DeduplicateTargetObjects P now namespace objs infoProvider).1
       = length (before ++ (key, targets) :: after).
Proof.
  intros targets Hmany.
  destruct (groupTargets_groups namespace infoProvider objs 0 []
              (NoDup_nil_2) (Forall_nil_2 _)) as (Hnodup & Hnonempty & Hgroups).
  specialize (Hgroups key). simpl in Hgroups. fold targets in Hgroups.
  destruct (targetsOf_split key _ Hnodup) as (before & after & Hsplit & Hb & Ha).
  { rewrite Hgroups. intros Hnil. rewrite Hnil in Hmany. simpl in Hmany. lia. }
  rewrite Hgroups in Hsplit.
  destruct (last targets) as [kept|] eqn:Hlast.
  2: { apply last_None in Hlast. rewrite Hlast in Hmany. simpl in Hmany. lia. }
  exists before, after, kept. split; [done|]. split; [done|]. split; [done|].
  split; [done|].
  unfold DeduplicateTargetObjects. split.
  - rewrite Hsplit, lastTargets_app, repeatedConditions_app. f_equal.
    + unfold lastTargets at 2. simpl. by rewrite Hlast.
    + unfold repeatedConditions at 2. simpl.
      by rewrite bool_decide_eq_true_2.
  - simpl. rewrite lastTargets_length; [by rewrite Hsplit|done].
Qed.

(** ** When [failedToLoadObjs] is set *)

(** A pass that goes on after the acquisition of the target state ends with
    [failedToLoadObjs] set if the acquisition had failed, if the live state
    cannot be loaded, or if the diff cannot be computed. *)
Lemma failedToLoadObjs_causes (m : appStateManager)
    (repoErrorCache repoErrorCache' : gmap string Time) (now : Time)
    (app : Application) (project : AppProject) (revisions : list string)
    (sources : list ApplicationSource) (noCache noRevisionCache : bool)
    (localManifests : list string) (hasMultipleSources : bool)
    (settings : comparisonSettings) (destCluster : Cluster) (tgt : targetState) :
  getComparisonSettings m = Ok settings ->
  GetDestinationCluster P (spec_Destination (app_Spec app)) (db m) = Ok destCluster ->
  loadTargetState P m repoErrorCache now app project revisions sources
    (cs_appLabelKey settings) noCache noRevisionCache localManifests
    (bool_decide (0 < length (proj_SignatureKeys project))%nat && IsGPGEnabled P)
  = (repoErrorCache', Returned tgt) ->
  tgt_failedToLoadObjs tgt = true
  \/ (forall targetObjs, exists e,
        GetManagedLiveObjs (liveStateCache m) destCluster app targetObjs = Err e)
  \/ (forall lives targets config, exists e,
        StateDiffs P lives targets config = Err e) ->
  eff_failedToLoadObjs
    (CompareAppState P m repoErrorCache now app project revisions sources noCache
       noRevisionCache localManifests hasMultipleSources).1 = true.
Proof.
  intros Hsettings Hcluster Hloaded Hcause.
  unfold CompareAppState. rewrite Hsettings, Hcluster, Hloaded.
  set (syncStatus0 := initialSyncStatus app revisions sources hasMultipleSources).
  set (verifySignature :=
         bool_decide (0 < length (proj_SignatureKeys project))%nat && IsGPGEnabled P).
  destruct (compareLoadedState_inv m now app project sources noCache
              hasMultipleSources syncStatus0 settings verifySignature destCluster tgt)
    as (reconciliation & diffResults & conditions0 & failed & _ & Hfailed & Hend).
  rewrite (Hfailed Hcause) in Hend.
  destruct (classifyResources P m now app project destCluster settings diffResults
              true (rec_Live reconciliation) 0 (rec_Target reconciliation)
              (mkClassification SyncStatusCodeSynced conditions0 [] []))
    as [cl|e|].
  - destruct Hend as (res & pre & -> & _). done.
  - by rewrite Hend.
  - by rewrite Hend.
Qed.

(** The acquisition from the repository server leaves [failedToLoadObjs]
    set exactly when it goes on after an error of [GetRepoObjs]. *)
Lemma loadRepoState_failed (m : appStateManager)
    (repoErrorCache repoErrorCache' : gmap string Time) (now : Time)
    (app : Application) (project : AppProject) (revisions : list string)
    (sources : list ApplicationSource) (appLabelKey : string)
    (noCache noRevisionCache verifySignature : bool) (tgt : targetState) :
  loadRepoState P m repoErrorCache now app project revisions sources appLabelKey
    noCache noRevisionCache verifySignature = (repoErrorCache', Returned tgt) ->
  tgt_failedToLoadObjs tgt = true
  <-> exists err,
        (GetRepoObjs P m app sources appLabelKey (revisionsFor revisions sources)
           noCache noRevisionCache verifySignature project true).2 = Failed err.
Proof.
  unfold loadRepoState.
  destruct (GetRepoObjs P m app sources appLabelKey (revisionsFor revisions sources)
              noCache noRevisionCache verifySignature project true).2
    as [[[targetObjs manifestInfos] changes]|err|]; [| |done].
  - intros [= _ <-]. simpl. split; [done|]. by intros [err ?].
  - destruct (repoErrorCache !! app_Name app) as [firstSeen|].
    + destruct (_ && _); [done|]. intros [= _ <-]. simpl. split; [by eexists|done].
    + destruct (negb noRevisionCache); [done|]. intros [= _ <-]. simpl.
      split; [by eexists|done].
Qed.

(** ** What [GetRepoObjs] returns *)

Lemma unmarshalManifests_app (first second : list string) :
  unmarshalManifests P (first ++ second)
  = match unmarshalManifests P first with
    | Err e => Err e
    | Ok objs =>
        match unmarshalManifests P second with
        | Err e => Err e
        | Ok objs' => Ok (objs ++ objs')
        end
    end.
Proof.
  induction first as [|manifest rest IH]; simpl.
  - by destruct (unmarshalManifests P second).
  - destruct (UnmarshalToUnstructured P manifest); [|done].
    rewrite IH. destruct (unmarshalManifests P rest); [|done].
    by destruct (unmarshalManifests P second).
Qed.

(** What one iteration over a source that returns has done. *)
Lemma GetRepoObjs_source_returned (m : appStateManager) (app : Application)
    (nsources : nat) (appLabelKey : string)
    (noCache noRevisionCache verifySignature : bool) (proj : AppProject)
    (sendRuntimeState : bool) (o : repoObjsOptions)
    (i : nat) (source : ApplicationSource) (st st' : repoObjsLoop)
    (revisions : list string) :
  GetRepoObjs_source P m app nsources appLabelKey noCache noRevisionCache
    verifySignature proj sendRuntimeState o i source st = (revisions, Returned st') ->
  exists manifestInfo targetObj,
    loop_revisions st' = revisions
    /\ (i < length (loop_revisions st))%nat
    /\ revisions
       = (if bool_decide (length (loop_revisions st) < nsources)%nat
             || bool_decide (loop_revisions st !! i = Some "")
          then <[i := src_TargetRevision source]> (loop_revisions st)
          else loop_revisions st)
    /\ loop_manifestInfos st' = loop_manifestInfos st ++ [manifestInfo]
    /\ unmarshalManifests P (mr_Manifests manifestInfo) = Ok targetObj
    /\ loop_targetObjs st' = loop_targetObjs st ++ targetObj.
Proof.
  unfold GetRepoObjs_source.
  set (overwrite := bool_decide (length (loop_revisions st) < nsources)%nat
                    || bool_decide (loop_revisions st !! i = Some "")).
  destruct (overwrite && negb (bool_decide (i < length (loop_revisions st))%nat))
    eqn:Hbounds; [done|].
  set (revisions1 := if overwrite then <[i := src_TargetRevision source]> (loop_revisions st)
                     else loop_revisions st).
  destruct (revisions1 !! i) as [revision0|] eqn:Hrevision; [|done].
  intros [= <- H].
  apply orFail_returned in H as (repo & _ & H).
  apply orFail_returned in H as (checked & _ & H).
  apply orFail_returned in H as (manifestInfo & _ & H).
  apply orFail_returned in H as (targetObj & Hunmarshal & H).
  injection H as <-. simpl.
  exists manifestInfo, targetObj. split; [done|]. split; [|done].
  apply lookup_lt_Some in Hrevision. subst revisions1.
  destruct overwrite; [by rewrite length_insert in Hrevision|done].
Qed.

(** The loop over the sources, when it returns: the revisions it leaves, one
    response per source, and the objects of all the responses. *)
Lemma GetRepoObjs_loop_returned (m : appStateManager) (app : Application)
    (nsources : nat) (appLabelKey : string)
    (noCache noRevisionCache verifySignature : bool) (proj : AppProject)
    (sendRuntimeState : bool) (o : repoObjsOptions)
    (sources : list ApplicationSource) :
  forall (i : nat) (st st' : repoObjsLoop) (revisions : list string),
    GetRepoObjs_loop P m app nsources appLabelKey noCache noRevisionCache
      verifySignature proj sendRuntimeState o i sources st = (revisions, Returned st') ->
    exists manifestInfos targetObjs,
      loop_revisions st' = revisions
      /\ length revisions = length (loop_revisions st)
      /\ (0 < length sources -> i + length sources <= length revisions)%nat
      /\ (forall j, (j < i \/ i + length sources <= j)%nat ->
                    revisions !! j = loop_revisions st !! j)
      /\ (forall j source revision,
            sources !! j = Some source ->
            loop_revisions st !! (i + j)%nat = Some revision ->
            revisions !! (i + j)%nat
            = Some (if bool_decide (length revisions < nsources)%nat
                       || bool_decide (revision = "")
                    then src_TargetRevision source else revision))
      /\ loop_manifestInfos st' = loop_manifestInfos st ++ manifestInfos
      /\ length manifestInfos = length sources
      /\ unmarshalManifests P (concat (map mr_Manifests manifestInfos)) = Ok targetObjs
      /\ loop_targetObjs st' = loop_targetObjs st ++ targetObjs.
Proof.
  induction sources as [|source rest IH]; intros i st st' revisions; simpl.
  - intros [= <- <-]. exists [], []. rewrite !app_nil_r.
    split; [done|]. split; [done|]. split; [simpl; lia|]. by repeat split.
  - destruct (GetRepoObjs_source P m app nsources appLabelKey noCache noRevisionCache
                verifySignature proj sendRuntimeState o i source st)
      as [revisions1 [st1|e|]] eqn:Hstep; try done.
    intros Hrest.
    apply GetRepoObjs_source_returned in Hstep
      as (manifestInfo & targetObj & Hrev1 & Hi & Hrevisions1 & Hinfos & Hunmarshal & Hobjs).
    apply IH in Hrest
      as (manifestInfos & targetObjs & Hrev & Hlen & Hbound & Hother & Hsource
          & Hinfos' & Hcount & Hunmarshal' & Hobjs').
    assert (Hlen1 : length revisions1 = length (loop_revisions st)).
    { rewrite Hrevisions1. destruct (_ || _); [apply length_insert|done]. }
    rewrite Hrev1 in Hlen, Hother, Hsource.
    exists (manifestInfo :: manifestInfos), (targetObj ++ targetObjs).
    split; [done|]. split; [lia|].
    split; [intros _; destruct rest; simpl in *; lia|].
    split; [|split; [|split; [|split; [|split]]]].
    + intros j Hj. rewrite Hother by lia. rewrite Hrevisions1.
      destruct (_ || _); [|done]. apply list_lookup_insert_ne. lia.
    + intros [|j] source' revision Hsource' Hrevision; simpl in Hsource'.
      * injection Hsource' as <-. rewrite Nat.add_0_r in *.
        rewrite Hother by lia. rewrite Hrevisions1, Hlen, Hlen1, Hrevision.
        assert (Hempty : bool_decide (Some revision = Some "") = bool_decide (revision = ""))
          by (apply bool_decide_ext; naive_solver).
        rewrite Hempty.
        match goal with
        | |- context [if ?c then _ else _] => destruct c
        end; [by apply list_lookup_insert_eq|exact Hrevision].
      * replace (i + S j)%nat with (S i + j)%nat by lia.
        apply Hsource; [done|].
        rewrite Hrevisions1. destruct (_ || _).
        -- rewrite list_lookup_insert_ne by lia.
           by replace (S i + j)%nat with (i + S j)%nat by lia.
        -- by replace (S i + j)%nat with (i + S j)%nat by lia.
    + by rewrite Hinfos', Hinfos, <- app_assoc.
    + simpl. by rewrite Hcount.
    + simpl. rewrite unmarshalManifests_app, Hunmarshal, Hunmarshal'. done.
    + by rewrite Hobjs', Hobjs, <- app_assoc.
Qed.

(** X1. When [GetRepoObjs] returns its objects, it returns one response per
    source, and the objects are the documents of all the responses, in order. *)
Theorem GetRepoObjs_responses (m : appStateManager)
    (app : Application) (sources : list ApplicationSource) (appLabelKey : string)
    (revisions : list string) (noCache noRevisionCache verifySignature : bool)
    (proj : AppProject) (sendRuntimeState : bool)
    (targetObjs : list (option Unstructured)) (manifestInfos : list ManifestResponse)
    (changes : bool) :
  (GetRepoObjs P m app sources appLabelKey revisions noCache noRevisionCache
     verifySignature proj sendRuntimeState).2
  = Returned (targetObjs, manifestInfos, changes) ->
  length manifestInfos = length sources
  /\ unmarshalManifests P (concat (map mr_Manifests manifestInfos)) = Ok targetObjs.
Proof.
  unfold GetRepoObjs.
  destruct (GetRepoObjs_options P m app sources revisions proj sendRuntimeState)
    as [o|e|]; [|done..].
  destruct (GetRepoObjs_loop P m app (length sources) appLabelKey noCache
              noRevisionCache verifySignature proj sendRuntimeState o 0 sources
              (mkRepoObjsLoop revisions [] [] false))
    as [revisions' [st|e|]] eqn:Hloop; [|done..].
  simpl. intros [= <- <- _].
  apply GetRepoObjs_loop_returned in Hloop
    as (infos & objs & _ & _ & _ & _ & _ & -> & Hcount & Hunmarshal & ->).
  done.
Qed.

(** X2. When [GetRepoObjs] returns its objects there was a revision for every
    source, and the caller's slice of revisions has every empty revision of a
    source replaced by the target revision of the source and nothing else
    changed. *)
Theorem GetRepoObjs_revisions (m : appStateManager)
    (app : Application) (sources : list ApplicationSource) (appLabelKey : string)
    (revisions revisions' : list string)
    (noCache noRevisionCache verifySignature : bool)
    (proj : AppProject) (sendRuntimeState : bool)
    (acquired : list (option Unstructured) * list ManifestResponse * bool) :
  GetRepoObjs P m app sources appLabelKey revisions noCache noRevisionCache
    verifySignature proj sendRuntimeState = (revisions', Returned acquired) ->
  (length sources <= length revisions)%nat
  /\ length revisions' = length revisions
  /\ (forall i source revision,
        sources !! i = Some source -> revisions !! i = Some revision ->
        revisions' !! i
        = Some (if bool_decide (revision = "") then src_TargetRevision source
                else revision))
  /\ (forall i, (length sources <= i)%nat -> revisions' !! i = revisions !! i).
Proof.
  unfold GetRepoObjs.
  destruct (GetRepoObjs_options P m app sources revisions proj sendRuntimeState)
    as [o|e|]; [|done..].
  destruct (GetRepoObjs_loop P m app (length sources) appLabelKey noCache
              noRevisionCache verifySignature proj sendRuntimeState o 0 sources
              (mkRepoObjsLoop revisions [] [] false))
    as [revisions1 [st|e|]] eqn:Hloop; [|done..].
  intros [= <- _].
  apply GetRepoObjs_loop_returned in Hloop
    as (infos & objs & _ & Hlen & Hbound & Hother & Hsource & _).
  simpl in *. split; [destruct sources; simpl in *; lia|]. split; [done|]. split.
  - intros i source revision Hs Hr.
    rewrite (Hsource i source revision Hs Hr).
    apply lookup_lt_Some in Hs.
    rewrite bool_decide_eq_false_2 by lia. done.
  - intros i Hi. apply Hother. lia.
Qed.

Lemma orFail_panic {A B : Type} (r : result A) (prefix : string)
    (k : A -> outcome B) :
  orFail r prefix k = Panic -> exists a, r = Ok a /\ k a = Panic.
Proof. destruct r as [a|cause]; simpl; [|done]. intros Hk. by exists a. Qed.

(** An iteration panics only on an index outside the revisions. *)
Lemma GetRepoObjs_source_panic (m : appStateManager) (app : Application)
    (nsources : nat) (appLabelKey : string)
    (noCache noRevisionCache verifySignature : bool) (proj : AppProject)
    (sendRuntimeState : bool) (o : repoObjsOptions)
    (i : nat) (source : ApplicationSource) (st : repoObjsLoop)
    (revisions : list string) :
  GetRepoObjs_source P m app nsources appLabelKey noCache noRevisionCache
    verifySignature proj sendRuntimeState o i source st = (revisions, Panic) ->
  (length (loop_revisions st) <= i)%nat.
Proof.
  unfold GetRepoObjs_source.
  set (overwrite := bool_decide (length (loop_revisions st) < nsources)%nat
                    || bool_decide (loop_revisions st !! i = Some "")).
  destruct (decide (i < length (loop_revisions st))%nat) as [Hi|Hi]; [|lia].
  rewrite (bool_decide_eq_true_2 _ Hi), andb_false_r.
  set (revisions1 := if overwrite then <[i := src_TargetRevision source]> (loop_revisions st)
                     else loop_revisions st).
  assert (Hlen : length revisions1 = length (loop_revisions st))
    by (subst revisions1; destruct overwrite; [apply length_insert|done]).
  destruct (lookup_lt_is_Some_2 revisions1 i ltac:(lia)) as [revision0 ->].
  intros [= _ H].
  apply orFail_panic in H as (repo & _ & H).
  apply orFail_panic in H as (checked & _ & H).
  apply orFail_panic in H as (manifestInfo & _ & H).
  apply orFail_panic in H as (targetObj & _ & H). done.
Qed.

Lemma GetRepoObjs_loop_panic (m : appStateManager) (app : Application)
    (nsources : nat) (appLabelKey : string)
    (noCache noRevisionCache verifySignature : bool) (proj : AppProject)
    (sendRuntimeState : bool) (o : repoObjsOptions)
    (sources : list ApplicationSource) :
  forall (i : nat) (st : repoObjsLoop) (revisions : list string),
    GetRepoObjs_loop P m app nsources appLabelKey noCache noRevisionCache
      verifySignature proj sendRuntimeState o i sources st = (revisions, Panic) ->
    (length (loop_revisions st) < i + length sources)%nat.
Proof.
  induction sources as [|source rest IH]; intros i st revisions; simpl; [done|].
  destruct (GetRepoObjs_source P m app nsources appLabelKey noCache noRevisionCache
              verifySignature proj sendRuntimeState o i source st)
    as [revisions1 [st1|e|]] eqn:Hstep; try done.
  - intros Hrest. apply IH in Hrest.
    apply GetRepoObjs_source_returned in Hstep
      as (_ & _ & Hrev1 & _ & Hrevisions1 & _).
    assert (length (loop_revisions st1) = length (loop_revisions st)).
    { rewrite Hrev1, Hrevisions1. destruct (_ || _); [apply length_insert|done]. }
    lia.
  - intros _. apply GetRepoObjs_source_panic in Hstep. lia.
Qed.

(** [GetRepoObjs] panics only when it has more sources than revisions. *)
Lemma GetRepoObjs_panic_short (m : appStateManager)
    (app : Application) (sources : list ApplicationSource) (appLabelKey : string)
    (revisions : list string) (noCache noRevisionCache verifySignature : bool)
    (proj : AppProject) (sendRuntimeState : bool) :
  (GetRepoObjs P m app sources appLabelKey revisions noCache noRevisionCache
     verifySignature proj sendRuntimeState).2 = Panic ->
  (length revisions < length sources)%nat.
Proof.
  unfold GetRepoObjs.
  destruct (GetRepoObjs_options P m app sources revisions proj sendRuntimeState)
    as [o|e|] eqn:Hoptions; [|done|].
  - destruct (GetRepoObjs_loop P m app (length sources) appLabelKey noCache
                noRevisionCache verifySignature proj sendRuntimeState o 0 sources
                (mkRepoObjsLoop revisions [] [] false))
      as [revisions' [st|e|]] eqn:Hloop; [done..|].
    intros _. apply GetRepoObjs_loop_panic in Hloop. simpl in Hloop. lia.
  - exfalso. revert Hoptions. unfold GetRepoObjs_options. intros H.
    repeat (apply orFail_panic in H as (? & _ & H)). done.
Qed.

(** X3. [GetRepoObjs] indexes no slice out of range when it is given a
    revision for every source: it returns its objects or an error and does not
    panic. *)
Theorem GetRepoObjs_no_panic (m : appStateManager)
    (app : Application) (sources : list ApplicationSource) (appLabelKey : string)
    (revisions : list string) (noCache noRevisionCache verifySignature : bool)
    (proj : AppProject) (sendRuntimeState : bool) :
  (length sources <= length revisions)%nat ->
  (GetRepoObjs P m app sources appLabelKey revisions noCache noRevisionCache
     verifySignature proj sendRuntimeState).2 <> Panic.
Proof. intros Hlen Hpanic. apply GetRepoObjs_panic_short in Hpanic. lia. Qed.

(** The client the loop talks to is the one the client set opened. *)
Lemma GetRepoObjs_options_client (m : appStateManager) (app : Application)
    (sources : list ApplicationSource) (revisions : list string)
    (proj : AppProject) (sendRuntimeState : bool) (o : repoObjsOptions) :
  GetRepoObjs_options P m app sources revisions proj sendRuntimeState = Returned o ->
  repoClientset m = Ok (repoClient o).
Proof.
  unfold GetRepoObjs_options. intros H.
  do 15 (apply orFail_returned in H as (? & _ & H)).
  apply orFail_returned in H as (client & Hclient & H).
  apply orFail_returned in H as (? & _ & H).
  by injection H as <-.
Qed.

Lemma GetRepoObjs_loop_unchanged (m : appStateManager) (app : Application)
    (nsources : nat) (appLabelKey : string)
    (noCache noRevisionCache verifySignature : bool) (proj : AppProject)
    (sendRuntimeState : bool) (o : repoObjsOptions)
    (sources : list ApplicationSource) :
  (forall req resp,
     UpdateRevisionForPaths (repoClient o) req = Ok resp -> ur_Changes resp = false) ->
  forall (i : nat) (st st' : repoObjsLoop) (revisions : list string),
    GetRepoObjs_loop P m app nsources appLabelKey noCache noRevisionCache
      verifySignature proj sendRuntimeState o i sources st = (revisions, Returned st') ->
    (forall j source,
       sources !! j = Some source ->
       checksPathChanges P app source (syncedRevisionOf P app (i + j)) = true) ->
    loop_revisionsMayHaveChanges st = false ->
    loop_revisionsMayHaveChanges st' = false.
Proof.
  intros Hquiet.
  induction sources as [|source rest IH]; intros i st st' revisions; simpl.
  - by intros [= _ <-].
  - destruct (GetRepoObjs_source P m app nsources appLabelKey noCache noRevisionCache
                verifySignature proj sendRuntimeState o i source st)
      as [revisions1 [st1|e|]] eqn:Hstep; try done.
    intros Hrest Hchecked Hflag.
    apply (IH _ _ _ _ Hrest).
    + intros j source' Hj.
      replace (S i + j)%nat with (i + S j)%nat by lia. by apply Hchecked.
    + specialize (Hchecked 0%nat source eq_refl). rewrite Nat.add_0_r in Hchecked.
      revert Hstep. unfold GetRepoObjs_source.
      destruct (_ && _); [done|].
      destruct (_ !! i) as [revision0|]; [|done].
      intros [= _ H].
      apply orFail_returned in H as (repo & _ & H).
      apply orFail_returned in H as ([flag revision] & Hcheck & H).
      apply orFail_returned in H as (manifestInfo & _ & H).
      apply orFail_returned in H as (targetObj & _ & H).
      injection H as <-. simpl.
      rewrite Hchecked in Hcheck.
      destruct (UpdateRevisionForPaths _ _) as [resp|] eqn:Hupdate; [|done].
      injection Hcheck as <- _.
      by rewrite (Hquiet _ _ Hupdate).
Qed.

(** X4. When the path-change check is made for every source and the repository
    server reports no change for any of them, [GetRepoObjs] returns the flag
    [revisionsMayHaveChanges] as [false]. *)
Theorem checked_sources_without_changes (m : appStateManager)
    (app : Application) (sources : list ApplicationSource) (appLabelKey : string)
    (revisions : list string) (noCache noRevisionCache verifySignature : bool)
    (proj : AppProject) (sendRuntimeState : bool)
    (targetObjs : list (option Unstructured)) (manifestInfos : list ManifestResponse)
    (revisionsMayHaveChanges : bool) :
  (GetRepoObjs P m app sources appLabelKey revisions noCache noRevisionCache
     verifySignature proj sendRuntimeState).2
  = Returned (targetObjs, manifestInfos, revisionsMayHaveChanges) ->
  (forall i source,
     sources !! i = Some source ->
     checksPathChanges P app source (syncedRevisionOf P app i) = true) ->
  (forall client req resp,
     repoClientset m = Ok client ->
     UpdateRevisionForPaths client req = Ok resp -> ur_Changes resp = false) ->
  revisionsMayHaveChanges = false.
Proof.
  unfold GetRepoObjs.
  destruct (GetRepoObjs_options P m app sources revisions proj sendRuntimeState)
    as [o|e|] eqn:Hoptions; [|done..].
  destruct (GetRepoObjs_loop P m app (length sources) appLabelKey noCache
              noRevisionCache verifySignature proj sendRuntimeState o 0 sources
              (mkRepoObjsLoop revisions [] [] false))
    as [revisions' [st|e|]] eqn:Hloop; [|done..].
  simpl. intros [= _ _ <-] Hchecked Hquiet.
  apply GetRepoObjs_options_client in Hoptions.
  eapply GetRepoObjs_loop_unchanged; [|exact Hloop|exact Hchecked|done].
  intros req resp. by apply Hquiet.
Qed.

(** ** Parsing and normalising the target objects *)

(** X5. [unmarshalManifests] gives all the documents or none: either every
    manifest parses and the objects are their parses in order, or the error is
    that of the first manifest that does not parse. *)
Theorem unmarshalManifests_all_or_first_error (manifests : list string) :
  match unmarshalManifests P manifests with
  | Ok objs =>
      Forall2 (fun manifest obj => UnmarshalToUnstructured P manifest = Ok obj)
        manifests objs
  | Err e =>
      exists before manifest after,
        manifests = before ++ manifest :: after
        /\ Forall (fun parsed => exists obj, UnmarshalToUnstructured P parsed = Ok obj)
             before
        /\ UnmarshalToUnstructured P manifest = Err e
  end.
Proof.
  induction manifests as [|manifest rest IH]; simpl; [constructor|].
  destruct (UnmarshalToUnstructured P manifest) as [obj|e] eqn:Hparse.
  - destruct (unmarshalManifests P rest) as [objs|e].
    + by constructor.
    + destruct IH as (before & failing & after & -> & Hbefore & Hfailing).
      exists (manifest :: before), failing, after. split; [done|]. split; [|done].
      apply Forall_cons_2; [by exists obj|done].
  - exists [], manifest, rest. split; [done|]. split; [apply Forall_nil_2|done].
Qed.

(** What [normalizeClusterScopeTracking] does to one object when it does
    not fail. *)
Lemma normalizeClusterScopeTracking_success
    (targetObjs : list (option Unstructured)) (infoProvider : ResourceInfoProvider)
    (setAppInstance : Unstructured -> Unstructured * option error)
    (normalised : list (option Unstructured)) :
  normalizeClusterScopeTracking P targetObjs infoProvider setAppInstance
  = (normalised, None) ->
  normalised
  = map (fun obj : option Unstructured =>
           match obj with
           | Some targetObj =>
               if misplacedNamespace P infoProvider targetObj
               then Some (setAppInstance (SetNamespace targetObj "")).1
               else Some targetObj
           | None => None
           end) targetObjs
  /\ Forall (fun obj : option Unstructured =>
               forall targetObj, obj = Some targetObj ->
                 misplacedNamespace P infoProvider targetObj = true ->
                 (setAppInstance (SetNamespace targetObj "")).2 = None)
       targetObjs.
Proof.
  revert normalised.
  induction targetObjs as [|first rest IH]; intros normalised; simpl.
  - intros [= <-]. split; [done|apply Forall_nil_2].
  - destruct (normalizeClusterScopeTracking P rest infoProvider setAppInstance)
      as [rest' [e|]]; [done|].
    destruct (IH rest' eq_refl) as [-> Hrest].
    destruct first as [targetObj|].
    + unfold misplacedNamespace.
      destruct (_ && _) eqn:Hmisplaced.
      * destruct (setAppInstance (SetNamespace targetObj "")) as [targetObj' [e|]]
          eqn:Hset; [done|].
        intros [= <-]. split; [done|].
        apply Forall_cons_2; [|done]. intros ? [= <-] _. by rewrite Hset.
      * intros [= <-]. split; [done|].
        apply Forall_cons_2; [|done]. intros ? [= <-]. 
        unfold misplacedNamespace. by rewrite Hmisplaced.
    + intros [= <-]. split; [done|]. apply Forall_cons_2; [done|done].
Qed.

(** X6. [normalizeClusterScopeTracking] without a failure: every object of a
    cluster-scoped kind that carries a namespace has lost it and has been
    tracked again; every other entry, [nil] included, is as it was. *)
Theorem normalizeClusterScopeTracking_corrects
    (targetObjs : list (option Unstructured)) (infoProvider : ResourceInfoProvider)
    (setAppInstance : Unstructured -> Unstructured * option error)
    (normalised : list (option Unstructured)) :
  normalizeClusterScopeTracking P targetObjs infoProvider setAppInstance
  = (normalised, None) ->
  length normalised = length targetObjs
  /\ forall i obj,
       targetObjs !! i = Some obj ->
       normalised !! i
       = Some match obj with
              | Some targetObj =>
                  if misplacedNamespace P infoProvider targetObj
                  then Some (setAppInstance (SetNamespace targetObj "")).1
                  else Some targetObj
              | None => None
              end.
Proof.
  intros Hrun. apply normalizeClusterScopeTracking_success in Hrun as [-> _].
  split; [apply length_map|].
  intros i obj Hobj. by rewrite list_lookup_fmap, Hobj.
Qed.

(** X7. When [normalizeClusterScopeTracking] fails, it fails on one object of
    a cluster-scoped kind with a namespace: the error wraps the error of the
    tracking of that object, the objects behind it have been corrected and the
    objects before it are as they were. *)
Theorem normalizeClusterScopeTracking_failure
    (targetObjs : list (option Unstructured)) (infoProvider : ResourceInfoProvider)
    (setAppInstance : Unstructured -> Unstructured * option error)
    (normalised : list (option Unstructured)) (err : error) :
  normalizeClusterScopeTracking P targetObjs infoProvider setAppInstance
  = (normalised, Some err) ->
  exists before targetObj behind behind' cause,
    targetObjs = before ++ Some targetObj :: behind
    /\ misplacedNamespace P infoProvider targetObj = true
    /\ (setAppInstance (SetNamespace targetObj "")).2 = Some cause
    /\ err = fmt_Errorf
               ("failed to set app instance label on cluster-scoped resource "
                +:+ GVK_String P (GroupVersionKind_of targetObj) +:+ "/"
                +:+ GetName targetObj) cause
    /\ normalizeClusterScopeTracking P behind infoProvider setAppInstance
       = (behind', None)
    /\ normalised
       = before ++ Some (setAppInstance (SetNamespace targetObj "")).1 :: behind'.
Proof.
  revert normalised.
  induction targetObjs as [|first rest IH]; intros normalised; simpl; [done|].
  destruct (normalizeClusterScopeTracking P rest infoProvider setAppInstance)
    as [rest' [e|]] eqn:Hrest.
  - intros [= <- <-].
    destruct (IH rest' eq_refl)
      as (before & targetObj & behind & behind' & cause & -> & Hm & Hset & He & Hb & ->).
    exists (first :: before), targetObj, behind, behind', cause. by repeat split.
  - destruct first as [targetObj|]; [|done].
    destruct (_ && _) eqn:Hmisplaced; [|done].
    destruct (setAppInstance (SetNamespace targetObj "")) as [targetObj' [e|]]
      eqn:Hset; [|done].
    intros [= <- <-].
    exists [], targetObj, rest, rest', e. rewrite Hset. by repeat split.
Qed.

(** X8. Running [normalizeClusterScopeTracking] on its own result changes
    nothing and calls no tracking, when the tracking leaves the kind and the
    namespace of an object alone. *)
Theorem normalizeClusterScopeTracking_idempotent
    (targetObjs : list (option Unstructured)) (infoProvider : ResourceInfoProvider)
    (setAppInstance setAppInstance' : Unstructured -> Unstructured * option error)
    (normalised : list (option Unstructured)) :
  (forall u, GroupVersionKind_of (setAppInstance u).1 = GroupVersionKind_of u
             /\ GetNamespace (setAppInstance u).1 = GetNamespace u) ->
  normalizeClusterScopeTracking P targetObjs infoProvider setAppInstance
  = (normalised, None) ->
  normalizeClusterScopeTracking P normalised infoProvider setAppInstance'
  = (normalised, None).
Proof.
  intros Hkeeps Hrun.
  apply normalizeClusterScopeTracking_success in Hrun as [-> _].
  induction targetObjs as [|first rest IH]; simpl; [done|].
  rewrite IH.
  destruct first as [targetObj|]; [|done].
  destruct (misplacedNamespace P infoProvider targetObj) eqn:Hmisplaced.
  - destruct (Hkeeps (SetNamespace targetObj "")) as [Hgvk Hns].
    change (GetNamespace (setAppInstance (SetNamespace targetObj "")).1)
      with (u_namespace (setAppInstance (SetNamespace targetObj "")).1) in Hns.
    unfold GetNamespace at 1. rewrite Hns. simpl.
    by rewrite andb_false_r.
  - unfold misplacedNamespace in Hmisplaced. by rewrite Hmisplaced.
Qed.

(** ** More on deduplication *)

Lemma appendTarget_fresh (key : ResourceKey) (obj : Unstructured)
    (targetByKey : list (ResourceKey * list Unstructured)) :
  key ∉ targetByKey.*1 ->
  appendTarget key obj targetByKey = targetByKey ++ [(key, [obj])].
Proof.
  induction targetByKey as [|[k targets] rest IH]; simpl; [done|].
  rewrite not_elem_of_cons. intros [Hk Hrest].
  rewrite bool_decide_eq_false_2 by done. by rewrite IH.
Qed.

Lemma groupTargets_distinct (namespace : string) (infoProvider : ResourceInfoProvider)
    (objs : list (option Unstructured)) :
  forall (i : nat) (targetByKey : list (ResourceKey * list Unstructured)),
    NoDup (targetByKey.*1 ++ targetKeys P namespace infoProvider i objs) ->
    groupTargets P namespace infoProvider i objs targetByKey
    = targetByKey
      ++ zip (targetKeys P namespace infoProvider i objs)
             ((fun obj => [obj]) <$> normalisedTargets P namespace infoProvider objs).
Proof.
  induction objs as [|[obj|] rest IH]; intros i targetByKey Hnodup; simpl.
  - by rewrite app_nil_r.
  - simpl in Hnodup.
    set (obj' := withTargetNamespace P namespace infoProvider obj) in *.
    set (key := targetKey P i obj') in *.
    rewrite appendTarget_fresh.
    + rewrite IH.
      * unfold normalisedTargets. simpl. fold obj'. by rewrite <- app_assoc.
      * rewrite fmap_app. simpl. by rewrite <- app_assoc.
    + apply NoDup_app in Hnodup as (_ & Hdisjoint & _).
      intros Hin. apply (Hdisjoint _ Hin). apply list_elem_of_here.
  - by apply IH.
Qed.

(** X9. When no two objects of the input share a key,
    [DeduplicateTargetObjects] returns all of them with their namespaces
    normalised, each once, and no condition. The [nil] entries of the input
    are dropped. The order of the returned objects is that of a Go map
    iteration and is left open. *)
Theorem deduplicate_distinct (now : Time) (namespace : string)
    (objs : list (option Unstructured)) (infoProvider : ResourceInfoProvider) :
  NoDup (targetKeys P namespace infoProvider 0 objs) ->
  (DeduplicateTargetObjects P now namespace objs infoProvider).1
    ≡ₚ normalisedTargets P namespace infoProvider objs
  /\ (DeduplicateTargetObjects P now namespace objs infoProvider).2 = [].
Proof.
  intros Hnodup. unfold DeduplicateTargetObjects.
  rewrite (groupTargets_distinct namespace infoProvider objs 0 []) by done.
  simpl.
  assert (Hlen : length (targetKeys P namespace infoProvider 0 objs)
                 = length (normalisedTargets P namespace infoProvider objs)).
  { clear Hnodup. generalize 0%nat.
    induction objs as [|[obj|] rest IH]; intros i; simpl; [done| |apply IH].
    unfold normalisedTargets. simpl. f_equal. apply IH. }
  revert Hlen. generalize (targetKeys P namespace infoProvider 0 objs).
  clear Hnodup.
  induction (normalisedTargets P namespace infoProvider objs) as [|obj rest IH];
    intros [|key keys] Hlen; try done.
  simpl in Hlen. injection Hlen as Hlen.
  destruct (IH keys Hlen) as [Hobjs Hconditions].
  unfold lastTargets, repeatedConditions in *. simpl. split.
  - by rewrite Hobjs.
  - exact Hconditions.
Qed.

(** Every group of the map holds objects of the input with their
    namespaces normalised. *)
Lemma groupTargets_from_input (namespace : string)
    (infoProvider : ResourceInfoProvider) (objs : list (option Unstructured))
    (from : Unstructured -> Prop) :
  (forall obj, Some obj ∈ objs ->
               from (withTargetNamespace P namespace infoProvider obj)) ->
  forall (i : nat) (targetByKey : list (ResourceKey * list Unstructured)),
    Forall (fun kv => Forall from kv.2) targetByKey ->
    Forall (fun kv => Forall from kv.2)
      (groupTargets P namespace infoProvider i objs targetByKey).
Proof.
  induction objs as [|[obj|] rest IH]; intros Hfrom i targetByKey Hgroups; simpl.
  - done.
  - apply IH.
    + intros obj' Hin. apply Hfrom. by apply list_elem_of_further.
    + assert (Hobj : from (withTargetNamespace P namespace infoProvider obj))
        by (apply Hfrom; apply list_elem_of_here).
      revert Hobj. generalize (withTargetNamespace P namespace infoProvider obj).
      generalize (targetKey P i (withTargetNamespace P namespace infoProvider obj)).
      intros key obj' Hobj.
      induction Hgroups as [|[k targets] groups Hhead Hgroups IHg]; simpl.
      * apply Forall_singleton. by apply Forall_singleton.
      * case_bool_decide.
        -- apply Forall_cons_2; [|done]. simpl. apply Forall_app. split; [done|].
           by apply Forall_singleton.
        -- apply Forall_cons_2; [done|done].
  - apply IH; [|done]. intros obj' Hin. apply Hfrom. by apply list_elem_of_further.
Qed.

(** X10. Every object [DeduplicateTargetObjects] returns is an object of its
    input with the namespace normalised: without namespace when its kind is
    cluster-scoped, in the given namespace when its kind is namespaced and the
    object had none. It returns no more objects than the input has. *)
Theorem deduplicate_returns_normalised_inputs (now : Time) (namespace : string)
    (objs : list (option Unstructured)) (infoProvider : ResourceInfoProvider) :
  Forall (fun kept =>
            exists obj,
              Some obj ∈ objs
              /\ kept = withTargetNamespace P namespace infoProvider obj
              /\ GroupVersionKind_of kept = GroupVersionKind_of obj
              /\ GetName kept = GetName obj
              /\ GetNamespace kept
                 = (if negb (IsNamespacedOrUnknown P infoProvider
                               (GVK_GroupKind (GroupVersionKind_of obj)))
                    then ""
                    else if GetNamespace obj =?s "" then namespace
                         else GetNamespace obj))
    (DeduplicateTargetObjects P now namespace objs infoProvider).1
  /\ (length (DeduplicateTargetObjects P now namespace objs infoProvider).1
      <= length objs)%nat.
Proof.
  split.
  - unfold DeduplicateTargetObjects. simpl.
    pose proof (groupTargets_from_input namespace infoProvider objs
                  (fun kept => exists obj,
                     Some obj ∈ objs
                     /\ kept = withTargetNamespace P namespace infoProvider obj)
                  (fun obj Hin => ex_intro _ obj (conj Hin eq_refl))
                  0%nat [] (Forall_nil_2 _)) as Hgroups.
    induction Hgroups as [|[k targets] groups Hhead Hgroups IH];
      unfold lastTargets; simpl; [done|].
    destruct (last targets) as [kept|] eqn:Hlast; simpl; [|apply IH].
    apply Forall_cons_2; [|apply IH].
    apply last_Some_elem_of in Hlast.
    rewrite Forall_forall in Hhead.
    destruct (Hhead kept Hlast) as (obj & Hin & ->).
    exists obj. split; [done|]. split; [done|].
    unfold withTargetNamespace.
    destruct (negb _); [done|]. by destruct (GetNamespace obj =?s "").
  - destruct (groupTargets_groups namespace infoProvider objs 0 []
                (NoDup_nil_2) (Forall_nil_2 _)) as (Hnodup & Hnonempty & Hgroups).
    unfold DeduplicateTargetObjects. simpl.
    rewrite lastTargets_length by done.
    assert (Hcount : forall i targetByKey,
              (length (groupTargets P namespace infoProvider i objs targetByKey)
               <= length targetByKey + length objs)%nat).
    { clear. induction objs as [|[obj|] rest IH]; intros i targetByKey; simpl.
      - lia.
      - etransitivity; [apply IH|].
        rewrite <- (length_fmap fst (appendTarget _ _ _)), appendTarget_keys.
        case_bool_decide; rewrite ?length_app, ?length_fmap; simpl; lia.
      - etransitivity; [apply IH|]. lia. }
    apply (Hcount 0%nat []).
Qed.

(** ** Signatures and settings, once more *)

(** X11. [verifyGnuPGSignature] returns no condition exactly when the revision
    carries a verification result, the result is good and a signature key of
    the project has the key id of the signature, which is not empty. In every
    other case it returns one condition, a comparison error of the time of the
    call. *)
Theorem verifyGnuPGSignature_accepts (now : Time) (revision : string)
    (project : AppProject) (manifestInfo : ManifestResponse) :
  let verifyResult := ParseGitCommitVerification P (mr_VerifyResult manifestInfo) in
  let accepted :=
    mr_VerifyResult manifestInfo <> ""
    /\ pgp_Result verifyResult = VerifyResultGood P
    /\ exists k,
         k ∈ proj_SignatureKeys project
         /\ gpg_KeyID P (sk_KeyID k) = gpg_KeyID P (pgp_KeyID verifyResult)
         /\ gpg_KeyID P (sk_KeyID k) <> "" in
  (verifyGnuPGSignature P now revision project manifestInfo = [] <-> accepted)
  /\ (~ accepted ->
      exists msg,
        verifyGnuPGSignature P now revision project manifestInfo
        = [comparisonError now msg]).
Proof.
  intros verifyResult accepted.
  assert (Hkeys :
    existsb (fun k =>
               (gpg_KeyID P (sk_KeyID k) =?s gpg_KeyID P (pgp_KeyID verifyResult))
               && negb (gpg_KeyID P (sk_KeyID k) =?s ""))
            (proj_SignatureKeys project) = true
    <-> exists k,
          k ∈ proj_SignatureKeys project
          /\ gpg_KeyID P (sk_KeyID k) = gpg_KeyID P (pgp_KeyID verifyResult)
          /\ gpg_KeyID P (sk_KeyID k) <> "").
  { rewrite existsb_exists. split; intros (k & Hin & Hk); exists k.
    - apply list_elem_of_In in Hin.
      apply andb_true_iff in Hk as [Hsame Hnonempty].
      apply eqb_string_true in Hsame. apply negb_true_iff in Hnonempty.
      apply eqb_string_false in Hnonempty. done.
    - destruct Hk as [Hsame Hnonempty]. split; [by apply list_elem_of_In|].
      apply andb_true_iff. split; [by apply eqb_string_true|].
      apply negb_true_iff. by apply eqb_string_false. }
  subst accepted. unfold verifyGnuPGSignature. fold verifyResult.
  destruct (mr_VerifyResult manifestInfo =?s "") eqn:Hpayload; simpl.
  { apply eqb_string_true in Hpayload.
    split; [split; [done|by intros [? _]]|]. intros _. by eexists. }
  apply eqb_string_false in Hpayload.
  destruct (pgp_Result verifyResult =?s VerifyResultGood P) eqn:Hgood.
  - apply eqb_string_true in Hgood.
    destruct (existsb _ _) eqn:Hvalid; simpl.
    + assert (Hk := proj1 Hkeys eq_refl).
      split; [split; [done|done]|]. intros Hno. by destruct Hno.
    + split.
      * split; [done|]. intros (_ & _ & Hk). apply Hkeys in Hk. done.
      * intros _. by eexists.
  - apply eqb_string_false in Hgood.
    destruct (pgp_Result verifyResult =?s VerifyResultInvalid P).
    + split; [split; [done|by intros (_ & ? & _)]|]. intros _. by eexists.
    + split; [split; [done|by intros (_ & ? & _)]|]. intros _. by eexists.
Qed.

(** X12. [getComparisonSettings] asks for the resource overrides, the label
    key, the resources filter, the installation id and the tracking method, in
    this order, and returns the error of the first request that fails. *)
Theorem getComparisonSettings_first_error (m : appStateManager) (e : error) :
  getComparisonSettings m = Err e
  <-> GetResourceOverrides (settingsMgr m) = Err e
      \/ ((exists overrides, GetResourceOverrides (settingsMgr m) = Ok overrides)
          /\ (GetAppInstanceLabelKey (settingsMgr m) = Err e
              \/ ((exists key, GetAppInstanceLabelKey (settingsMgr m) = Ok key)
                  /\ (GetResourcesFilter (settingsMgr m) = Err e
                      \/ ((exists resFilter,
                             GetResourcesFilter (settingsMgr m) = Ok resFilter)
                          /\ (GetInstallationID (settingsMgr m) = Err e
                              \/ ((exists id, GetInstallationID (settingsMgr m) = Ok id)
                                  /\ GetTrackingMethod (settingsMgr m) = Err e))))))).
Proof.
  unfold getComparisonSettings.
  destruct (GetResourceOverrides (settingsMgr m)) as [overrides|e1].
  2: { split; [intros [= ->]; by left|]. intros [H|[[? ?] _]]; congruence. }
  destruct (GetAppInstanceLabelKey (settingsMgr m)) as [key|e2].
  2: { split; [intros [= ->]; right; split; [by eexists|by left]|].
       intros [H|[_ [H|[[? ?] _]]]]; congruence. }
  destruct (GetResourcesFilter (settingsMgr m)) as [resFilter|e3].
  2: { split; [intros [= ->]; right; split; [by eexists|]; right;
               split; [by eexists|]; by left|].
       intros [H|[_ [H|[_ [H|[[? ?] _]]]]]]; congruence. }
  destruct (GetInstallationID (settingsMgr m)) as [id|e4].
  2: { split; [intros [= ->]; right; split; [by eexists|]; right;
               split; [by eexists|]; right; split; [by eexists|]; by left|].
       intros [H|[_ [H|[_ [H|[_ [H|[[? ?] _]]]]]]]]; congruence. }
  destruct (GetTrackingMethod (settingsMgr m)) as [method|e5].
  - split; [done|]. intros [H|[_ [H|[_ [H|[_ [H|[_ H]]]]]]]]; congruence.
  - split; [|intros [H|[_ [H|[_ [H|[_ [H|[_ H]]]]]]]]; congruence].
    intros [= ->]. right; split; [by eexists|]; right; split; [by eexists|];
      right; split; [by eexists|]; right; split; [by eexists|]. done.
Qed.

(** ** The loops over the target and the live objects *)

(** X13. The exclusion loop keeps the objects the resources filter does not
    exclude, in their order, and reports one warning per excluded object, the
    last excluded object first. Whether a managed namespace is among the
    targets is decided over all objects, the excluded ones too. *)
Theorem excludeTargets_filters (resFilter : ResourcesFilter) (destCluster : Cluster)
    (now : Time) (app : Application) (targetObjs : list Unstructured) :
  excludeTargets resFilter destCluster now app targetObjs
  = (List.filter (fun targetObj => negb (excludedTarget resFilter destCluster targetObj))
       targetObjs,
     reverse
       (map (fun targetObj =>
               {| cond_Type := ApplicationConditionExcludedResourceWarning;
                  cond_Message :=
                    "Resource " +:+ gvk_Group (GroupVersionKind_of targetObj) +:+ "/"
                    +:+ gvk_Kind (GroupVersionKind_of targetObj) +:+ " "
                    +:+ GetName targetObj +:+ " is excluded in the settings";
                  cond_LastTransitionTime := Some now |})
            (List.filter (excludedTarget resFilter destCluster) targetObjs)),
     existsb (fun targetObj => isManagedNamespace (Some targetObj) app) targetObjs).
Proof.
  induction targetObjs as [|targetObj rest IH]; [done|].
  cbn [excludeTargets]. rewrite IH. cbn [List.filter existsb].
  destruct (excludedTarget resFilter destCluster targetObj) eqn:Hexcluded;
    unfold excludedTarget in Hexcluded; rewrite Hexcluded; cbn [negb map].
  - rewrite reverse_cons. by rewrite orb_comm.
  - by rewrite orb_comm.
Qed.

(** X14. The permission loop removes from the live objects exactly those the
    project refuses. An object whose check fails stays, gives one comparison
    error and sets [failedToLoadObjs]; without a failing check the loop gives
    no condition and leaves the flag alone. *)
Theorem permittedLiveObjs_drops_refused (m : appStateManager) (now : Time)
    (app : Application) (project : AppProject) (destCluster : Cluster)
    (liveObjByKey : list (ResourceKey * option Unstructured)) :
  let check (kv : ResourceKey * option Unstructured) :=
    IsLiveResourcePermitted P project kv.2 destCluster (db m) in
  let failing kv := match check kv with Err _ => true | Ok _ => false end in
  let refused kv := match check kv with Ok false => true | _ => false end in
  exists conditions,
    permittedLiveObjs P m now app project destCluster liveObjByKey
    = (List.filter (fun kv => negb (refused kv)) liveObjByKey, conditions,
       existsb failing liveObjByKey)
    /\ length conditions = length (List.filter failing liveObjByKey)
    /\ Forall (fun c => cond_Type c = ApplicationConditionComparisonError) conditions.
Proof.
  intros check failing refused. subst check failing refused.
  induction liveObjByKey as [|[k v] rest (conditions & IH & Hlen & Htypes)].
  - by exists [].
  - cbn [permittedLiveObjs]. rewrite IH. cbn [List.filter existsb snd].
    destruct (IsLiveResourcePermitted P project v destCluster (db m))
      as [[|]|err]; cbn [negb orb].
    + by exists conditions.
    + by exists conditions.
    + eexists. split; [reflexivity|]. split; [simpl; by rewrite Hlen|].
      by apply Forall_cons_2.
Qed.

(** X15. When the targets already hold the managed namespace, or the
    application has no managed-namespace metadata, the loop over the live
    objects builds no target and sets no failure: all it can give are warnings
    about shared resources. *)
Theorem trackLiveObjs_without_managed_namespace (m : appStateManager) (now : Time)
    (app : Application) (settings : comparisonSettings) (targetNsExists : bool)
    (liveObjByKey : list (ResourceKey * option Unstructured)) :
  targetNsExists = true
  \/ (forall syncPolicy,
        spec_SyncPolicy (app_Spec app) = Some syncPolicy ->
        sp_ManagedNamespaceMetadata syncPolicy = None) ->
  exists conditions,
    trackLiveObjs P m now app settings targetNsExists liveObjByKey
    = ([], conditions, false)
    /\ Forall (fun c => cond_Type c = ApplicationConditionSharedResourceWarning)
         conditions
    /\ (length conditions <= length liveObjByKey)%nat.
Proof.
  intros Hcause.
  assert (Hguard : forall liveObj,
            isManagedNamespace (Some liveObj) app && negb targetNsExists = false).
  { intros liveObj. destruct Hcause as [->|Hnone]; [apply andb_false_r|].
    unfold isManagedNamespace.
    destruct (spec_SyncPolicy (app_Spec app)) as [syncPolicy|];
      [|by rewrite !andb_false_r].
    rewrite (Hnone syncPolicy eq_refl). by rewrite !andb_false_r. }
  induction liveObjByKey as [|[k [liveObj|]] rest (conditions & IH & Htypes & Hlen)].
  - by exists [].
  - cbn [trackLiveObjs]. rewrite IH, Hguard.
    eexists. split; [reflexivity|]. split.
    + apply Forall_app. split; [|done]. destruct (_ && _); [|done].
      by apply Forall_singleton.
    + rewrite length_app. destruct (_ && _); simpl; lia.
  - cbn [trackLiveObjs]. exists conditions. split; [done|]. split; [done|].
    simpl. lia.
Qed.

(** ** The entries of the classification loop *)

Ltac status_discriminate :=
  unfold SyncStatusCodeUnknown, SyncStatusCodeOutOfSync, SyncStatusCodeSynced in *;
  intros; discriminate.

Lemma classifyResource_step (m : appStateManager) (now : Time)
    (app : Application) (project : AppProject) (destCluster : Cluster)
    (settings : comparisonSettings) (diffResults : DiffResultList)
    (failedToLoadObjs : bool) (liveObjs : list (option Unstructured))
    (i : nat) (targetObj : option Unstructured) (st st' : classification) :
  classifyResource P m now app project destCluster settings diffResults
    failedToLoadObjs liveObjs i targetObj st = Returned st' ->
  exists liveObj rs mr more,
    liveObjs !! i = Some liveObj
    /\ cl_resourceSummaries st' = cl_resourceSummaries st ++ [rs]
    /\ cl_managedResources st' = cl_managedResources st ++ [mr]
    /\ cl_conditions st' = cl_conditions st ++ more
    /\ mirrorsPair targetObj liveObj rs mr
    /\ (cl_syncCode st' = SyncStatusCodeSynced ->
        cl_syncCode st = SyncStatusCodeSynced
        /\ (rs_Status rs = SyncStatusCodeOutOfSync ->
            targetObj = None
            /\ rs_RequiresPruning rs = true
            /\ exists live,
                 liveObj = Some live
                 /\ HasAnnotationOption P live AnnotationCompareOptions
                      "IgnoreExtraneous" = true)).
Proof.
  unfold classifyResource.
  destruct (liveObjs !! i) as [liveObj|]; [|done].
  destruct (pairObject targetObj liveObj) as [obj|] eqn:Hobj.
  - destruct (classifySync _ _ _ _ _ _ _ _ _) as [status syncCode] eqn:Hsync.
    destruct (IsNamespaced _ _ _) as [isNamespaced err].
    cbv zeta.
    match goal with
    | |- Returned (mkClassification _ ?c _ _) = _ -> _ =>
        assert (Hmore : exists more, c = cl_conditions st ++ more)
          by (destruct (_ && _); [by eexists|exists []; by rewrite app_nil_r])
    end.
    destruct Hmore as [more Hmore].
    intros [= <-]. eexists liveObj, _, _, more.
    split; [done|]. split; [reflexivity|]. split; [reflexivity|].
    split; [exact Hmore|]. clear Hmore.
    split.
    { unfold mirrorsPair. rewrite Hobj. cbn.
      repeat split; try done.
      - apply andb_true_iff in H as [H _]. apply andb_true_iff in H as [H _].
        by apply bool_decide_eq_true in H.
      - apply andb_true_iff in H as [H _]. apply andb_true_iff in H as [_ H].
        apply negb_true_iff in H. by apply bool_decide_eq_false in H. }
    cbn [cl_syncCode rs_Status rs_RequiresPruning]. intros ->.
    revert Hsync. unfold classifySync.
    destruct (isHook P obj || ignore_Ignore P obj
              || match targetObj with
                 | Some targetObj0 => hookutil_Skip P targetObj0
                 | None => false
                 end
              || negb (appStateManager_isSelfReferencedObj P m liveObj targetObj
                         (app_Name app) (cs_trackingMethod settings)
                         (cs_installationID settings))) eqn:Hskipped.
    { intros [= <- ->]. split; [done|].
      destruct failedToLoadObjs; [status_discriminate|].
      destruct (negb (IsGroupKindPermitted _ _ _ _)); status_discriminate. }
    apply orb_false_iff in Hskipped as [_ Hself].
    apply negb_false_iff in Hself. rewrite Hself.
    destruct (negb _ && _) eqn:Hout.
    + intros [= <- Hcode].
      destruct (bool_decide (targetObj = None)) eqn:Htarget;
        destruct (bool_decide (liveObj = None)) eqn:Hlive;
        cbn in Hcode; try done.
      destruct (HasAnnotationOption P obj AnnotationCompareOptions "IgnoreExtraneous")
        eqn:Hignore; cbn in Hcode; [|done].
      split; [done|]. intros _.
      apply bool_decide_eq_true in Htarget. apply bool_decide_eq_false in Hlive.
      split; [done|]. split; [done|].
      destruct liveObj as [live|]; [|done]. exists live. split; [done|].
      simpl in Hobj. by injection Hobj as <-.
    + intros [= <- ->]. split; [done|].
      destruct failedToLoadObjs; [status_discriminate|].
      destruct (negb (IsGroupKindPermitted _ _ _ _)); status_discriminate.
  - intros [= <-]. eexists liveObj, _, _, [].
    split; [done|]. split; [reflexivity|]. split; [reflexivity|].
    split; [by rewrite app_nil_r|]. split.
    + unfold mirrorsPair. rewrite Hobj.
      by destruct liveObj, targetObj.
    + simpl. intros Hcode. split; [done|]. status_discriminate.
Qed.

(** The loop fills one entry per target, at the index of the target. *)
Lemma classifyResources_entries (m : appStateManager) (now : Time)
    (app : Application) (project : AppProject) (destCluster : Cluster)
    (settings : comparisonSettings) (diffResults : DiffResultList)
    (failedToLoadObjs : bool) (liveObjs : list (option Unstructured))
    (targetObjs : list (option Unstructured)) :
  forall (i : nat) (st st' : classification),
    classifyResources P m now app project destCluster settings diffResults
      failedToLoadObjs liveObjs i targetObjs st = Returned st' ->
    exists entries more,
      cl_resourceSummaries st' = cl_resourceSummaries st ++ entries.*1
      /\ cl_managedResources st' = cl_managedResources st ++ entries.*2
      /\ cl_conditions st' = cl_conditions st ++ more
      /\ length entries = length targetObjs
      /\ (forall j targetObj,
            targetObjs !! j = Some targetObj ->
            exists liveObj rs mr,
              liveObjs !! (i + j)%nat = Some liveObj
              /\ entries !! j = Some (rs, mr)
              /\ mirrorsPair targetObj liveObj rs mr)
      /\ (cl_syncCode st' = SyncStatusCodeSynced ->
          cl_syncCode st = SyncStatusCodeSynced
          /\ forall j rs mr,
               entries !! j = Some (rs, mr) ->
               rs_Status rs = SyncStatusCodeOutOfSync ->
               targetObjs !! j = Some None
               /\ rs_RequiresPruning rs = true
               /\ exists live,
                    liveObjs !! (i + j)%nat = Some (Some live)
                    /\ HasAnnotationOption P live AnnotationCompareOptions
                         "IgnoreExtraneous" = true).
Proof.
  induction targetObjs as [|targetObj rest IH]; intros i st st' Hrun; simpl in Hrun.
  - injection Hrun as <-. exists [], []. rewrite !app_nil_r.
    repeat split; try done.
  - destruct (classifyResource P m now app project destCluster settings diffResults
                failedToLoadObjs liveObjs i targetObj st) as [st1| |] eqn:Hstep;
      try done.
    apply classifyResource_step in Hstep
      as (liveObj & rs & mr & more1 & Hlive & Hrs & Hmr & Hconds & Hmirror & Hsynced).
    apply IH in Hrun
      as (entries & more & Hentries & Hmanaged & Hconds' & Hlen & Hpairs & Hsynced').
    exists ((rs, mr) :: entries), (more1 ++ more).
    split; [rewrite Hentries, Hrs, <- app_assoc; done|].
    split; [rewrite Hmanaged, Hmr, <- app_assoc; done|].
    split; [rewrite Hconds', Hconds, <- app_assoc; done|].
    split; [simpl; by rewrite Hlen|].
    split.
    + intros [|j] target Htarget; simpl in Htarget.
      * injection Htarget as <-. rewrite Nat.add_0_r. by eexists _, _, _.
      * replace (i + S j)%nat with (S i + j)%nat by lia. by apply Hpairs.
    + intros Hcode. destruct (Hsynced' Hcode) as [Hcode1 Hrest].
      destruct (Hsynced Hcode1) as [Hcode0 Hhead].
      split; [done|].
      intros [|j] rs' mr' Hentry Hstatus; simpl in Hentry.
      * injection Hentry as <- <-. rewrite Nat.add_0_r.
        destruct (Hhead Hstatus) as (-> & Hprune & live & -> & Hignore).
        split; [done|]. split; [done|]. by exists live.
      * replace (i + S j)%nat with (S i + j)%nat by lia.
        by apply (Hrest j rs' mr').
Qed.

(** ** The comparison pass as a whole *)

(** The conditions recorded while the target state was acquired are the
    first ones the pass hands to the application. *)
Lemma compareLoadedState_conditions (m : appStateManager) (now : Time)
    (app : Application) (project : AppProject)
    (sources : list ApplicationSource) (noCache : bool)
    (hasMultipleSources : bool) (syncStatus0 : SyncStatus)
    (settings : comparisonSettings) (verifySignature : bool)
    (destCluster : Cluster) (tgt : targetState)
    (checkpoints : list string) (conditions : list ApplicationCondition)
    (failed : bool) (out : outcome comparisonResult) :
  compareLoadedState P m now app project sources noCache hasMultipleSources
    syncStatus0 settings verifySignature destCluster tgt
  = (checkpoints, Some conditions, failed, out) ->
  exists rest, conditions = tgt_conditions tgt ++ rest.
Proof.
  unfold compareLoadedState.
  destruct_lets.
  match goal with
  | |- context [classifyResources P m now app project destCluster settings ?d ?f
                  ?l 0 ?t ?st] =>
      destruct (classifyResources P m now app project destCluster settings d f l 0 t st)
        as [cl|e|] eqn:Hloop; [|done..]
  end.
  apply classifyResources_entries in Hloop as (_ & more & _ & _ & Hconds & _).
  cbn [cl_conditions] in Hconds.
  destruct (setApplicationHealth _ _ _ _ _ _) as [healthStatus err'].
  intros [= _ <- _ _]. rewrite Hconds. clear Hconds.
  repeat match goal with
         | H : context [match ?x with Ok _ => _ | Err _ => _ end] |- _ =>
             destruct x
         | H : context [if ?x then _ else _] |- _ => destruct x
         | H : context [let '(_, _) := ?x in _] |- _ => destruct x
         | H : context [match ?x with Some _ => _ | None => _ end] |- _ =>
             destruct x
         end;
    simplify_eq;
    repeat match goal with
           | |- context [match ?x with Some _ => _ | None => _ end] => destruct x
           end;
    rewrite <- ?app_assoc; by eexists.
Qed.

(** A pass that returns a result either stopped at the settings, or went
    through the classification loop, which then gave the entries of the
    result and the verdict. *)
Lemma CompareAppState_returned (m : appStateManager)
    (repoErrorCache : gmap string Time) (now : Time)
    (app : Application) (project : AppProject) (revisions : list string)
    (sources : list ApplicationSource) (noCache noRevisionCache : bool)
    (localManifests : list string) (hasMultipleSources : bool)
    (eff : passEffects) (res : comparisonResult) :
  CompareAppState P m repoErrorCache now app project revisions sources noCache
    noRevisionCache localManifests hasMultipleSources = (eff, Returned res) ->
  ((exists e, getComparisonSettings m = Err e)
   /\ eff = mkPassEffects repoErrorCache ["settings_ms"] None false
   /\ res = zeroComparisonResult
              (initialSyncStatus app revisions sources hasMultipleSources)
              HealthStatusUnknown)
  \/ exists settings destCluster diffResults conditions0 cl conditions,
       getComparisonSettings m = Ok settings
       /\ GetDestinationCluster P (spec_Destination (app_Spec app)) (db m)
          = Ok destCluster
       /\ classifyResources P m now app project destCluster settings diffResults
            (eff_failedToLoadObjs eff) (rec_Live (reconciliationResult res)) 0
            (rec_Target (reconciliationResult res))
            (mkClassification SyncStatusCodeSynced conditions0 [] [])
          = Returned cl
       /\ eff_conditions eff = Some conditions
       /\ resources res = cl_resourceSummaries cl
       /\ managedResources res = cl_managedResources cl
       /\ sync_Status (syncStatus res)
          = (if eff_failedToLoadObjs eff then SyncStatusCodeUnknown
             else if HasChangedManagedNamespaceMetadata P app
                  then SyncStatusCodeOutOfSync else cl_syncCode cl).
Proof.
  unfold CompareAppState.
  destruct (getComparisonSettings m) as [settings|e].
  2: { intros [= <- <-]. left. split; [by eexists|done]. }
  destruct (GetDestinationCluster P (spec_Destination (app_Spec app)) (db m))
    as [destCluster|]; [|done].
  match goal with
  | |- context [let '(_, _) := ?acq in _] => destruct acq as [cache' [tgt| |]]
  end; try done.
  set (syncStatus0 := initialSyncStatus app revisions sources hasMultipleSources).
  set (verifySignature :=
         bool_decide (0 < length (proj_SignatureKeys project))%nat && IsGPGEnabled P).
  destruct (compareLoadedState_inv m now app project sources noCache
              hasMultipleSources syncStatus0 settings verifySignature destCluster tgt)
    as (reconciliation & diffResults & conditions0 & failed & _ & _ & Hend).
  destruct (classifyResources P m now app project destCluster settings diffResults
              failed (rec_Live reconciliation) 0 (rec_Target reconciliation)
              (mkClassification SyncStatusCodeSynced conditions0 [] []))
    as [cl| |] eqn:Hloop.
  - destruct Hend as (res' & pre & -> & Hrec & Hres & Hmanaged & Hsync & _).
    intros [= <- <-]. right. cbn [eff_failedToLoadObjs eff_conditions].
    rewrite Hrec. by eexists settings, destCluster, diffResults, conditions0, cl, _.
  - rewrite Hend. by intros [= <- _].
  - rewrite Hend. by intros [= <- _].
Qed.

(** X16. The entries of a result mirror the pairs of its reconciliation: there
    is one resource status and one managed resource per target, at the index
    of the target; the managed resource holds the target and the live object
    of the pair, and both entries carry group, version, kind, namespace and
    name of the object of the pair, the live object when there is one. An
    entry requires pruning only when the pair has a live object and no target.
    *)
Theorem result_mirrors_pairs (m : appStateManager)
    (repoErrorCache : gmap string Time) (now : Time)
    (app : Application) (project : AppProject) (revisions : list string)
    (sources : list ApplicationSource) (noCache noRevisionCache : bool)
    (localManifests : list string) (hasMultipleSources : bool)
    (eff : passEffects) (res : comparisonResult) :
  CompareAppState P m repoErrorCache now app project revisions sources noCache
    noRevisionCache localManifests hasMultipleSources = (eff, Returned res) ->
  length (resources res) = length (rec_Target (reconciliationResult res))
  /\ length (managedResources res) = length (rec_Target (reconciliationResult res))
  /\ forall i targetObj,
       rec_Target (reconciliationResult res) !! i = Some targetObj ->
       exists liveObj rs mr,
         rec_Live (reconciliationResult res) !! i = Some liveObj
         /\ resources res !! i = Some rs
         /\ managedResources res !! i = Some mr
         /\ mirrorsPair targetObj liveObj rs mr.
Proof.
  intros Hpass.
  apply CompareAppState_returned in Hpass
    as [(_ & _ & ->)
       |(settings & destCluster & diffResults & conditions0 & cl & conditions
         & _ & _ & Hloop & _ & -> & -> & _)].
  { split; [done|]. split; [done|]. by intros i targetObj. }
  apply classifyResources_entries in Hloop
    as (entries & more & -> & -> & _ & Hlen & Hpairs & _).
  cbn [cl_resourceSummaries cl_managedResources]. rewrite !app_nil_l.
  split; [by rewrite length_fmap|]. split; [by rewrite length_fmap|].
  intros i targetObj Htarget.
  destruct (Hpairs i targetObj Htarget) as (liveObj & rs & mr & Hlive & Hentry & Hmirror).
  exists liveObj, rs, mr. split; [done|].
  rewrite !list_lookup_fmap, Hentry. done.
Qed.

(** X17. When the verdict of a result is Synced, the only entries it can hold
    with status OutOfSync are those of live objects without target that carry
    the option IgnoreExtraneous; they require pruning. *)
Theorem synced_verdict_entries (m : appStateManager)
    (repoErrorCache : gmap string Time) (now : Time)
    (app : Application) (project : AppProject) (revisions : list string)
    (sources : list ApplicationSource) (noCache noRevisionCache : bool)
    (localManifests : list string) (hasMultipleSources : bool)
    (eff : passEffects) (res : comparisonResult) :
  CompareAppState P m repoErrorCache now app project revisions sources noCache
    noRevisionCache localManifests hasMultipleSources = (eff, Returned res) ->
  sync_Status (syncStatus res) = SyncStatusCodeSynced ->
  HasChangedManagedNamespaceMetadata P app = false
  /\ forall i rs,
       resources res !! i = Some rs ->
       rs_Status rs = SyncStatusCodeOutOfSync ->
       rec_Target (reconciliationResult res) !! i = Some None
       /\ rs_RequiresPruning rs = true
       /\ exists live,
            rec_Live (reconciliationResult res) !! i = Some (Some live)
            /\ HasAnnotationOption P live AnnotationCompareOptions "IgnoreExtraneous"
               = true.
Proof.
  intros Hpass.
  apply CompareAppState_returned in Hpass
    as [(_ & _ & ->)
       |(settings & destCluster & diffResults & conditions0 & cl & conditions
         & _ & _ & Hloop & _ & -> & _ & ->)].
  { simpl. status_discriminate. }
  destruct (eff_failedToLoadObjs eff); [status_discriminate|].
  destruct (HasChangedManagedNamespaceMetadata P app); [status_discriminate|].
  intros Hcode. split; [done|].
  apply classifyResources_entries in Hloop
    as (entries & more & -> & _ & _ & _ & _ & Hsynced).
  destruct (Hsynced Hcode) as [_ Hentries].
  intros i rs Hrs Hstatus. cbn [cl_resourceSummaries] in Hrs.
  rewrite app_nil_l in Hrs.
  rewrite list_lookup_fmap in Hrs.
  destruct (entries !! i) as [[rs' mr]|] eqn:Hentry; [|done].
  injection Hrs as ->.
  exact (Hentries i rs mr Hentry Hstatus).
Qed.

(** X18. The verdict of a pass that got its settings is Unknown exactly when
    [failedToLoadObjs] was set; otherwise it is Synced or OutOfSync. *)
Theorem verdict_unknown_iff_failed (m : appStateManager)
    (repoErrorCache : gmap string Time) (now : Time)
    (app : Application) (project : AppProject) (revisions : list string)
    (sources : list ApplicationSource) (noCache noRevisionCache : bool)
    (localManifests : list string) (hasMultipleSources : bool)
    (settings : comparisonSettings) (eff : passEffects) (res : comparisonResult) :
  getComparisonSettings m = Ok settings ->
  CompareAppState P m repoErrorCache now app project revisions sources noCache
    noRevisionCache localManifests hasMultipleSources = (eff, Returned res) ->
  (sync_Status (syncStatus res) = SyncStatusCodeUnknown
   <-> eff_failedToLoadObjs eff = true)
  /\ (eff_failedToLoadObjs eff = false ->
      sync_Status (syncStatus res) = SyncStatusCodeSynced
      \/ sync_Status (syncStatus res) = SyncStatusCodeOutOfSync).
Proof.
  intros Hsettings Hpass.
  apply CompareAppState_returned in Hpass
    as [([e He] & _)
       |(settings' & destCluster & diffResults & conditions0 & cl & conditions
         & _ & _ & Hloop & _ & _ & _ & ->)]; [congruence|].
  apply classifyResources_syncCode in Hloop; [|by left].
  cbn [cl_syncCode] in Hloop.
  destruct (eff_failedToLoadObjs eff); [done|].
  assert (Hverdict :
    (if HasChangedManagedNamespaceMetadata P app then SyncStatusCodeOutOfSync
     else cl_syncCode cl) = SyncStatusCodeSynced
    \/ (if HasChangedManagedNamespaceMetadata P app then SyncStatusCodeOutOfSync
        else cl_syncCode cl) = SyncStatusCodeOutOfSync)
    by (destruct (HasChangedManagedNamespaceMetadata P app); [by right|done]).
  split; [|done].
  split; [|done]. intros Hunknown.
  destruct Hverdict as [H|H]; rewrite H in Hunknown; revert Hunknown;
    status_discriminate.
Qed.

(** ** How a pass can end *)


(** After the target state is acquired the pass returns no error. *)
Lemma compareLoadedState_not_failed (m : appStateManager) (now : Time)
    (app : Application) (project : AppProject)
    (sources : list ApplicationSource) (noCache : bool)
    (hasMultipleSources : bool) (syncStatus0 : SyncStatus)
    (settings : comparisonSettings) (verifySignature : bool)
    (destCluster : Cluster) (tgt : targetState) (e : error) :
  (compareLoadedState P m now app project sources noCache hasMultipleSources
     syncStatus0 settings verifySignature destCluster tgt).2 <> Failed e.
Proof.
  destruct (compareLoadedState_inv m now app project sources noCache
              hasMultipleSources syncStatus0 settings verifySignature destCluster tgt)
    as (reconciliation & diffResults & conditions0 & failed & _ & _ & Hend).
  destruct (classifyResources P m now app project destCluster settings diffResults
              failed (rec_Live reconciliation) 0 (rec_Target reconciliation)
              (mkClassification SyncStatusCodeSynced conditions0 [] []))
    as [cl|e'|] eqn:Hloop.
  - destruct Hend as (res & pre & -> & _). done.
  - by apply classifyResources_not_failed in Hloop.
  - by rewrite Hend.
Qed.

(** X19. [CompareAppState] returns an error in two cases only: the destination
    cluster cannot be determined, and then the error is the one of that
    lookup; or the acquisition of the target state from the repository server
    failed with the revision cache in use, and then the error is the sentinel
    [ErrCompareStateRepo]. In both cases the pass has handed no conditions to
    the application and went through the settings checkpoint only. *)
Theorem CompareAppState_errors (m : appStateManager)
    (repoErrorCache : gmap string Time) (now : Time)
    (app : Application) (project : AppProject) (revisions : list string)
    (sources : list ApplicationSource) (noCache noRevisionCache : bool)
    (localManifests : list string) (hasMultipleSources : bool)
    (eff : passEffects) (err : error) :
  CompareAppState P m repoErrorCache now app project revisions sources noCache
    noRevisionCache localManifests hasMultipleSources = (eff, Failed err) ->
  eff_checkpoints eff = ["settings_ms"]
  /\ eff_conditions eff = None
  /\ exists settings,
       getComparisonSettings m = Ok settings
       /\ ((GetDestinationCluster P (spec_Destination (app_Spec app)) (db m) = Err err
            /\ eff_repoErrorCache eff = repoErrorCache)
           \/ (err = ErrCompareStateRepo
               /\ noRevisionCache = false
               /\ localManifests = []
               /\ exists cause,
                    (GetRepoObjs P m app sources (cs_appLabelKey settings)
                       (revisionsFor revisions sources) noCache noRevisionCache
                       (bool_decide (0 < length (proj_SignatureKeys project))%nat
                        && IsGPGEnabled P)
                       project true).2 = Failed cause)).
Proof.
  unfold CompareAppState.
  destruct (getComparisonSettings m) as [settings|e]; [|done].
  destruct (GetDestinationCluster P (spec_Destination (app_Spec app)) (db m))
    as [destCluster|e].
  2: { intros [= <- <-]. split; [done|]. split; [done|].
       exists settings. split; [done|]. by left. }
  destruct (loadTargetState _ _ _ _ _ _ _ _ _ _ _ _ _) as [cache' [tgt|e|]]
    eqn:Hloaded.
  - pose proof (compareLoadedState_not_failed m now app project sources noCache
                  hasMultipleSources
                  (initialSyncStatus app revisions sources hasMultipleSources)
                  settings
                  (bool_decide (0 < length (proj_SignatureKeys project))%nat
                   && IsGPGEnabled P)
                  destCluster tgt err) as Hnot.
    destruct (compareLoadedState _ _ _ _ _ _ _ _ _ _ _ _ _) as [[[? ?] ?] out].
    intros [= _ ->]. done.
  - intros [= <- <-]. split; [done|]. split; [done|].
    exists settings. split; [done|]. right.
    revert Hloaded. unfold loadTargetState.
    case_bool_decide as Hlocal; [|done].
    apply length_zero_iff_nil in Hlocal.
    unfold loadRepoState.
    destruct (GetRepoObjs _ _ _ _ _ _ _ _ _ _ _).2
      as [[[targetObjs manifestInfos] changes]|cause|]; [done| |done].
    destruct (repoErrorCache !! app_Name app) as [firstSeen|].
    + destruct (bool_decide _ && negb noRevisionCache) eqn:Hgrace; [|done].
      intros [= _ <-]. apply andb_true_iff in Hgrace as [_ Hcache].
      apply negb_true_iff in Hcache. split; [done|]. split; [done|].
      split; [done|]. by exists cause.
    + destruct (negb noRevisionCache) eqn:Hcache; [|done].
      intros [= _ <-]. apply negb_true_iff in Hcache. split; [done|].
      split; [done|]. split; [done|]. by exists cause.
  - done.
Qed.


Lemma loadTargetState_frame (m : appStateManager)
    (repoErrorCache : gmap string Time) (now : Time)
    (app : Application) (project : AppProject) (revisions : list string)
    (sources : list ApplicationSource) (appLabelKey : string)
    (noCache noRevisionCache : bool) (localManifests : list string)
    (verifySignature : bool) (name : string) :
  name <> app_Name app ->
  (loadTargetState P m repoErrorCache now app project revisions sources appLabelKey
     noCache noRevisionCache localManifests verifySignature).1 !! name
  = repoErrorCache !! name.
Proof.
  intros Hname. unfold loadTargetState, loadRepoState.
  case_bool_decide; [|done].
  destruct (GetRepoObjs _ _ _ _ _ _ _ _ _ _ _).2
    as [[[targetObjs manifestInfos] changes]|cause|]; simpl.
  - by rewrite lookup_delete_ne.
  - destruct (repoErrorCache !! app_Name app) as [firstSeen|];
      [destruct (_ && negb noRevisionCache)|destruct (negb noRevisionCache)];
      simpl; try done.
    by rewrite lookup_insert_ne.
  - done.
Qed.

(** X21. A pass touches the map of repository errors at the name of its own
    application only: the entries of all other applications are after the pass
    what they were before, however the pass ends. *)
Theorem repoErrorCache_frame (m : appStateManager)
    (repoErrorCache : gmap string Time) (now : Time)
    (app : Application) (project : AppProject) (revisions : list string)
    (sources : list ApplicationSource) (noCache noRevisionCache : bool)
    (localManifests : list string) (hasMultipleSources : bool) (name : string) :
  name <> app_Name app ->
  eff_repoErrorCache
    (CompareAppState P m repoErrorCache now app project revisions sources noCache
       noRevisionCache localManifests hasMultipleSources).1 !! name
  = repoErrorCache !! name.
Proof.
  intros Hname. unfold CompareAppState.
  destruct (getComparisonSettings m) as [settings|e]; [|done].
  destruct (GetDestinationCluster P (spec_Destination (app_Spec app)) (db m))
    as [destCluster|e]; [|done].
  pose proof (loadTargetState_frame m repoErrorCache now app project revisions
                sources (cs_appLabelKey settings) noCache noRevisionCache
                localManifests
                (bool_decide (0 < length (proj_SignatureKeys project))%nat
                 && IsGPGEnabled P) name Hname) as Hframe.
  destruct (loadTargetState _ _ _ _ _ _ _ _ _ _ _ _ _) as [cache' [tgt|e|]];
    simpl in Hframe; [|done..].
  by destruct (compareLoadedState _ _ _ _ _ _ _ _ _ _ _ _ _) as [[[? ?] ?] out].
Qed.

(** What a pass leaves when the target state could not be loaded but the
    pass goes on. *)
Lemma failed_target_state (m : appStateManager)
    (repoErrorCache cache' : gmap string Time) (now : Time)
    (app : Application) (project : AppProject) (revisions : list string)
    (sources : list ApplicationSource) (noCache noRevisionCache : bool)
    (localManifests : list string) (hasMultipleSources : bool)
    (settings : comparisonSettings) (destCluster : Cluster) (tgt : targetState) :
  getComparisonSettings m = Ok settings ->
  GetDestinationCluster P (spec_Destination (app_Spec app)) (db m) = Ok destCluster ->
  loadTargetState P m repoErrorCache now app project revisions sources
    (cs_appLabelKey settings) noCache noRevisionCache localManifests
    (bool_decide (0 < length (proj_SignatureKeys project))%nat && IsGPGEnabled P)
  = (cache', Returned tgt) ->
  tgt_failedToLoadObjs tgt = true ->
  let pass :=
    CompareAppState P m repoErrorCache now app project revisions sources noCache
      noRevisionCache localManifests hasMultipleSources in
  eff_repoErrorCache pass.1 = cache'
  /\ eff_failedToLoadObjs pass.1 = true
  /\ (forall e, pass.2 <> Failed e)
  /\ forall res,
       pass.2 = Returned res ->
       sync_Status (syncStatus res) = SyncStatusCodeUnknown
       /\ revisionsMayHaveChanges res = tgt_revisionsMayHaveChanges tgt
       /\ exists rest, eff_conditions pass.1 = Some (tgt_conditions tgt ++ rest).
Proof.
  intros Hsettings Hcluster Hloaded Hfailed pass. subst pass.
  unfold CompareAppState. rewrite Hsettings, Hcluster, Hloaded.
  set (syncStatus0 := initialSyncStatus app revisions sources hasMultipleSources).
  set (verifySignature :=
         bool_decide (0 < length (proj_SignatureKeys project))%nat && IsGPGEnabled P).
  pose proof (compareLoadedState_not_failed m now app project sources noCache
                hasMultipleSources syncStatus0 settings verifySignature destCluster tgt)
    as Hnot.
  pose proof (compareLoadedState_conditions m now app project sources noCache
                hasMultipleSources syncStatus0 settings verifySignature destCluster tgt)
    as Hconds.
  destruct (compareLoadedState_inv m now app project sources noCache
              hasMultipleSources syncStatus0 settings verifySignature destCluster tgt)
    as (reconciliation & diffResults & conditions0 & failed & _ & Hcause & Hend).
  rewrite (Hcause (or_introl Hfailed)) in Hend.
  destruct (classifyResources P m now app project destCluster settings diffResults
              true (rec_Live reconciliation) 0 (rec_Target reconciliation)
              (mkClassification SyncStatusCodeSynced conditions0 [] []))
    as [cl|e|].
  - destruct Hend as (res & pre & Hrun & _ & _ & _ & Hsync & Hchanges).
    rewrite Hrun in Hnot, Hconds |- *. simpl.
    split; [done|]. split; [done|]. split; [done|].
    intros res' [= <-]. split; [done|]. split; [done|].
    destruct (Hconds _ _ _ _ eq_refl) as [rest ->]. by exists rest.
  - rewrite Hend in Hnot |- *. simpl. by destruct (Hnot e).
  - rewrite Hend. simpl. done.
Qed.

(** X22. Local manifests are refused when the project declares signature keys
    and GnuPG verification is enabled: the pass sets [failedToLoadObjs],
    leaves the map of repository errors alone, returns no error, and a result
    it returns has the verdict Unknown, the flag [revisionsMayHaveChanges]
    unset and, as first condition, the comparison error that says so. *)
Theorem local_manifests_refused (m : appStateManager)
    (repoErrorCache : gmap string Time) (now : Time)
    (app : Application) (project : AppProject) (revisions : list string)
    (sources : list ApplicationSource) (noCache noRevisionCache : bool)
    (localManifests : list string) (hasMultipleSources : bool)
    (settings : comparisonSettings) (destCluster : Cluster) :
  getComparisonSettings m = Ok settings ->
  GetDestinationCluster P (spec_Destination (app_Spec app)) (db m) = Ok destCluster ->
  localManifests <> [] ->
  proj_SignatureKeys project <> [] ->
  IsGPGEnabled P = true ->
  let pass :=
    CompareAppState P m repoErrorCache now app project revisions sources noCache
      noRevisionCache localManifests hasMultipleSources in
  eff_repoErrorCache pass.1 = repoErrorCache
  /\ eff_failedToLoadObjs pass.1 = true
  /\ (forall e, pass.2 <> Failed e)
  /\ forall res,
       pass.2 = Returned res ->
       sync_Status (syncStatus res) = SyncStatusCodeUnknown
       /\ revisionsMayHaveChanges res = false
       /\ exists rest,
            eff_conditions pass.1
            = Some (comparisonError now
                      "Cannot use local manifests when signature verification is required"
                    :: rest).
Proof.
  intros Hsettings Hcluster Hlocal Hkeys Hgpg.
  apply (failed_target_state m repoErrorCache repoErrorCache now app project
           revisions sources noCache noRevisionCache localManifests
           hasMultipleSources settings destCluster
           (mkTargetState [] [] false
              [comparisonError now
                 "Cannot use local manifests when signature verification is required"]
              true) Hsettings Hcluster); [|done].
  unfold loadTargetState.
  rewrite bool_decide_eq_false_2 by (by destruct localManifests).
  unfold loadLocalState. rewrite Hgpg.
  rewrite bool_decide_eq_true_2 by (destruct (proj_SignatureKeys project);
                                    [done|simpl; lia]).
  done.
Qed.

(** X23. A failure to acquire the target state is reported, not suppressed,
    when the revision cache is bypassed or the grace period of the recorded
    first failure is over: the pass leaves the map of repository errors as it
    is, sets [failedToLoadObjs], returns no error, and a result it returns has
    the verdict Unknown and, as first condition, a comparison error with the
    message of the failure. *)
Theorem repo_error_reported (m : appStateManager)
    (repoErrorCache : gmap string Time) (now : Time)
    (app : Application) (project : AppProject) (revisions : list string)
    (sources : list ApplicationSource) (noCache noRevisionCache : bool)
    (hasMultipleSources : bool) (settings : comparisonSettings)
    (destCluster : Cluster) (err : error) :
  getComparisonSettings m = Ok settings ->
  GetDestinationCluster P (spec_Destination (app_Spec app)) (db m) = Ok destCluster ->
  (GetRepoObjs P m app sources (cs_appLabelKey settings)
     (revisionsFor revisions sources) noCache noRevisionCache
     (bool_decide (0 < length (proj_SignatureKeys project))%nat && IsGPGEnabled P)
     project true).2 = Failed err ->
  noRevisionCache = true
  \/ (exists firstSeen,
        repoErrorCache !! app_Name app = Some firstSeen
        /\ (repoErrorGracePeriod m < now - firstSeen)%Z) ->
  let pass :=
    CompareAppState P m repoErrorCache now app project revisions sources noCache
      noRevisionCache [] hasMultipleSources in
  eff_repoErrorCache pass.1 = repoErrorCache
  /\ eff_failedToLoadObjs pass.1 = true
  /\ (forall e, pass.2 <> Failed e)
  /\ forall res,
       pass.2 = Returned res ->
       sync_Status (syncStatus res) = SyncStatusCodeUnknown
       /\ revisionsMayHaveChanges res = false
       /\ exists rest,
            eff_conditions pass.1
            = Some (comparisonError now
                      ("Failed to load target state: " +:+ Error err) :: rest).
Proof.
  intros Hsettings Hcluster Hacquired Hcause.
  apply (failed_target_state m repoErrorCache repoErrorCache now app project
           revisions sources noCache noRevisionCache [] hasMultipleSources
           settings destCluster
           (mkTargetState [] [] false
              [comparisonError now ("Failed to load target state: " +:+ Error err)]
              true) Hsettings Hcluster); [|done].
  unfold loadTargetState.
  rewrite (bool_decide_eq_true_2 (length [] = 0%nat)) by done.
  unfold loadRepoState. rewrite Hacquired.
  destruct Hcause as [->|(firstSeen & -> & Hlate)].
  - destruct (repoErrorCache !! app_Name app); by rewrite ?andb_false_r.
  - by rewrite bool_decide_eq_false_2 by lia.
Qed.

(** ** Local manifests and the repository server *)

Lemma permittedLiveObjs_clientset (m : appStateManager)
    (clientset : result RepoServerServiceClient) (now : Time) (app : Application)
    (project : AppProject) (destCluster : Cluster)
    (liveObjByKey : list (ResourceKey * option Unstructured)) :
  permittedLiveObjs P (withRepoClientset m clientset) now app project destCluster
    liveObjByKey
  = permittedLiveObjs P m now app project destCluster liveObjByKey.
Proof.
  induction liveObjByKey as [|[k v] rest IH]; [done|].
  cbn [permittedLiveObjs]. by rewrite IH.
Qed.

Lemma trackLiveObjs_clientset (m : appStateManager)
    (clientset : result RepoServerServiceClient) (now : Time) (app : Application)
    (settings : comparisonSettings) (targetNsExists : bool)
    (liveObjByKey : list (ResourceKey * option Unstructured)) :
  trackLiveObjs P (withRepoClientset m clientset) now app settings targetNsExists
    liveObjByKey
  = trackLiveObjs P m now app settings targetNsExists liveObjByKey.
Proof.
  induction liveObjByKey as [|[k [liveObj|]] rest IH]; [done| |exact IH].
  cbn [trackLiveObjs]. by rewrite IH.
Qed.

Lemma classifyResources_clientset (m : appStateManager)
    (clientset : result RepoServerServiceClient) (now : Time)
    (app : Application) (project : AppProject) (destCluster : Cluster)
    (settings : comparisonSettings) (diffResults : DiffResultList)
    (failedToLoadObjs : bool) (liveObjs : list (option Unstructured))
    (targetObjs : list (option Unstructured)) :
  forall (i : nat) (st : classification),
    classifyResources P (withRepoClientset m clientset) now app project destCluster
      settings diffResults failedToLoadObjs liveObjs i targetObjs st
    = classifyResources P m now app project destCluster settings diffResults
        failedToLoadObjs liveObjs i targetObjs st.
Proof.
  induction targetObjs as [|targetObj rest IH]; intros i st; [done|].
  cbn [classifyResources].
  change (classifyResource P (withRepoClientset m clientset) now app project
            destCluster settings diffResults failedToLoadObjs liveObjs i targetObj st)
    with (classifyResource P m now app project destCluster settings diffResults
            failedToLoadObjs liveObjs i targetObj st).
  destruct (classifyResource P m now app project destCluster settings diffResults
              failedToLoadObjs liveObjs i targetObj st); [apply IH|done..].
Qed.

Lemma compareLoadedState_clientset (m : appStateManager)
    (clientset : result RepoServerServiceClient) (now : Time)
    (app : Application) (project : AppProject)
    (sources : list ApplicationSource) (noCache : bool)
    (hasMultipleSources : bool) (syncStatus0 : SyncStatus)
    (settings : comparisonSettings) (verifySignature : bool)
    (destCluster : Cluster) (tgt : targetState) :
  compareLoadedState P (withRepoClientset m clientset) now app project sources
    noCache hasMultipleSources syncStatus0 settings verifySignature destCluster tgt
  = compareLoadedState P m now app project sources noCache hasMultipleSources
      syncStatus0 settings verifySignature destCluster tgt.
Proof.
  unfold compareLoadedState.
  change (liveStateCache (withRepoClientset m clientset)) with (liveStateCache m).
  change (settingsMgr (withRepoClientset m clientset)) with (settingsMgr m).
  change (resourceTracking (withRepoClientset m clientset)) with (resourceTracking m).
  change (namespace (withRepoClientset m clientset)) with (namespace m).
  change (statusRefreshTimeout (withRepoClientset m clientset))
    with (statusRefreshTimeout m).
  change (serverSideDiff (withRepoClientset m clientset)) with (serverSideDiff m).
  change (ignoreNormalizerOpts (withRepoClientset m clientset))
    with (ignoreNormalizerOpts m).
  change (persistResourceHealth (withRepoClientset m clientset))
    with (persistResourceHealth m).
  repeat first
    [ rewrite permittedLiveObjs_clientset
    | rewrite trackLiveObjs_clientset
    | rewrite classifyResources_clientset
    | match goal with
      | |- context [let '(_, _) := ?x in _] => destruct x
      | |- context [match ?x with Ok _ => _ | Err _ => _ end] => destruct x
      end ];
    reflexivity.
Qed.

(** X29. With local manifests the repository server is not asked for
    anything: the pass ends in the same way, with the same result and the same
    effects, whatever client set for the repository server the manager
    holds. *)
Theorem local_manifests_without_repo_server (m : appStateManager)
    (clientset : result RepoServerServiceClient)
    (repoErrorCache : gmap string Time) (now : Time)
    (app : Application) (project : AppProject) (revisions : list string)
    (sources : list ApplicationSource) (noCache noRevisionCache : bool)
    (localManifests : list string) (hasMultipleSources : bool) :
  localManifests <> [] ->
  CompareAppState P (withRepoClientset m clientset) repoErrorCache now app project
    revisions sources noCache noRevisionCache localManifests hasMultipleSources
  = CompareAppState P m repoErrorCache now app project revisions sources noCache
      noRevisionCache localManifests hasMultipleSources.
Proof.
  intros Hlocal. unfold CompareAppState.
  change (getComparisonSettings (withRepoClientset m clientset))
    with (getComparisonSettings m).
  destruct (getComparisonSettings m) as [settings|e]; [|done].
  change (db (withRepoClientset m clientset)) with (db m).
  destruct (GetDestinationCluster P (spec_Destination (app_Spec app)) (db m))
    as [destCluster|e]; [|done].
  unfold loadTargetState.
  rewrite !bool_decide_eq_false_2 by (by destruct localManifests).
  by rewrite compareLoadedState_clientset.
Qed.

End Properties.

(** * Properties of the pull-request generator *)

Section GeneratorProperties.

Import Generators.

Context {PullRequestService : Type}.
Variable services : Services PullRequestService.

Lemma substring_length (k : nat) (s : string) :
  (k <= String.length s)%nat -> String.length (String.substring 0 k s) = k.
Proof.
  revert s. induction k as [|k IH]; intros [|c s] Hk; simpl in *; try done; try lia.
  rewrite IH; [done|lia].
Qed.

Lemma substring_prefix (k : nat) (s : string) :
  (k <= String.length s)%nat -> exists rest, s = String.substring 0 k s +:+ rest.
Proof.
  revert s. induction k as [|k IH]; intros [|c s] Hk; simpl in *; try lia.
  - by exists "".
  - by eexists.
  - destruct (IH s ltac:(lia)) as [rest Hrest]. exists rest.
    change (String c s = String c (String.substring 0 k s +:+ rest)). by f_equal.
Qed.

Lemma substring_substring (j k : nat) (s : string) :
  (j <= k)%nat ->
  String.substring 0 j (String.substring 0 k s) = String.substring 0 j s.
Proof.
  revert k s. induction j as [|j IH]; intros [|k] [|c s] Hjk; simpl; try done; try lia.
  rewrite IH; [done|lia].
Qed.

Lemma sliceTo_shortSHALength (n : nat) (sha : string) :
  sliceTo sha (shortSHALength n sha)
  = Some (String.substring 0 (n `min` String.length sha) sha).
Proof.
  unfold sliceTo, shortSHALength.
  destruct (decide (String.length sha < n)%nat) as [Hshort|Hshort].
  - rewrite (bool_decide_eq_true_2 _ Hshort).
    rewrite bool_decide_eq_true_2 by lia. by rewrite Nat.min_r by lia.
  - rewrite (bool_decide_eq_false_2 _ Hshort).
    rewrite bool_decide_eq_true_2 by lia. by rewrite Nat.min_l by lia.
Qed.

Lemma pullParams_defined (pull : PullRequest) :
  is_Some (pullParams services pull).
Proof. unfold pullParams. rewrite !sliceTo_shortSHALength. by eexists. Qed.

(** X24. The slices of the head SHA are always in range, so a parameter map is
    built for every pull request. Its short SHA is the SHA's prefix of 8
    characters, or the whole SHA when that is shorter, and its 7-character
    short SHA is the prefix of the short SHA in the same way. *)
Theorem pullParams_short_shas (pull : PullRequest) :
  exists built short short7 rest rest7,
    pullParams services pull = Some built
    /\ built !! "head_sha" = Some (any_string (pr_HeadSHA pull))
    /\ built !! "head_short_sha" = Some (any_string short)
    /\ built !! "head_short_sha_7" = Some (any_string short7)
    /\ pr_HeadSHA pull = short +:+ rest
    /\ short = short7 +:+ rest7
    /\ String.length short = (8 `min` String.length (pr_HeadSHA pull))%nat
    /\ String.length short7 = (7 `min` String.length (pr_HeadSHA pull))%nat.
Proof.
  unfold pullParams. rewrite !sliceTo_shortSHALength.
  set (sha := pr_HeadSHA pull).
  destruct (substring_prefix (8 `min` String.length sha) sha ltac:(lia))
    as [rest Hrest].
  destruct (substring_prefix (7 `min` String.length sha)
              (String.substring 0 (8 `min` String.length sha) sha)) as [rest7 Hrest7].
  { rewrite substring_length by lia. lia. }
  rewrite substring_substring in Hrest7 by lia.
  eexists _, _, _, rest, rest7.
  split; [reflexivity|].
  split; [done|]. split; [done|]. split; [done|].
  split; [exact Hrest|]. split; [exact Hrest7|].
  split; apply substring_length; lia.
Qed.

Lemma GenerateParams_loop_returned (pullRequest : PullRequestGeneratorSpec)
    (applicationSetInfo : option ApplicationSet) (pulls : list PullRequest) :
  forall (params params' : list paramMap),
    GenerateParams_loop services pullRequest applicationSetInfo pulls params
    = Returned params' ->
    exists generated,
      params' = params ++ generated
      /\ Forall2 (fun pull generatedMap =>
                    exists info built templated,
                      applicationSetInfo = Some info
                      /\ pullParams services pull = Some built
                      /\ appendTemplatedValues services (prg_Values pullRequest) built
                           (as_GoTemplate info) (as_GoTemplateOptions info)
                         = Ok templated
                      /\ generatedMap = withLabels info pull templated)
           pulls generated.
Proof.
  induction pulls as [|pull rest IH]; intros params params'; simpl.
  - intros [= <-]. exists []. by rewrite app_nil_r.
  - destruct (pullParams services pull) as [built|] eqn:Hbuilt; [|done].
    destruct applicationSetInfo as [info|]; [|done].
    destruct (appendTemplatedValues services _ _ _ _) as [templated|err] eqn:Htemplated;
      [|done].
    intros Hrest. apply IH in Hrest as (generated & -> & Hall).
    exists (withLabels info pull templated :: generated).
    split; [by rewrite <- app_assoc|].
    constructor; [|done]. by exists info, built, templated.
Qed.

(** X25. When [GenerateParams] returns after the pull requests were listed, it
    gives one parameter map per pull request, in the order of the listing: the
    map built for the pull request, with the templated values appended and,
    for an application set with Go templates only, with the labels of the pull
    request under the key "labels". *)
Theorem GenerateParams_one_map_per_pull (g : PullRequestGenerator PullRequestService)
    (appSetGenerator : ApplicationSetGenerator)
    (pullRequest : PullRequestGeneratorSpec)
    (applicationSetInfo : option ApplicationSet) (svc : PullRequestService)
    (pulls : list PullRequest) (params : list paramMap) :
  asg_PullRequest appSetGenerator = Some pullRequest ->
  selectServiceProviderFunc g pullRequest applicationSetInfo = Ok svc ->
  ListPullRequests services svc (prg_Filters pullRequest) = Ok pulls ->
  GenerateParams services g (Some appSetGenerator) applicationSetInfo = Returned params ->
  length params = length pulls
  /\ forall i pull,
       pulls !! i = Some pull ->
       exists info built templated,
         applicationSetInfo = Some info
         /\ pullParams services pull = Some built
         /\ appendTemplatedValues services (prg_Values pullRequest) built
              (as_GoTemplate info) (as_GoTemplateOptions info) = Ok templated
         /\ params !! i = Some (withLabels info pull templated)
         /\ (as_GoTemplate info = true ->
             withLabels info pull templated !! "labels"
             = Some (any_strings (pr_Labels pull)))
         /\ (as_GoTemplate info = false ->
             withLabels info pull templated = templated).
Proof.
  intros Hspec Hsvc Hpulls. unfold GenerateParams. rewrite Hspec, Hsvc, Hpulls.
  intros Hloop. apply GenerateParams_loop_returned in Hloop as (generated & -> & Hall).
  rewrite app_nil_l. split; [symmetry; by eapply Forall2_length|].
  intros i pull Hpull.
  destruct (Forall2_lookup_l _ _ _ _ _ Hall Hpull)
    as (generatedMap & Hgenerated & info & built & templated & Hinfo & Hbuilt
        & Htemplated & ->).
  exists info, built, templated. repeat split; try done.
  - intros Hgo. unfold withLabels. rewrite Hgo. apply lookup_insert_eq.
  - intros Hgo. unfold withLabels. by rewrite Hgo.
Qed.

(** X26. The application set is read before the check that it is there:
    without an application set [GenerateParams] returns the empty list when no
    pull request is listed and panics as soon as one is. *)
Theorem GenerateParams_without_application_set
    (g : PullRequestGenerator PullRequestService)
    (appSetGenerator : ApplicationSetGenerator)
    (pullRequest : PullRequestGeneratorSpec) (svc : PullRequestService)
    (pulls : list PullRequest) :
  asg_PullRequest appSetGenerator = Some pullRequest ->
  selectServiceProviderFunc g pullRequest None = Ok svc ->
  ListPullRequests services svc (prg_Filters pullRequest) = Ok pulls ->
  GenerateParams services g (Some appSetGenerator) None
  = match pulls with
    | [] => Returned []
    | _ :: _ => Panic
    end.
Proof.
  intros Hspec Hsvc Hpulls. unfold GenerateParams. rewrite Hspec, Hsvc, Hpulls.
  destruct pulls as [|pull rest]; [done|]. simpl.
  destruct (pullParams_defined pull) as [built ->]. done.
Qed.

Lemma GenerateParams_loop_failed (pullRequest : PullRequestGeneratorSpec)
    (applicationSetInfo : option ApplicationSet) (pulls : list PullRequest) :
  forall (params : list paramMap) (err : error),
    GenerateParams_loop services pullRequest applicationSetInfo pulls params = Failed err ->
    exists cause, err = fmt_Errorf "failed to append templated values" cause.
Proof.
  induction pulls as [|pull rest IH]; intros params err; simpl; [done|].
  destruct (pullParams services pull) as [built|]; [|done].
  destruct applicationSetInfo as [info|]; [|done].
  destruct (appendTemplatedValues services _ _ _ _) as [templated|cause].
  - apply IH.
  - intros [= <-]. by exists cause.
Qed.

(** X27. The errors of [GenerateParams]: the package's error for an empty
    generator, when the generator or its pull-request part is missing; else an
    error that wraps the failure of the service selection, of the listing or
    of the templated values. A repository-not-found failure of the listing is
    not among them when the generator asks to continue on it: the call then
    returns the empty list. *)
Theorem GenerateParams_errors (g : PullRequestGenerator PullRequestService)
    (appSetGenerator : option ApplicationSetGenerator)
    (applicationSetInfo : option ApplicationSet) (err : error) :
  GenerateParams services g appSetGenerator applicationSetInfo = Failed err ->
  (err = ErrEmptyAppSetGenerator services
   /\ (appSetGenerator = None
       \/ exists gen, appSetGenerator = Some gen /\ asg_PullRequest gen = None))
  \/ exists gen pullRequest cause,
       appSetGenerator = Some gen /\ asg_PullRequest gen = Some pullRequest
       /\ ((err = fmt_Errorf "failed to select pull request service provider" cause
            /\ selectServiceProviderFunc g pullRequest applicationSetInfo = Err cause)
           \/ (err = fmt_Errorf "error listing repos" cause
               /\ (IsRepositoryNotFoundError services cause = false
                   \/ prg_ContinueOnRepoNotFoundError pullRequest = false)
               /\ exists svc,
                    selectServiceProviderFunc g pullRequest applicationSetInfo = Ok svc
                    /\ ListPullRequests services svc (prg_Filters pullRequest) = Err cause)
           \/ err = fmt_Errorf "failed to append templated values" cause).
Proof.
  unfold GenerateParams.
  destruct appSetGenerator as [gen|]; [|intros [= <-]; left; by split; [|left]].
  destruct (asg_PullRequest gen) as [pullRequest|] eqn:Hspec.
  2: { intros [= <-]. left. split; [done|]. right. by exists gen. }
  destruct (selectServiceProviderFunc g pullRequest applicationSetInfo)
    as [svc|cause] eqn:Hsvc.
  2: { intros [= <-]. right. exists gen, pullRequest, cause.
       split; [done|]. split; [done|]. by left. }
  destruct (ListPullRequests services svc (prg_Filters pullRequest)) as [pulls|cause]
    eqn:Hpulls.
  - intros Hloop. apply GenerateParams_loop_failed in Hloop as [cause ->].
    right. exists gen, pullRequest, cause. split; [done|]. split; [done|].
    right. by right.
  - destruct (_ && _) eqn:Hcontinue; [done|]. intros [= <-].
    right. exists gen, pullRequest, cause. split; [done|]. split; [done|].
    right. left. split; [done|]. split; [by apply andb_false_iff|]. by exists svc.
Qed.

(** X28. The requeue delay is the configured number of seconds, exactly, as
    long as that number fits a duration in nanoseconds; without a configured
    number it is 30 minutes. *)
Theorem GetRequeueAfter_exact (appSetGenerator : ApplicationSetGenerator)
    (pullRequest : PullRequestGeneratorSpec) :
  asg_PullRequest appSetGenerator = Some pullRequest ->
  (forall seconds,
     prg_RequeueAfterSeconds pullRequest = Some seconds ->
     (-9223372036 <= seconds <= 9223372036)%Z ->
     GetRequeueAfter (Some appSetGenerator) = Returned (seconds * 1000000000)%Z)
  /\ (prg_RequeueAfterSeconds pullRequest = None ->
      GetRequeueAfter (Some appSetGenerator) = Returned (1800 * 1000000000)%Z).
Proof.
  intros Hspec. unfold GetRequeueAfter. rewrite Hspec. split.
  - intros seconds -> Hrange. f_equal. unfold wrap64, Second.
    rewrite Z.mod_small by lia. lia.
  - intros ->. done.
Qed.

End GeneratorProperties.

(** * The statements on the sample installation *)

(** With annotation tracking, ownership on the sample installation is the
    match of the identity tuple. *)
Lemma isSelfReferencedObj_decides_sample :
  "annotation" <> TrackingMethodLabel
  /\ forall live,
       (forall config,
          appStateManager_isSelfReferencedObj Sample.packages
            (Sample.manager true true true) (Some live) (Some config) "guestbook"
            "annotation" "" = true
          <-> matchesIdentity live
                (UnstructuredToAppInstanceValue Sample.packages config "guestbook" ""))
       /\ (forall appInstance,
             GetAppInstance (resourceTracking (Sample.manager true true true)) live
               "annotation" "" = Some appInstance ->
             appStateManager_isSelfReferencedObj Sample.packages
               (Sample.manager true true true) (Some live) None "guestbook"
               "annotation" "" = true
             <-> matchesIdentity live appInstance).
Proof.
  assert (Hmethod : "annotation" <> TrackingMethodLabel) by discriminate.
  split; [exact Hmethod|].
  exact (proj2 (proj2 (isSelfReferencedObj_decides Sample.packages
                         (Sample.manager true true true) "guestbook" "" "annotation"))
           Hmethod).
Defined.

(** The application compared at revision 1.2.3 reuses the cached diff, and
    does not when caching is disabled. *)
Lemma useDiffCache_decision_sample :
  useDiffCache Sample.packages false
    [mkManifestResponse ["Deployment"; "Service"] "1.2.3" "Helm" ""]
    [Sample.chart] Sample.comparedApp ["1.2.3"] 180 false = true
  /\ length [mkManifestResponse ["Deployment"; "Service"] "1.2.3" "Helm" ""]
     = length [Sample.chart]
  /\ useDiffCache Sample.packages true
       [mkManifestResponse ["Deployment"; "Service"] "1.2.3" "Helm" ""]
       [Sample.chart] Sample.comparedApp ["1.2.3"] 180 false = false.
Proof.
  assert (Hcached :
    useDiffCache Sample.packages false
      [mkManifestResponse ["Deployment"; "Service"] "1.2.3" "Helm" ""]
      [Sample.chart] Sample.comparedApp ["1.2.3"] 180 false = true)
    by (vm_compute; reflexivity).
  split; [exact Hcached|]. split.
  - exact (proj1 (proj2 (proj2 (proj2 (proj2
             (proj2 (useDiffCache_decision Sample.packages false _ _ _ _ _ _)
                Hcached)))))).
  - apply (proj1 (useDiffCache_decision Sample.packages true _ _ _ _ _ _)).
    left. reflexivity.
Defined.

(** On the sample store the comparison answers [true] and the two places
    keep their content. *)
Lemma specEqualsCompareTo_preserves_inputs_sample :
  exists equal h',
    specEqualsCompareTo_mem Sample.packages 1 [Sample.chart] 2 Sample.store
    = Some (equal, h')
    /\ equal = true
    /\ h' !! 1%positive = Some (SpecCell Sample.spec)
    /\ h' !! 2%positive = Some (ComparedToCell Sample.comparedTo).
Proof.
  destruct (specEqualsCompareTo_preserves_inputs Sample.packages 1 2 [Sample.chart]
              Sample.store Sample.spec Sample.comparedTo false [] Sample.comparedApp
              [] 0%Z false)
    as [(equal & h' & Hrun & Hequal & Hspec & Hct) _].
  - vm_compute. reflexivity.
  - vm_compute. reflexivity.
  - exists equal, h'. split; [exact Hrun|]. split; [|by split].
    rewrite Hequal. vm_compute. reflexivity.
Defined.

(** With the settings down the pass returns Unknown at the first
    checkpoint. *)
Lemma settings_failure_aborts_sample :
  exists res,
    CompareAppState Sample.packages (Sample.manager false true true) ∅ 5
      Sample.app Sample.project ["1.2.3"] [Sample.chart] false false [] false
    = (mkPassEffects ∅ ["settings_ms"] None false, Returned res)
    /\ sync_Status (GetSyncStatus res) = SyncStatusCodeUnknown
    /\ GetHealthStatus res = HealthStatusUnknown.
Proof.
  destruct (settings_failure_aborts Sample.packages (Sample.manager false true true)
              ∅ 5 Sample.app Sample.project ["1.2.3"] [Sample.chart] false false
              [] false (errors_New "configmap argocd-cm not found"))
    as (res & Hrun & _ & Hsync & Hhealth & _).
  - vm_compute. reflexivity.
  - exists res. by repeat split.
Defined.

(** The Deployment [web] appears twice (once without namespace): the copy
    met last is kept, one warning counts two, and two objects remain. *)
Lemma deduplicate_keeps_last_sample :
  exists before after,
    DeduplicateTargetObjects Sample.packages 7 "default" Sample.repeated (fun _ => Ok true)
    = (lastTargets before ++ Sample.deployment "default" "web" :: lastTargets after,
       repeatedConditions Sample.packages 7 before
       ++ {| cond_Type := ApplicationConditionRepeatedResourceWarning;
             cond_Message :=
               "Resource apps/Deployment/default/web appeared 2 times among application resources.";
             cond_LastTransitionTime := Some 7%Z |}
          :: repeatedConditions Sample.packages 7 after)
    /\ length (DeduplicateTargetObjects Sample.packages 7 "default" Sample.repeated
                 (fun _ => Ok true)).1 = 2%nat.
Proof.
  destruct (deduplicate_keeps_last Sample.packages 7 "default" Sample.repeated
              (fun _ => Ok true)
              (mkResourceKey "apps" "Deployment" "default" "web"))
    as (before & after & kept & Hgroups & _ & _ & Hkept & Hresult & Hlength).
  - vm_compute. lia.
  - exists before, after.
    assert (Hweb : kept = Sample.deployment "default" "web").
    { vm_compute in Hkept. by injection Hkept as <-. }
    rewrite <- Hweb. split; [exact Hresult|].
    rewrite Hlength, <- Hgroups. vm_compute. reflexivity.
Defined.

(** The repository server is down at times 5 and 9 and back at time 12, with
    a grace period of three minutes. *)
Lemma repo_error_grace_period_sample :
  (* the first failure, at time 5 *)
  CompareAppState Sample.packages (Sample.manager true false true) ∅ 5
    Sample.app Sample.project ["1.2.3"] [Sample.chart] false false [] false
  = (mkPassEffects (<["guestbook" := 5%Z]> ∅) ["settings_ms"] None false,
     Failed ErrCompareStateRepo)
  (* a second failure, at time 9 *)
  /\ CompareAppState Sample.packages (Sample.manager true false true)
       (<["guestbook" := 5%Z]> ∅) 9
       Sample.app Sample.project ["1.2.3"] [Sample.chart] false false [] false
     = (mkPassEffects (<["guestbook" := 5%Z]> ∅) ["settings_ms"] None false,
        Failed ErrCompareStateRepo)
  (* the repository server is back, at time 12 *)
  /\ eff_repoErrorCache
       (CompareAppState Sample.packages (Sample.manager true true true)
          (<["guestbook" := 5%Z]> ∅) 12
          Sample.app Sample.project ["1.2.3"] [Sample.chart] false false [] false).1
     = delete "guestbook" (<["guestbook" := 5%Z]> ∅).
Proof.
  pose (err := fmt_Errorf "failed to generate manifest for source 1 of 1"
                 (errors_New "rpc error: code = Unavailable")).
  split; [|split].
  - destruct (repo_error_grace_period Sample.packages (Sample.manager true false true)
                ∅ 5 Sample.app Sample.project ["1.2.3"] [Sample.chart] false false
                false Sample.settings Sample.cluster eq_refl eq_refl) as [Hfailure _].
    destruct (Hfailure err) as [Hfirst _]; [vm_compute; reflexivity|reflexivity|].
    destruct Hfirst as [Hpass _]; [vm_compute; reflexivity|]. exact Hpass.
  - destruct (repo_error_grace_period Sample.packages (Sample.manager true false true)
                (<["guestbook" := 5%Z]> ∅) 9 Sample.app Sample.project ["1.2.3"]
                [Sample.chart] false false false Sample.settings Sample.cluster
                eq_refl eq_refl) as [Hfailure _].
    destruct (Hfailure err) as [_ Hsecond]; [vm_compute; reflexivity|reflexivity|].
    destruct (Hsecond 5%Z) as [Hpass _];
      [vm_compute; reflexivity|vm_compute; discriminate|]. exact Hpass.
  - destruct (repo_error_grace_period Sample.packages (Sample.manager true true true)
                (<["guestbook" := 5%Z]> ∅) 12 Sample.app Sample.project ["1.2.3"]
                [Sample.chart] false false false Sample.settings Sample.cluster
                eq_refl eq_refl) as [_ Hsuccess].
    eapply Hsuccess. vm_compute. reflexivity.
Defined.

(** With the cluster cache down the two rendered resources and the
    application are Unknown. *)
Lemma failedToLoadObjs_forces_unknown_sample :
  exists eff res,
    CompareAppState Sample.packages (Sample.manager true true false) ∅ 5
      Sample.app Sample.project ["1.2.3"] [Sample.chart] false false [] false
    = (eff, Returned res)
    /\ eff_failedToLoadObjs eff = true
    /\ length (resources res) = 2%nat
    /\ sync_Status (GetSyncStatus res) = SyncStatusCodeUnknown
    /\ Forall (fun rs => rs_Status rs = SyncStatusCodeUnknown) (resources res).
Proof.
  destruct (CompareAppState Sample.packages (Sample.manager true true false) ∅ 5
              Sample.app Sample.project ["1.2.3"] [Sample.chart] false false [] false)
    as [eff out] eqn:Hrun.
  assert (Hout : exists res, out = Returned res
                             /\ eff_failedToLoadObjs eff = true
                             /\ alignedPairs (reconciliationResult res)
                             /\ length (rec_Target (reconciliationResult res)) = 2%nat).
  { vm_compute in Hrun. injection Hrun as <- <-. eexists. split; [reflexivity|].
    split; [reflexivity|]. split; [|reflexivity].
    split; [reflexivity|]. simpl.
    repeat (apply Forall_cons_2; [left; discriminate|]). apply Forall_nil_2. }
  destruct Hout as (res & -> & Hflag & Hpairs & Htargets).
  destruct (failedToLoadObjs_forces_unknown Sample.packages _ _ _ _ _ _ _ _ _ _ _
              eff res Hrun Hflag Hpairs) as (Hsync & Hall & Hlen).
  exists eff, res. split; [reflexivity|]. split; [exact Hflag|].
  split; [by rewrite Hlen|]. by split.
Defined.



(** A chart source at revision 1.2.3, never synced: two target objects and
    the flag set. *)
Lemma skipped_check_sets_revisionsMayHaveChanges_sample :
  exists targetObjs manifestInfos changes,
    (GetRepoObjs Sample.packages (Sample.manager true true true) Sample.app
       [Sample.chart] "app.kubernetes.io/instance" ["1.2.3"] false false true
       Sample.project true).2 = Returned (targetObjs, manifestInfos, changes)
    /\ length targetObjs = 2%nat
    /\ changes = true.
Proof.
  eexists _, _, _. split; [vm_compute; reflexivity|]. split; [reflexivity|].
  eapply (skipped_check_sets_revisionsMayHaveChanges Sample.packages
            (Sample.manager true true true) Sample.app [Sample.chart]
            "app.kubernetes.io/instance" ["1.2.3"] false false true Sample.project true
            _ _ _ 0 Sample.chart).
  - vm_compute. reflexivity.
  - reflexivity.
  - left. reflexivity.
Defined.


(** * Further statements on the sample data *)

(** The chart source gives one response and the two documents of it. *)
Lemma GetRepoObjs_responses_sample :
  exists targetObjs manifestInfos changes,
    (GetRepoObjs Sample.packages (Sample.manager true true true) Sample.app
       [Sample.chart] "app.kubernetes.io/instance" ["1.2.3"] false false true
       Sample.project true).2 = Returned (targetObjs, manifestInfos, changes)
    /\ length manifestInfos = length [Sample.chart]
    /\ unmarshalManifests Sample.packages (concat (map mr_Manifests manifestInfos))
       = Ok targetObjs.
Proof.
  eexists _, _, _. split; [vm_compute; reflexivity|].
  apply (GetRepoObjs_responses Sample.packages (Sample.manager true true true)
           Sample.app [Sample.chart] "app.kubernetes.io/instance" ["1.2.3"]
           false false true Sample.project true _ _ true).
  vm_compute. reflexivity.
Defined.

(** An empty revision is replaced by the target revision of the chart. *)
Lemma GetRepoObjs_revisions_sample :
  exists revisions' acquired,
    GetRepoObjs Sample.packages (Sample.manager true true true) Sample.app
      [Sample.chart] "app.kubernetes.io/instance" [""] false false true
      Sample.project true = (revisions', Returned acquired)
    /\ length revisions' = 1%nat
    /\ revisions' !! 0%nat = Some "1.2.3".
Proof.
  eexists _, _. split; [vm_compute; reflexivity|].
  destruct (GetRepoObjs_revisions Sample.packages (Sample.manager true true true)
              Sample.app [Sample.chart] "app.kubernetes.io/instance" [""] _
              false false true Sample.project true _ eq_refl)
    as (_ & Hlen & Hdefault & _).
  split; [exact Hlen|].
  exact (Hdefault 0%nat Sample.chart "" eq_refl eq_refl).
Defined.

Lemma GetRepoObjs_no_panic_sample :
  (GetRepoObjs Sample.packages (Sample.manager true false true) Sample.app
     [Sample.chart] "app.kubernetes.io/instance" ["1.2.3"; "unused"] false false true
     Sample.project true).2 <> Panic.
Proof.
  apply (GetRepoObjs_no_panic Sample.packages (Sample.manager true false true)
           Sample.app [Sample.chart] "app.kubernetes.io/instance" ["1.2.3"; "unused"]
           false false true Sample.project true).
  simpl. lia.
Defined.

(** The Git application is checked for changed paths, the repository server
    reports none, and the flag stays unset. *)
Lemma checked_sources_without_changes_sample :
  exists targetObjs manifestInfos changes,
    (GetRepoObjs Sample.packages (Sample.manager true true true) Scenario.gitApp
       [Scenario.gitSource] "app.kubernetes.io/instance" ["abc123"] false false true
       Sample.project true).2 = Returned (targetObjs, manifestInfos, changes)
    /\ changes = false.
Proof.
  eexists _, _, _. split; [vm_compute; reflexivity|].
  eapply (checked_sources_without_changes Sample.packages
           (Sample.manager true true true) Scenario.gitApp [Scenario.gitSource]
           "app.kubernetes.io/instance" ["abc123"] false false true Sample.project
           true _ _ false).
  - vm_compute. reflexivity.
  - intros [|i] source Hsource; simpl in Hsource; [|discriminate].
    injection Hsource as <-. vm_compute. reflexivity.
  - intros client req resp Hclient Hupdate. simpl in Hclient.
    injection Hclient as <-. simpl in Hupdate. injection Hupdate as <-.
    reflexivity.
Defined.

(** The cluster role loses its namespace and is tracked again; the
    Deployment and the missing document stay. *)
Lemma normalizeClusterScopeTracking_corrects_sample :
  exists normalised,
    normalizeClusterScopeTracking Sample.packages Scenario.rendered Scenario.scopes
      Scenario.retrack = (normalised, None)
    /\ length normalised = 3%nat
    /\ normalised !! 0%nat = Some (Some (Sample.deployment "" "web"))
    /\ normalised !! 2%nat
       = Some (Some (Scenario.retrack (Scenario.clusterRole "" "reader")).1).
Proof.
  eexists. split; [vm_compute; reflexivity|].
  destruct (normalizeClusterScopeTracking_corrects Sample.packages Scenario.rendered
              Scenario.scopes Scenario.retrack _ eq_refl) as [Hlen Hentries].
  split; [exact Hlen|]. split.
  - exact (Hentries 0%nat (Some (Sample.deployment "" "web")) eq_refl).
  - exact (Hentries 2%nat (Some (Scenario.clusterRole "default" "reader")) eq_refl).
Defined.

(** When the tracking fails on the cluster role, the error names it. *)
Lemma normalizeClusterScopeTracking_failure_sample :
  exists normalised err before targetObj behind,
    normalizeClusterScopeTracking Sample.packages Scenario.rendered Scenario.scopes
      Scenario.brokenTracking = (normalised, Some err)
    /\ Scenario.rendered = before ++ Some targetObj :: behind
    /\ err = fmt_Errorf
               ("failed to set app instance label on cluster-scoped resource "
                +:+ GVK_String Sample.packages (GroupVersionKind_of targetObj) +:+ "/"
                +:+ GetName targetObj)
               (errors_New "annotation is too long").
Proof.
  destruct (normalizeClusterScopeTracking_failure Sample.packages Scenario.rendered
              Scenario.scopes Scenario.brokenTracking
              [Some (Sample.deployment "" "web"); None;
               Some (Scenario.clusterRole "" "reader")]
              (fmt_Errorf
                 "failed to set app instance label on cluster-scoped resource rbac.authorization.k8s.io/v1, Kind=ClusterRole/reader"
                 (errors_New "annotation is too long")))
    as (before & targetObj & behind & behind' & cause & Hsplit & _ & Hcause & Herr & _).
  - vm_compute. reflexivity.
  - eexists _, _, before, targetObj, behind.
    split; [vm_compute; reflexivity|]. split; [exact Hsplit|].
    simpl in Hcause. injection Hcause as <-. exact Herr.
Defined.

Lemma normalizeClusterScopeTracking_idempotent_sample :
  exists normalised,
    normalizeClusterScopeTracking Sample.packages Scenario.rendered Scenario.scopes
      Scenario.retrack = (normalised, None)
    /\ normalizeClusterScopeTracking Sample.packages normalised Scenario.scopes
         Scenario.brokenTracking = (normalised, None).
Proof.
  eexists. split; [vm_compute; reflexivity|].
  apply (normalizeClusterScopeTracking_idempotent Sample.packages Scenario.rendered
           Scenario.scopes Scenario.retrack Scenario.brokenTracking).
  - intros u. split; reflexivity.
  - vm_compute. reflexivity.
Defined.

(** Two objects with different names and a missing document: both objects
    are returned, without a condition. *)
Lemma deduplicate_distinct_sample :
  let objs := [Some (Sample.deployment "" "web"); None;
               Some (Sample.deployment "default" "api")] in
  (DeduplicateTargetObjects Sample.packages 7 "default" objs (fun _ => Ok true)).1
    ≡ₚ [Sample.deployment "default" "web"; Sample.deployment "default" "api"]
  /\ (DeduplicateTargetObjects Sample.packages 7 "default" objs (fun _ => Ok true)).2
     = [].
Proof.
  intros objs.
  apply (deduplicate_distinct Sample.packages 7 "default" objs (fun _ => Ok true)).
  apply (bool_decide_unpack _). vm_compute. exact I.
Defined.

(** The unsigned response of the sample repository server is not accepted. *)
Lemma verifyGnuPGSignature_accepts_sample :
  exists msg,
    verifyGnuPGSignature Sample.packages 5 "1.2.3" Sample.project Sample.rendered
    = [comparisonError 5 msg].
Proof.
  apply (proj2 (verifyGnuPGSignature_accepts Sample.packages 5 "1.2.3" Sample.project
                  Sample.rendered)).
  intros [Hpayload _]. apply Hpayload. reflexivity.
Defined.

(** With the resources filter missing the settings fail with its error. *)
Lemma getComparisonSettings_first_error_sample :
  getComparisonSettings (Sample.manager false true true)
  = Err (errors_New "configmap argocd-cm not found").
Proof.
  apply (proj2 (getComparisonSettings_first_error (Sample.manager false true true)
                  (errors_New "configmap argocd-cm not found"))).
  right. split; [eexists; reflexivity|].
  right. split; [eexists; reflexivity|].
  left. reflexivity.
Defined.

(** The sample application has no managed-namespace metadata: a live Secret
    of another application gives a warning and nothing else. *)
Lemma trackLiveObjs_without_managed_namespace_sample :
  exists conditions,
    trackLiveObjs Sample.packages (Sample.manager true true true) 5 Sample.app
      Sample.settings false [(Sample.key Scenario.borrowed, Some Scenario.borrowed)]
    = ([], conditions, false)
    /\ Forall (fun c => cond_Type c = ApplicationConditionSharedResourceWarning)
         conditions
    /\ (length conditions <= 1)%nat.
Proof.
  apply (trackLiveObjs_without_managed_namespace Sample.packages
           (Sample.manager true true true) 5 Sample.app Sample.settings false
           [(Sample.key Scenario.borrowed, Some Scenario.borrowed)]).
  right. intros syncPolicy Hpolicy. simpl in Hpolicy. discriminate.
Defined.

(** On the cluster with live targets the result has an entry for each of
    the three pairs. *)
Lemma result_mirrors_pairs_sample :
  exists eff res,
    CompareAppState Sample.packages Scenario.manager ∅ 5
      Sample.app Sample.project ["1.2.3"] [Sample.chart] false false [] false
    = (eff, Returned res)
    /\ length (resources res) = length (rec_Target (reconciliationResult res))
    /\ exists liveObj rs mr,
         rec_Live (reconciliationResult res) !! 2%nat = Some liveObj
         /\ resources res !! 2%nat = Some rs
         /\ managedResources res !! 2%nat = Some mr
         /\ mirrorsPair None liveObj rs mr.
Proof.
  eexists _, _. split; [vm_compute; reflexivity|].
  match goal with
  | |- length (resources ?res) = _ /\ _ =>
      destruct (result_mirrors_pairs Sample.packages Scenario.manager ∅ 5
                  Sample.app Sample.project ["1.2.3"] [Sample.chart] false false []
                  false _ res ltac:(vm_compute; reflexivity))
        as (Hlen & _ & Hpairs)
  end.
  split; [exact Hlen|]. exact (Hpairs 2%nat None eq_refl).
Defined.

(** The verdict is Synced, and the one entry that is OutOfSync is the
    ConfigMap to ignore. *)
Lemma synced_verdict_entries_sample :
  exists eff res rs,
    CompareAppState Sample.packages Scenario.manager ∅ 5
      Sample.app Sample.project ["1.2.3"] [Sample.chart] false false [] false
    = (eff, Returned res)
    /\ sync_Status (syncStatus res) = SyncStatusCodeSynced
    /\ resources res !! 2%nat = Some rs
    /\ rs_Status rs = SyncStatusCodeOutOfSync
    /\ rec_Target (reconciliationResult res) !! 2%nat = Some None
    /\ rs_RequiresPruning rs = true.
Proof.
  eexists _, _, _. split; [vm_compute; reflexivity|].
  split; [reflexivity|]. split; [reflexivity|]. split; [reflexivity|].
  match goal with
  | |- rec_Target (reconciliationResult ?res) !! _ = _ /\ rs_RequiresPruning ?rs = _ =>
      destruct (synced_verdict_entries Sample.packages Scenario.manager ∅ 5
                  Sample.app Sample.project ["1.2.3"] [Sample.chart] false false []
                  false _ res ltac:(vm_compute; reflexivity) eq_refl)
        as [_ Hentries];
      destruct (Hentries 2%nat rs eq_refl eq_refl) as (Htarget & Hprune & _)
  end.
  split; [exact Htarget|exact Hprune].
Defined.

(** With the cluster cache down the verdict is Unknown. *)
Lemma verdict_unknown_iff_failed_sample :
  exists eff res,
    CompareAppState Sample.packages (Sample.manager true true false) ∅ 5
      Sample.app Sample.project ["1.2.3"] [Sample.chart] false false [] false
    = (eff, Returned res)
    /\ eff_failedToLoadObjs eff = true
    /\ sync_Status (syncStatus res) = SyncStatusCodeUnknown.
Proof.
  eexists _, _. split; [vm_compute; reflexivity|]. split; [reflexivity|].
  match goal with
  | |- sync_Status (syncStatus ?res) = _ =>
      destruct (verdict_unknown_iff_failed Sample.packages
                  (Sample.manager true true false) ∅ 5 Sample.app Sample.project
                  ["1.2.3"] [Sample.chart] false false [] false Sample.settings
                  _ res ltac:(vm_compute; reflexivity) ltac:(vm_compute; reflexivity))
        as [Hunknown _]
  end.
  apply Hunknown. reflexivity.
Defined.

(** With the repository server down the pass ends in the sentinel. *)
Lemma CompareAppState_errors_sample :
  exists eff,
    CompareAppState Sample.packages (Sample.manager true false true) ∅ 5
      Sample.app Sample.project ["1.2.3"] [Sample.chart] false false [] false
    = (eff, Failed ErrCompareStateRepo)
    /\ eff_checkpoints eff = ["settings_ms"]
    /\ eff_conditions eff = None.
Proof.
  destruct (CompareAppState Sample.packages (Sample.manager true false true) ∅ 5
              Sample.app Sample.project ["1.2.3"] [Sample.chart] false false [] false)
    as [eff out] eqn:Hrun.
  assert (Hout : out = Failed ErrCompareStateRepo).
  { apply (f_equal snd) in Hrun. vm_compute in Hrun. symmetry. exact Hrun. }
  subst out. exists eff. split; [reflexivity|].
  destruct (CompareAppState_errors Sample.packages
              (Sample.manager true false true) ∅ 5 Sample.app Sample.project
              ["1.2.3"] [Sample.chart] false false [] false eff
              ErrCompareStateRepo Hrun)
    as (Hcheckpoints & Hconditions & _).
  split; [exact Hcheckpoints|exact Hconditions].
Defined.


(** A failing pass of [guestbook] leaves the entry of [billing] alone. *)
Lemma repoErrorCache_frame_sample :
  eff_repoErrorCache
    (CompareAppState Sample.packages (Sample.manager true false true)
       (<["billing" := 3%Z]> ∅) 5
       Sample.app Sample.project ["1.2.3"] [Sample.chart] false false [] false).1
    !! "billing"
  = Some 3%Z.
Proof.
  rewrite (repoErrorCache_frame Sample.packages (Sample.manager true false true)
             (<["billing" := 3%Z]> ∅) 5 Sample.app Sample.project ["1.2.3"]
             [Sample.chart] false false [] false "billing").
  - reflexivity.
  - simpl. discriminate.
Defined.

(** The sample project declares a signature key: local manifests are
    refused. *)
Lemma local_manifests_refused_sample :
  let pass :=
    CompareAppState Sample.packages (Sample.manager true true true) ∅ 5
      Sample.app Sample.project ["1.2.3"] [Sample.chart] false false
      ["Deployment"] false in
  eff_repoErrorCache pass.1 = ∅
  /\ eff_failedToLoadObjs pass.1 = true
  /\ exists res, pass.2 = Returned res
                 /\ sync_Status (syncStatus res) = SyncStatusCodeUnknown.
Proof.
  intros pass.
  destruct (local_manifests_refused Sample.packages (Sample.manager true true true)
              ∅ 5 Sample.app Sample.project ["1.2.3"] [Sample.chart] false false
              ["Deployment"] false Sample.settings Sample.cluster)
    as (Hcache & Hfailed & _ & Hres).
  - vm_compute. reflexivity.
  - vm_compute. reflexivity.
  - discriminate.
  - simpl. discriminate.
  - reflexivity.
  - split; [exact Hcache|]. split; [exact Hfailed|].
    eexists. split; [vm_compute; reflexivity|].
    eapply Hres. vm_compute. reflexivity.
Defined.

(** With the revision cache bypassed the failure of the repository server
    is reported in the result. *)
Lemma repo_error_reported_sample :
  let pass :=
    CompareAppState Sample.packages (Sample.manager true false true) ∅ 5
      Sample.app Sample.project ["1.2.3"] [Sample.chart] false true [] false in
  eff_repoErrorCache pass.1 = ∅
  /\ eff_failedToLoadObjs pass.1 = true
  /\ exists res rest,
       pass.2 = Returned res
       /\ sync_Status (syncStatus res) = SyncStatusCodeUnknown
       /\ eff_conditions pass.1
          = Some (comparisonError 5
                    "Failed to load target state: failed to generate manifest for source 1 of 1: rpc error: code = Unavailable"
                  :: rest).
Proof.
  intros pass.
  destruct (repo_error_reported Sample.packages (Sample.manager true false true)
              ∅ 5 Sample.app Sample.project ["1.2.3"] [Sample.chart] false true
              false Sample.settings Sample.cluster
              (fmt_Errorf "failed to generate manifest for source 1 of 1"
                 (errors_New "rpc error: code = Unavailable")))
    as (Hcache & Hfailed & _ & Hres).
  - vm_compute. reflexivity.
  - vm_compute. reflexivity.
  - vm_compute. reflexivity.
  - left. reflexivity.
  - split; [exact Hcache|]. split; [exact Hfailed|].
    destruct (Hres (match pass.2 with Returned res => res
                    | _ => zeroComparisonResult
                             (initialSyncStatus Sample.app [] [] false) "" end))
      as (Hsync & _ & rest & Hconditions).
    + vm_compute. reflexivity.
    + eexists _, rest. split; [vm_compute; reflexivity|].
      split; [exact Hsync|exact Hconditions].
Defined.

(** The open pull request gives one parameter map, with its labels. *)
Lemma GenerateParams_one_map_per_pull_sample :
  exists params generated,
    Generators.GenerateParams Scenario.services Scenario.generator
      (Some Scenario.appSetGenerator) (Some Scenario.appSet) = Returned params
    /\ length params = 1%nat
    /\ params !! 0%nat = Some generated
    /\ generated !! "labels" = Some (Generators.any_strings ["preview"]).
Proof.
  assert (Hreturned :
    match Generators.GenerateParams Scenario.services Scenario.generator
            (Some Scenario.appSetGenerator) (Some Scenario.appSet) with
    | Returned _ => True
    | _ => False
    end) by (vm_compute; exact I).
  destruct (Generators.GenerateParams Scenario.services Scenario.generator
              (Some Scenario.appSetGenerator) (Some Scenario.appSet))
    as [params| |] eqn:Hrun; [|destruct Hreturned..].
  destruct (GenerateParams_one_map_per_pull Scenario.services Scenario.generator
              Scenario.appSetGenerator Scenario.pullRequests (Some Scenario.appSet)
              "github" [Scenario.pull] params eq_refl eq_refl eq_refl Hrun)
    as [Hlen Hmaps].
  destruct (Hmaps 0%nat Scenario.pull eq_refl)
    as (info & built & templated & Hinfo & _ & _ & Hparams & Hlabels & _).
  injection Hinfo as <-.
  eexists params, _. split; [reflexivity|]. split; [exact Hlen|].
  split; [exact Hparams|]. exact (Hlabels eq_refl).
Defined.

(** Without an application set the open pull request makes the call
    panic. *)
Lemma GenerateParams_without_application_set_sample :
  Generators.GenerateParams Scenario.services Scenario.generator
    (Some Scenario.appSetGenerator) None = Panic.
Proof.
  exact (GenerateParams_without_application_set Scenario.services Scenario.generator
           Scenario.appSetGenerator Scenario.pullRequests "github" [Scenario.pull]
           eq_refl eq_refl eq_refl).
Defined.

(** Without a generator the error is the one of the package. *)
Lemma GenerateParams_errors_sample :
  Generators.GenerateParams Scenario.services Scenario.generator None
    (Some Scenario.appSet) = Failed (errors_New "ApplicationSet is empty")
  /\ (errors_New "ApplicationSet is empty"
      = Generators.ErrEmptyAppSetGenerator Scenario.services
      \/ exists prefix cause,
           errors_New "ApplicationSet is empty" = fmt_Errorf prefix cause).
Proof.
  split; [reflexivity|].
  destruct (GenerateParams_errors Scenario.services Scenario.generator None
              (Some Scenario.appSet) (errors_New "ApplicationSet is empty") eq_refl)
    as [[Hempty _]|(gen & pullRequest & cause & Hgen & _)].
  - left. exact Hempty.
  - discriminate Hgen.
Defined.

(** Ten minutes are 600 seconds. *)
Lemma GetRequeueAfter_exact_sample :
  Generators.GetRequeueAfter (Some Scenario.appSetGenerator)
  = Returned 600000000000%Z.
Proof.
  apply (proj1 (GetRequeueAfter_exact Scenario.appSetGenerator Scenario.pullRequests
                  eq_refl) 600%Z).
  - reflexivity.
  - lia.
Defined.

(** With a local manifest the pass is the same when the repository server
    cannot be reached. *)
Lemma local_manifests_without_repo_server_sample :
  CompareAppState Sample.packages
    (withRepoClientset (Sample.manager true true true)
       (Err (errors_New "connection refused")))
    ∅ 5 Sample.app Sample.project ["1.2.3"] [Sample.chart] false false
    ["Deployment"] false
  = CompareAppState Sample.packages (Sample.manager true true true)
      ∅ 5 Sample.app Sample.project ["1.2.3"] [Sample.chart] false false
      ["Deployment"] false.
Proof.
  apply (local_manifests_without_repo_server Sample.packages
           (Sample.manager true true true) (Err (errors_New "connection refused"))
           ∅ 5 Sample.app Sample.project ["1.2.3"] [Sample.chart] false false
           ["Deployment"] false).
  discriminate.
Defined.
